(** * Referral fraud detection: a shallow embedding of the rule engine,
      the identifier and time helpers and the join stage.

    Sources embedded here:
      - [src/fraud_check.py]  ([get_source_category], [main] from the
        category fix to the report, [check_logic])
      - [src/time.py] and [src/timezone_cinversion.py]
        ([get_correct_referral_file], [to_local], [clean_id],
        [get_source_category], the merges and the title-casing of [main])

    Python strings are modelled by [string]; one [ascii] stands for one code
    point below 256.  Exceptions are modelled by the [result] monad. *)

From Stdlib Require Import ZArith Bool List Ascii String Lia.
From Stdlib Require Import Numbers.DecimalString.
From stdpp Require Import base option list gmap strings fin_maps.

Local Open Scope string_scope.
Local Open Scope list_scope.

(** ** Exceptions *)

Inductive exn : Type :=
| KeyError (key : string)
| UnknownTimeZoneError (name : string)
| OtherError.

Inductive result (A : Type) : Type :=
| Ok (a : A)
| Raise (e : exn).

Arguments Ok {A} a.
Arguments Raise {A} e.

(** Sequencing: an exception raised by [m] ends the computation. *)
Definition bind {A B} (m : result A) (k : A -> result B) : result B :=
  match m with
  | Ok a => k a
  | Raise e => Raise e
  end.

Notation "'let*' x ':=' m 'in' k" := (bind m (fun x => k))
  (at level 10, x name, m at level 100, k at level 200).

Definition raises {A} (m : result A) : Prop := exists e, m = Raise e.

(** Python's [a and b] on booleans: [b] is evaluated only when [a] is true. *)
Definition py_and (a b : result bool) : result bool :=
  let* x := a in if x then b else Ok false.

(** Python's [not a]. *)
Definition py_not (a : result bool) : result bool :=
  let* x := a in Ok (negb x).

Infix "&&&" := py_and (at level 40, left associativity).

(** Python's [if c: return t] followed by the rest of the body [e]. *)
Definition py_if {A} (c : result bool) (t e : result A) : result A :=
  let* x := c in if x then t else e.

Notation "'if_' c 'return_' t ';;' e" := (py_if c (Ok t) e)
  (at level 10, c at level 100, t at level 9, e at level 200,
   format "'[v' 'if_'  c  'return_'  t ';;' '/' e ']'").

(** ** The validity rule engine ([fraud_check.py], [check_logic]) *)

Module RuleEngine.

(** A row as [check_logic] reads it: the boolean flag columns by name.
    [row[k]] raises [KeyError] when the column is absent. *)
Definition getitem (row : gmap string bool) (k : string) : result bool :=
  match row !! k with
  | Some b => Ok b
  | None => Raise (KeyError k)
  end.

Definition check_logic (row : gmap string bool) : result bool :=
  (* Valid 1: Perfect *)
  if_ getitem row "has_reward" &&& getitem row "is_success" &&&
      getitem row "has_trans_id" &&& getitem row "is_trans_paid" &&&
      getitem row "is_trans_new" &&& getitem row "tx_after_ref" &&&
      getitem row "same_month" &&& getitem row "is_member_active" &&&
      getitem row "is_account_active" &&& getitem row "is_granted"
  return_ true;;
  (* Valid 2: Pending/Failed (No Reward) *)
  if_ getitem row "is_pending_or_failed" &&& py_not (getitem row "has_reward")
  return_ true;;
  (* Invalid rules *)
  if_ getitem row "has_reward" &&& py_not (getitem row "is_success")
  return_ false;;
  if_ getitem row "has_reward" &&& py_not (getitem row "has_trans_id")
  return_ false;;
  if_ py_not (getitem row "has_reward") &&& getitem row "has_trans_id" &&&
      getitem row "is_trans_paid" &&& getitem row "tx_after_ref"
  return_ false;;
  if_ getitem row "is_success" &&& py_not (getitem row "has_reward")
  return_ false;;
  if_ getitem row "has_trans_id" &&& py_not (getitem row "tx_after_ref")
  return_ false;;
  Ok false.

(** The eleven flags of one row, and the row [main] builds from them
    (lines 82-116 assign exactly these columns). *)
Record Flags : Type := mkFlags {
  has_reward : bool;
  is_success : bool;
  is_pending_or_failed : bool;
  has_trans_id : bool;
  is_trans_paid : bool;
  is_trans_new : bool;
  tx_after_ref : bool;
  same_month : bool;
  is_member_active : bool;
  is_account_active : bool;
  is_granted : bool
}.

Definition flag_columns : list string :=
  ["has_reward"; "is_success"; "is_pending_or_failed"; "has_trans_id";
   "is_trans_paid"; "is_trans_new"; "tx_after_ref"; "same_month";
   "is_member_active"; "is_account_active"; "is_granted"].

Definition row_of (f : Flags) : gmap string bool :=
  <["has_reward" := has_reward f]>
  (<["is_success" := is_success f]>
  (<["is_pending_or_failed" := is_pending_or_failed f]>
  (<["has_trans_id" := has_trans_id f]>
  (<["is_trans_paid" := is_trans_paid f]>
  (<["is_trans_new" := is_trans_new f]>
  (<["tx_after_ref" := tx_after_ref f]>
  (<["same_month" := same_month f]>
  (<["is_member_active" := is_member_active f]>
  (<["is_account_active" := is_account_active f]>
  (<["is_granted" := is_granted f]> ∅)))))))))).

(** The decision table in the words of the specification: seven
    (condition, verdict) pairs tried top to bottom, and a default. *)
Definition perfect_path (f : Flags) : bool :=
  has_reward f && is_success f && has_trans_id f && is_trans_paid f &&
  is_trans_new f && tx_after_ref f && same_month f && is_member_active f &&
  is_account_active f && is_granted f.

Definition decision_table : list ((Flags -> bool) * bool) :=
  [ (perfect_path, true);
    (fun f => is_pending_or_failed f && negb (has_reward f), true);
    (fun f => has_reward f && negb (is_success f), false);
    (fun f => has_reward f && negb (has_trans_id f), false);
    (fun f => negb (has_reward f) && has_trans_id f && is_trans_paid f &&
              tx_after_ref f, false);
    (fun f => is_success f && negb (has_reward f), false);
    (fun f => has_trans_id f && negb (tx_after_ref f), false) ].

(** Number (from [n]) of the first rule of [tbl] whose condition holds, with
    its verdict; past the end of the table the default rule denies. *)
Fixpoint first_match (n : nat) (tbl : list ((Flags -> bool) * bool))
    (f : Flags) : nat * bool :=
  match tbl with
  | [] => (n, false)
  | (cond, verdict) :: rest =>
      if cond f then (n, verdict) else first_match (S n) rest f
  end.

Definition first_rule (f : Flags) : nat := fst (first_match 1 decision_table f).
Definition table_verdict (f : Flags) : bool := snd (first_match 1 decision_table f).

(** Every assignment of the eleven flags. *)
Definition all_flags : list Flags :=
  a ← [true; false]; b ← [true; false]; c ← [true; false]; d ← [true; false];
  e ← [true; false]; g ← [true; false]; h ← [true; false]; i ← [true; false];
  j ← [true; false]; k ← [true; false]; l ← [true; false];
  [mkFlags a b c d e g h i j k l].

End RuleEngine.

(** ** Python string operations used by the helpers *)

Module PyStr.

Definition code (c : ascii) : N := N_of_ascii c.

Definition in_range (lo hi : N) (c : ascii) : bool :=
  ((lo <=? code c) && (code c <=? hi))%N.

(** [str.isspace] on one character: TAB..CR, FS..US, space, NEL, NBSP. *)
Definition is_space (c : ascii) : bool :=
  in_range 9 13 c || in_range 28 32 c || (code c =? 133)%N || (code c =? 160)%N.

(** Characters that [str.lower] changes: A-Z and the Latin-1 capitals
    (0xC0-0xDE without the multiplication sign 0xD7). *)
Definition is_upper (c : ascii) : bool :=
  in_range 65 90 c || (in_range 192 222 c && negb (code c =? 215)%N).

Definition lower_char (c : ascii) : ascii :=
  if is_upper c then ascii_of_N (code c + 32) else c.

Fixpoint lower (s : string) : string :=
  match s with
  | EmptyString => EmptyString
  | String c s' => String (lower_char c) (lower s')
  end.

(** [str.upper] on one character.  The sharp s becomes "SS"; the micro sign
    and y-diaeresis have upper-case forms above code point 255 and are left
    as they are here. *)
Definition upper_char (c : ascii) : string :=
  if in_range 97 122 c || (in_range 224 254 c && negb (code c =? 247)%N)
  then String (ascii_of_N (code c - 32)) EmptyString
  else if (code c =? 223)%N then "SS"
  else String c EmptyString.

Fixpoint upper (s : string) : string :=
  match s with
  | EmptyString => EmptyString
  | String c s' => upper_char c ++ upper s'
  end.

Fixpoint lstrip (s : string) : string :=
  match s with
  | EmptyString => EmptyString
  | String c s' => if is_space c then lstrip s' else s
  end.

Fixpoint rstrip (s : string) : string :=
  match s with
  | EmptyString => EmptyString
  | String c s' =>
      match rstrip s' with
      | EmptyString => if is_space c then EmptyString else String c EmptyString
      | r => String c r
      end
  end.

(** [s.strip()] *)
Definition strip (s : string) : string := rstrip (lstrip s).

(** [s.startswith(p)] *)
Fixpoint startswith (s p : string) {struct p} : bool :=
  match p, s with
  | EmptyString, _ => true
  | String a p', String b s' => Ascii.eqb a b && startswith s' p'
  | String _ _, EmptyString => false
  end.

(** [x in s] for strings: [x] occurs in [s] as a contiguous substring. *)
Fixpoint contains (s x : string) : bool :=
  startswith s x ||
  match s with
  | EmptyString => false
  | String _ s' => contains s' x
  end.

(** [s.endswith(suffix)]: [s] is [suffix], or the rest of [s] after its first
    character ends with [suffix]. *)
Fixpoint endswith (s suffix : string) : bool :=
  String.eqb s suffix ||
  match s with
  | EmptyString => false
  | String _ s' => endswith s' suffix
  end.

(** [s[:-n]] for [n > 0] *)
Definition drop_last (n : nat) (s : string) : string :=
  substring 0 (String.length s - n) s.

(** [x in l] for a list of strings *)
Definition in_list (x : string) (l : list string) : bool :=
  existsb (String.eqb x) l.

(** [str(z)] for an integer *)
Definition str_of_Z (z : Z) : string := NilZero.string_of_int (Z.to_int z).

(** Case-insensitive match of the literal [p] at the start of [s], as
    [re.IGNORECASE] compares characters. *)
Fixpoint ci_startswith (s p : string) {struct p} : bool :=
  match p, s with
  | EmptyString, _ => true
  | String a p', String b s' =>
      Ascii.eqb (lower_char a) (lower_char b) && ci_startswith s' p'
  | String _ _, EmptyString => false
  end.

(** [re.search] of one literal, ignoring case. *)
Fixpoint ci_search (s p : string) : bool :=
  ci_startswith s p ||
  match s with
  | EmptyString => false
  | String _ s' => ci_search s' p
  end.

(** [Series.str.contains('a|b|...', case=False, regex=True)] on one string,
    for a pattern that is an alternation of literals. *)
Definition contains_any_ci (alternatives : list string) (s : string) : bool :=
  existsb (ci_search s) alternatives.

End PyStr.

(** ** Table cells and timestamps *)

Module Cell.
Import PyStr.

(** Proleptic Gregorian date of a day number counted from 1970-01-01. *)
Definition civil_from_days (days : Z) : Z * Z * Z :=
  let z := (days + 719468)%Z in
  let era := (z / 146097)%Z in
  let doe := (z - era * 146097)%Z in
  let yoe := ((doe - doe / 1460 + doe / 36524 - doe / 146096) / 365)%Z in
  let doy := (doe - (365 * yoe + yoe / 4 - yoe / 100))%Z in
  let mp := ((5 * doy + 2) / 153)%Z in
  let d := (doy - (153 * mp + 2) / 5 + 1)%Z in
  let m := (if mp <? 10 then mp + 3 else mp - 9)%Z in
  let y := (yoe + era * 400 + (if m <=? 2 then 1 else 0))%Z in
  (y, m, d).

(** A naive timestamp is its wall-clock time in seconds since
    1970-01-01 00:00:00 (one-second resolution, unbounded). *)
Definition year_of (t : Z) : Z := fst (fst (civil_from_days (t / 86400))).
Definition month_of (t : Z) : Z := snd (fst (civil_from_days (t / 86400))).
Definition day_of (t : Z) : Z := snd (civil_from_days (t / 86400)).

(** [ts.to_period('M')], as the pair (year, month). *)
Definition to_period_M (t : Z) : Z * Z := (year_of t, month_of t).

(** [ts.normalize()]: midnight of the same day. *)
Definition normalize (t : Z) : Z := (t - t mod 86400)%Z.

Definition pad (width : nat) (z : Z) : string :=
  let digits := str_of_Z z in
  String.concat "" (repeat "0" (width - String.length digits)) ++ digits.

(** [str(ts)] of a naive timestamp: YYYY-MM-DD HH:MM:SS. *)
Definition str_of_time (t : Z) : string :=
  let s := (t mod 86400)%Z in
  pad 4 (year_of t) ++ "-" ++ pad 2 (month_of t) ++ "-" ++ pad 2 (day_of t) ++
  " " ++ pad 2 (s / 3600) ++ ":" ++ pad 2 (s mod 3600 / 60) ++ ":" ++
  pad 2 (s mod 60).

(** One value of a pandas column.  [NA] stands for every missing marker
    (NaN, None, pd.NA, NaT).  [Float z], for [z] of absolute value up to
    2^53, is the float whose value is the integer [z], which is what pandas
    makes of an integer column with gaps.  Other floats are outside the
    model: above 2^53 not every integer is a float, and from 10^16 on Python
    prints a float in exponent form.  [float_range] is that range. *)
Inductive cell : Type :=
| NA
| Str (s : string)
| Int (z : Z)
| Float (z : Z)
| Bool (b : bool)
| Time (t : Z).

#[global] Instance cell_eq_dec : EqDecision cell.
Proof. solve_decision. Defined.


(** [pd.isna(v)] *)
Definition isna (v : cell) : bool :=
  match v with NA => true | _ => false end.

(** [str(v)]; a missing cell read from a CSV file is NaN and prints "nan".
    An integer-valued float in [float_range] prints as the integer followed
    by ".0"; what is stated of [py_str (Float z)] is stated for that range
    only (2^53 is below 10^16, where Python switches to exponent form). *)
Definition py_str (v : cell) : string :=
  match v with
  | NA => "nan"
  | Str s => s
  | Int z => str_of_Z z
  | Float z => str_of_Z z ++ ".0"
  | Bool true => "True"
  | Bool false => "False"
  | Time t => str_of_time t
  end.

End Cell.

(** ** Helpers of [time.py] and [timezone_cinversion.py] *)

Module Helpers.
Import PyStr Cell.

(** [clean_id] (identical in both files); [pd.NA] is [NA]. *)
Definition clean_id (val : cell) : cell :=
  if isna val || in_list (lower (py_str val)) ["nan"; "null"; ""] then NA
  else
    let val := strip (py_str val) in
    if endswith val ".0" then Str (drop_last 2 val)
    else Str val.

(** [get_source_category] (identical in [fraud_check.py] and
    [timezone_cinversion.py]). *)
Definition get_source_category (source : cell) : string :=
  let s := lower (py_str source) in
  if existsb (fun x => contains s x) ["user sign up"; "app"; "web"; "online"]
  then "Online"
  else if existsb (fun x => contains s x) ["draft transaction"; "lead"; "walk"]
  then "Offline"
  else "Other".

(** A [pd.Timestamp]: its wall clock and, when it is zone-aware, the offset
    from UTC (in seconds) of its zone at that moment. *)
Record Timestamp : Type := mkTimestamp {
  clock : Z;
  tzinfo : option Z
}.

(** A time zone of the zone database: the UTC offset in force at a given
    UTC instant. *)
Record Zone : Type := mkZone {
  utcoffset : Z -> Z
}.

(** [ts.tz_localize("UTC")] on a naive timestamp. *)
Definition tz_localize_utc (ts : Timestamp) : Timestamp :=
  mkTimestamp (clock ts) (Some 0%Z).

(** [ts.astimezone(zone)] on an aware timestamp; on a naive one pandas
    raises [TypeError]. *)
Definition astimezone (ts : Timestamp) (zone : Zone) : result Timestamp :=
  match tzinfo ts with
  | Some off =>
      let utc := (clock ts - off)%Z in
      Ok (mkTimestamp (utc + utcoffset zone utc) (Some (utcoffset zone utc)))
  | None => Raise OtherError
  end.

(** [ts.replace(tzinfo=None)] *)
Definition replace_tzinfo_none (ts : Timestamp) : Timestamp :=
  mkTimestamp (clock ts) None.

(** [try: body except: handler] *)
Definition try_except {A} (body : result A) (handler : result A) : result A :=
  match body with
  | Ok a => Ok a
  | Raise _ => handler
  end.

Section ToLocal.

(** The zone database behind [pytz.timezone]. *)
Variable tzdb : string -> option Zone.

Definition pytz_timezone (name : string) : result Zone :=
  match tzdb name with
  | Some z => Ok z
  | None => Raise (UnknownTimeZoneError name)
  end.

(** [to_local] (identical in both files).  [ts] is a timestamp or NaT
    ([None]); [tz] is a cell of the time zone column; [pd.NaT] is [None]. *)
Definition to_local (ts : option Timestamp) (tz : cell) : result (option Timestamp) :=
  match ts with
  | None => Ok None
  | Some ts =>
      if isna tz || String.eqb (lower (py_str tz)) "nan" then Ok None
      else
        (* the rebinding of [ts] is the first statement of the [try] block;
           it cannot fail, and the handler sees the rebound [ts] *)
        let ts := match tzinfo ts with
                  | None => tz_localize_utc ts
                  | Some _ => ts
                  end in
        try_except
          (let* zone := pytz_timezone (py_str tz) in
           let* local := astimezone ts zone in
           Ok (Some (replace_tzinfo_none local)))
          (Ok (Some (replace_tzinfo_none ts)))
  end.

End ToLocal.

(** A two-entry zone database for examples. *)
Definition sample_tzdb (name : string) : option Zone :=
  if String.eqb name "Asia/Jakarta" then Some (mkZone (fun _ => 25200%Z))
  else if String.eqb name "UTC" then Some (mkZone (fun _ => 0%Z))
  else None.

End Helpers.

(** ** Data frames *)

Module Frame.
Import PyStr Cell Helpers.

(** A table: its header and its rows, each row holding one cell per column
    of the header, in order. *)
Record DataFrame : Type := mkDF {
  columns : list string;
  rows : list (list cell)
}.

(** [pd.DataFrame()] *)
Definition empty_frame : DataFrame := mkDF [] [].

(** [len(df)] *)
Definition nrows (df : DataFrame) : nat := length (rows df).

(** [df.empty]: no column or no row. *)
Definition df_empty (df : DataFrame) : bool :=
  match columns df, rows df with
  | [], _ | _, [] => true
  | _, _ => false
  end.

(** [c in df.columns] *)
Definition has_column (df : DataFrame) (c : string) : bool :=
  in_list c (columns df).

Fixpoint col_index (c : string) (cols : list string) : option nat :=
  match cols with
  | [] => None
  | c' :: rest => if String.eqb c c' then Some 0 else S <$> col_index c rest
  end.

Definition locate (df : DataFrame) (c : string) : result nat :=
  match col_index c (columns df) with
  | Some i => Ok i
  | None => Raise (KeyError c)
  end.

Definition cell_at (i : nat) (row : list cell) : cell := nth i row NA.

(** [df[c]] read: the column as a list, or [KeyError]. *)
Definition getitem (df : DataFrame) (c : string) : result (list cell) :=
  let* i := locate df c in Ok (cell_at i <$> rows df).

(** [df[c] = values]: overwrite the column, or append a new one.  Every use
    below assigns one value per row (pandas raises on another length). *)
Definition setitem (df : DataFrame) (c : string) (values : list cell) : DataFrame :=
  match col_index c (columns df) with
  | Some i => mkDF (columns df) (zip_with (fun r v => <[i := v]> r) (rows df) values)
  | None => mkDF (columns df ++ [c]) (zip_with (fun r v => r ++ [v]) (rows df) values)
  end.

(** [df[c] = scalar] *)
Definition setitem_scalar (df : DataFrame) (c : string) (v : cell) : DataFrame :=
  setitem df c (replicate (nrows df) v).

(** [df[c] = df[c].apply(f)] *)
Definition apply_column (f : cell -> cell) (c : string) (df : DataFrame)
    : result DataFrame :=
  let* col := getitem df c in Ok (setitem df c (f <$> col)).

(** [df.columns = df.columns.str.strip()] *)
Definition strip_columns (df : DataFrame) : DataFrame :=
  mkDF (strip <$> columns df) (rows df).

Fixpoint rename_one (mapping : list (string * string)) (c : string) : string :=
  match mapping with
  | [] => c
  | (old, new) :: rest => if String.eqb c old then new else rename_one rest c
  end.

(** [df.rename(columns=mapping)] *)
Definition rename (df : DataFrame) (mapping : list (string * string)) : DataFrame :=
  mkDF (rename_one mapping <$> columns df) (rows df).

Fixpoint locate_all (df : DataFrame) (cs : list string) : result (list nat) :=
  match cs with
  | [] => Ok []
  | c :: rest => let* i := locate df c in let* js := locate_all df rest in Ok (i :: js)
  end.

(** [df[[c1, ..., cn]]] *)
Definition select (df : DataFrame) (cs : list string) : result DataFrame :=
  let* idx := locate_all df cs in
  Ok (mkDF cs ((fun r => (fun i => cell_at i r) <$> idx) <$> rows df)).

(** [df.dropna(subset=[c])] *)
Definition dropna (df : DataFrame) (c : string) : result DataFrame :=
  let* i := locate df c in
  Ok (mkDF (columns df) (filter (fun r => isna (cell_at i r) = false) (rows df))).

(** The value a key is compared by, in a join and in the search for
    duplicates: pandas compares an int64 key and a float64 key by value, and
    inside a column of dtype object it compares as Python does ([2 == 2.0],
    [True == 1]).  Text is compared by its characters, and missing keys
    equal each other. *)
Definition key_of (v : cell) : cell :=
  match v with
  | Float z => Int z
  | Bool b => Int (if b then 1 else 0)
  | _ => v
  end.

(** The value of a cell whatever the dtype of its column: an integer and
    the float of the same value are one number.  A left join that leaves a
    gap in an int64 column of the right table makes pandas hold that column
    as float64; the join below copies the cells as they are, so its result
    is read through [value_of] where that matters. *)
Definition value_of (v : cell) : cell :=
  match v with
  | Float z => Int z
  | _ => v
  end.

(** Keep the first row for every key; [seen] are the keys already kept. *)
Fixpoint dedup (i : nat) (seen : list cell) (rs : list (list cell))
    : list (list cell) :=
  match rs with
  | [] => []
  | r :: rest =>
      if bool_decide (key_of (cell_at i r) ∈ seen) then dedup i seen rest
      else r :: dedup i (key_of (cell_at i r) :: seen) rest
  end.

(** [df.drop_duplicates(subset=[c])] *)
Definition drop_duplicates (df : DataFrame) (c : string) : result DataFrame :=
  let* i := locate df c in Ok (mkDF (columns df) (dedup i [] (rows df))).

(** Rows of the right table whose key equals [k] (missing keys match each
    other, as in pandas). *)
Definition matches (ri : nat) (k : cell) (right : list (list cell))
    : list (list cell) :=
  filter (fun r => key_of (cell_at ri r) = key_of k) right.

(** The cells a right row contributes: all of them, or all but the key when
    both tables join [on] the same column name. *)
Definition payload {A} (shared : bool) (ri : nat) (r : list A) : list A :=
  if shared then take ri r ++ drop (S ri) r else r.

Definition join_row (shared : bool) (ri width : nat) (right : list (list cell))
    (li : nat) (l : list cell) : list (list cell) :=
  match matches ri (cell_at li l) right with
  | [] => [l ++ replicate width NA]
  | ms => (fun r => l ++ payload shared ri r) <$> ms
  end.

Definition with_suffix (overlap : list string) (suffix : string) (c : string)
    : string :=
  if in_list c overlap then c ++ suffix else c.

(** The position of the key column [key]: [KeyError] when there is no such
    column, and pandas' [ValueError] ("The column label is not unique")
    when there are several. *)
Definition key_position (df : DataFrame) (key : string) : result nat :=
  let* i := locate df key in
  if in_list key (drop (S i) (columns df)) then Raise OtherError else Ok i.

(** The left join of two tables on the key columns at [li] and [ri];
    [shared] says that both keys have one name, so that the key appears once
    in the result. *)
Definition joined (left right : DataFrame) (li ri : nat) (shared : bool)
    (ls rs : string) : DataFrame :=
  let rcols := payload shared ri (columns right) in
  let lcols := if shared then take li (columns left) ++ drop (S li) (columns left)
               else columns left in
  let overlap := filter (fun c => in_list c rcols = true) lcols in
  mkDF ((with_suffix overlap ls <$> columns left) ++
        (with_suffix overlap rs <$> rcols))
       (rows left ≫= join_row shared ri (length rcols) (rows right) li).

(** [left.merge(right, left_on=lkey, right_on=rkey, how='left',
    suffixes=(ls, rs))]; [on=k] is [lkey = rkey = k].  pandas looks the
    right key up first.  This is the merge of two key columns of dtype
    object, as the columns that went through [clean_id] are: pandas accepts
    every such pair.  For key columns as [read_csv] types them see
    [merge_csv].  The two errors of the key look-up are the ones modelled
    (some pandas versions also refuse suffixes that produce one column name
    twice), so what is proved of a merge is proved of a merge that
    completes. *)
Definition merge_left (left right : DataFrame) (lkey rkey : string)
    (ls rs : string) : result DataFrame :=
  let* ri := key_position right rkey in
  let* li := key_position left lkey in
  Ok (joined left right li ri (String.eqb lkey rkey) ls rs).

(** How [read_csv] types a column, as far as a merge looks at its keys:
    int64 or float64 when every cell is a number or missing, bool when every
    cell is a boolean, and object otherwise.  An object column counts as
    text unless an integer is among its values (pandas infers
    "mixed-integer" then). *)
Definition is_number (v : cell) : bool :=
  match v with Int _ | Float _ | NA => true | _ => false end.

Definition is_boolean (v : cell) : bool :=
  match v with Bool _ => true | _ => false end.

Definition is_integer (v : cell) : bool :=
  match v with Int _ => true | _ => false end.

Definition number_keys (col : list cell) : bool := forallb is_number col.

Definition text_keys (col : list cell) : bool :=
  negb (forallb is_number col) && negb (forallb is_boolean col) &&
  negb (existsb is_integer col).

(** pandas refuses to merge a text key column with a numeric one
    ([ValueError]: "You are trying to merge on object and int64 columns");
    a key column without rows is not looked at. *)
Definition keys_mergeable (lk rk : list cell) : bool :=
  match lk, rk with
  | [], _ | _, [] => true
  | _, _ => negb ((text_keys lk && number_keys rk) ||
                  (number_keys lk && text_keys rk))
  end.

(** [left.merge(right, on=key, how='left', suffixes=(ls, rs))] for two
    tables typed by [read_csv]: the keys are looked up, then their dtypes
    are compared. *)
Definition merge_csv (left right : DataFrame) (key : string) (ls rs : string)
    : result DataFrame :=
  let* ri := key_position right key in
  let* li := key_position left key in
  if keys_mergeable (cell_at li <$> rows left) (cell_at ri <$> rows right)
  then Ok (joined left right li ri true ls rs)
  else Raise OtherError.

End Frame.

(** ** [time.py], [main]: identifier cleaning and the three merges
       (steps 2 to 4, lines 82-117) *)

Module TimeMain.
Import PyStr Cell Helpers Frame.

(** [a.fillna(b)] on one pair of cells *)
Definition fillna (a b : cell) : cell := if isna a then b else a.

(** [trans] is [empty_frame] when the transactions file could not be read. *)
Definition clean_ids (ref users trans : DataFrame)
    : result (DataFrame * DataFrame * DataFrame) :=
  let ref := strip_columns ref in
  let users := strip_columns users in
  let trans := if negb (df_empty trans) then strip_columns trans else trans in
  let* ref := apply_column clean_id "referrer_id" ref in
  let* ref := apply_column clean_id "referee_id" ref in
  let* users := apply_column clean_id "user_id" users in
  let* ref := (if has_column ref "transaction_id"
               then apply_column clean_id "transaction_id" ref else Ok ref) in
  let* trans := (if negb (df_empty trans) && has_column trans "transaction_id"
                 then apply_column clean_id "transaction_id" trans else Ok trans) in
  Ok (ref, users, trans).

(** The de-duplicated user table that both user merges read. *)
Definition make_tz_map (users : DataFrame) : result DataFrame :=
  let* tz_map := select users ["user_id"; "timezone_homeclub";
                               "membership_expired_date"; "is_deleted"] in
  let* tz_map := dropna tz_map "user_id" in
  drop_duplicates tz_map "user_id".

Definition merge_referrer (ref tz_map : DataFrame) : result DataFrame :=
  let* ref := merge_left ref tz_map "referrer_id" "user_id" "_x" "_y" in
  Ok (rename ref [("timezone_homeclub", "referrer_tz");
                  ("membership_expired_date", "referrer_expiry");
                  ("is_deleted", "referrer_deleted")]).

Definition merge_referee (ref tz_map : DataFrame) : result DataFrame :=
  let* ref := merge_left ref tz_map "referee_id" "user_id" "" "_ref" in
  Ok (rename ref [("timezone_homeclub", "referee_tz")]).

Definition fill_final_tz (ref : DataFrame) : result DataFrame :=
  let* referrer_tz := getitem ref "referrer_tz" in
  let* referee_tz := getitem ref "referee_tz" in
  Ok (setitem ref "final_tz" (zip_with fillna referrer_tz referee_tz)).

Definition merge_transactions (ref trans : DataFrame) : result DataFrame :=
  if negb (df_empty trans) && has_column ref "transaction_id"
  then merge_left ref trans "transaction_id" "transaction_id" "" "_trans"
  else Ok ref.

Definition assemble (ref users trans : DataFrame) : result DataFrame :=
  let* cleaned := clean_ids ref users trans in
  let '(ref, users, trans) := cleaned in
  let* tz_map := make_tz_map users in
  let* ref := merge_referrer ref tz_map in
  let* ref := merge_referee ref tz_map in
  let* ref := fill_final_tz ref in
  merge_transactions ref trans.

End TimeMain.

(** ** [fraud_check.py], [main] *)

Module FraudCheck.
Import PyStr Cell Helpers Frame.

(** Step 2: merge the status names.  [statuses] is [None] when the file does
    not exist. *)
Definition merge_statuses (df : DataFrame) (statuses : option DataFrame)
    : result DataFrame :=
  let* df :=
    match statuses with
    | Some statuses =>
        let statuses := strip_columns statuses in
        if has_column statuses "description" then
          let statuses := rename statuses [("id", "user_referral_status_id");
                                           ("description", "status_name")] in
          let* right := select statuses ["user_referral_status_id"; "status_name"] in
          merge_csv df right "user_referral_status_id" "_x" "_y"
        else Ok df
    | None => Ok df
    end in
  if negb (has_column df "status_name")
  then Ok (setitem_scalar df "status_name" (Str "Unknown"))
  else Ok df.

(** Step 3: merge the rewards, one reward row per join key. *)
Definition merge_rewards (df : DataFrame) (rewards : option DataFrame)
    : result DataFrame :=
  match rewards with
  | Some rewards =>
      let rewards := strip_columns rewards in
      let rewards := if has_column rewards "user_referral_id"
                     then rename rewards [("user_referral_id", "id")]
                     else rewards in
      let join_key := if has_column df "referral_id" then "referral_id" else "id" in
      if has_column df join_key && has_column rewards join_key then
        let* rewards := drop_duplicates rewards join_key in
        merge_csv df rewards join_key "" "_reward"
      else Ok df
  | None => Ok df
  end.

(** Cell-wise comparisons of step 4. *)

(** [v > 0]; text and timestamps do not compare with a number. *)
Definition gt_zero (v : cell) : result bool :=
  match v with
  | Int z | Float z => Ok (0 <? z)%Z
  | Bool b => Ok b
  | NA => Ok false
  | Str _ | Time _ => Raise OtherError
  end.

Definition is_success_of (status_name : cell) : bool :=
  contains_any_ci ["Berhasil"; "Success"] (py_str status_name).

Definition is_pending_or_failed_of (status_name : cell) : bool :=
  contains_any_ci ["Menunggu"; "Tidak"; "Fail"; "Pending"] (py_str status_name).

Definition has_trans_id_of (transaction_id : cell) : bool :=
  negb (isna transaction_id) && negb (String.eqb (py_str transaction_id) "nan").

Definition is_trans_paid_of (transaction_status : cell) : bool :=
  String.eqb (upper (py_str transaction_status)) "PAID".

Definition is_trans_new_of (transaction_type : cell) : bool :=
  String.eqb (upper (py_str transaction_type)) "NEW".

(** [a >= b] on two cells of datetime columns; NaT compares false. *)
Definition time_ge (a b : cell) : bool :=
  match a, b with
  | Time x, Time y => (y <=? x)%Z
  | _, _ => false
  end.

(** The month comparison under the mask "both present". *)
Definition same_month_of (transaction_at referral_at : cell) : bool :=
  match transaction_at, referral_at with
  | Time x, Time y =>
      bool_decide (to_period_M x = to_period_M y)
  | _, _ => false
  end.

(** [v == b] for a boolean literal [b]; numbers equal to 0 or 1 compare
    equal to [False] or [True]. *)
Definition eq_bool (v : cell) (b : bool) : bool :=
  match v with
  | Bool x => Bool.eqb x b
  | Int z | Float z => (z =? (if b then 1 else 0))%Z
  | _ => false
  end.

Definition is_account_active_of (referrer_deleted : cell) : bool :=
  eq_bool referrer_deleted false ||
  String.eqb (lower (py_str referrer_deleted)) "false".

Definition is_granted_of (is_reward_granted : cell) : bool :=
  eq_bool is_reward_granted true ||
  String.eqb (lower (py_str is_reward_granted)) "true".

Fixpoint map_result {A B} (f : A -> result B) (l : list A) : result (list B) :=
  match l with
  | [] => Ok []
  | a :: rest =>
      let* b := f a in
      let* bs := map_result f rest in
      Ok (b :: bs)
  end.

Definition set_flag (df : DataFrame) (c : string) (flags : list bool) : DataFrame :=
  setitem df c (Bool <$> flags).

Section Flags.

(** [pd.to_datetime(v, errors='coerce')] on one cell ([None] for NaT), and
    the date of the run. *)
Variable to_datetime : cell -> option Z.
Variable today : Z.

Definition coerce_datetime (v : cell) : cell :=
  match to_datetime v with
  | Some t => Time t
  | None => NA
  end.

Fixpoint convert_dates (cols : list string) (df : DataFrame) : result DataFrame :=
  match cols with
  | [] => Ok df
  | c :: rest =>
      let* df := (if has_column df c then apply_column coerce_datetime c df
                  else Ok df) in
      convert_dates rest df
  end.

(** Step 4, lines 74-116. *)
Definition derive_flags (df : DataFrame) : result DataFrame :=
  let df := if negb (has_column df "reward_value")
            then setitem_scalar df "reward_value" (Int 0) else df in
  let* df := apply_column (fun v => if isna v then Int 0 else v) "reward_value" df in
  let* df := convert_dates ["referral_at_local"; "transaction_at_local";
                            "referrer_expiry"] df in
  (* Logic flags *)
  let* reward_value := getitem df "reward_value" in
  let* has_reward := map_result gt_zero reward_value in
  let df := set_flag df "has_reward" has_reward in
  let* status_name := getitem df "status_name" in
  let df := set_flag df "is_success" (is_success_of <$> status_name) in
  let* status_name := getitem df "status_name" in
  let df := set_flag df "is_pending_or_failed"
                     (is_pending_or_failed_of <$> status_name) in
  let* transaction_id := getitem df "transaction_id" in
  let df := set_flag df "has_trans_id" (has_trans_id_of <$> transaction_id) in
  let* transaction_status := getitem df "transaction_status" in
  let df := set_flag df "is_trans_paid" (is_trans_paid_of <$> transaction_status) in
  let* transaction_type := getitem df "transaction_type" in
  let df := set_flag df "is_trans_new" (is_trans_new_of <$> transaction_type) in
  let* transaction_at := getitem df "transaction_at_local" in
  let* referral_at := getitem df "referral_at_local" in
  let df := set_flag df "tx_after_ref" (zip_with time_ge transaction_at referral_at) in
  (* Same month *)
  let df := setitem_scalar df "same_month" (Bool false) in
  let* transaction_at := getitem df "transaction_at_local" in
  let* referral_at := getitem df "referral_at_local" in
  let df := set_flag df "same_month"
                     (zip_with same_month_of transaction_at referral_at) in
  (* User checks *)
  let now := normalize today in
  let* df := (if has_column df "referrer_expiry" then
                let* referrer_expiry := getitem df "referrer_expiry" in
                Ok (set_flag df "is_member_active"
                             ((fun v => time_ge v (Time now)) <$> referrer_expiry))
              else Ok (setitem_scalar df "is_member_active" (Bool false))) in
  let* df := (if has_column df "referrer_deleted" then
                let* referrer_deleted := getitem df "referrer_deleted" in
                Ok (set_flag df "is_account_active"
                             (is_account_active_of <$> referrer_deleted))
              else Ok (setitem_scalar df "is_account_active" (Bool true))) in
  if has_column df "is_reward_granted" then
    let* is_reward_granted := getitem df "is_reward_granted" in
    Ok (set_flag df "is_granted" (is_granted_of <$> is_reward_granted))
  else Ok (setitem_scalar df "is_granted" (Bool false)).

(** The row that [df.apply(check_logic, axis=1)] hands to [check_logic]:
    its boolean cells by column name. *)
Definition row_view (cols : list string) (r : list cell) : gmap string bool :=
  list_to_map (omap (fun p => match p.2 with
                              | Bool b => Some (p.1, b)
                              | _ => None
                              end) (zip cols r)).

(** Step 5: the verdict column. *)
Definition apply_check_logic (df : DataFrame) : result DataFrame :=
  let* verdicts := map_result (fun r => RuleEngine.check_logic (row_view (columns df) r))
                              (rows df) in
  Ok (set_flag df "is_business_logic_valid" verdicts).

(** [main] from the loaded tables to the verdict column. *)
Definition classify (df : DataFrame) (statuses rewards : option DataFrame)
    : result DataFrame :=
  let* df := merge_statuses df statuses in
  let* df := merge_rewards df rewards in
  let* df := derive_flags df in
  apply_check_logic df.

End Flags.

End FraudCheck.

(** ** Notions used to state the properties *)

Module Props.
Import PyStr Cell Helpers Frame.
Local Open Scope string_scope.

(** [kw] occurs in [s] as a contiguous substring. *)
Definition occurs_in (kw s : string) : Prop :=
  exists pre post, s = pre ++ kw ++ post.

Definition online_keywords : list string :=
  ["user sign up"; "app"; "web"; "online"].

Definition offline_keywords : list string :=
  ["draft transaction"; "lead"; "walk"].

Definition success_keywords : list string := ["Berhasil"; "Success"].

Definition pending_failed_keywords : list string :=
  ["Menunggu"; "Tidak"; "Fail"; "Pending"].


(** The characters of a printed integer: digits and the minus sign. *)
Definition is_num_char (c : ascii) : bool :=
  in_range 48 57 c || (code c =? 45)%N.

(** The literals that [clean_id] maps to the missing marker. *)
Definition missing_literals : list string := ["nan"; "null"; ""].





(** What the specification promises of a cleaned identifier. *)
Definition clean_output_ok (v : cell) : bool :=
  match v with
  | NA => true
  | Str s => negb (in_list (lower s) missing_literals)
  | _ => false
  end.

(** A well-formed table: every row has one cell per column. *)
Definition well_formed (df : DataFrame) : Prop :=
  Forall (fun r => length r = length (columns df)) (rows df).

(** Column [c] exists and holds a boolean in every row. *)
Definition bool_column (df : DataFrame) (c : string) : Prop :=
  exists i, col_index c (columns df) = Some i /\
            Forall (fun r => exists b, r !! i = Some (Bool b)) (rows df).

End Props.

(** ** Sample tables *)

Module Samples.
Import Cell Frame.

(** One referral, by user 12 for user 7, with transaction t1. *)
Definition referrals : DataFrame :=
  mkDF ["referral_id"; "referrer_id"; "referee_id"; "transaction_id";
        "user_referral_status_id"; "referral_at"]
       [[Str "r1"; Float 12; Str "7"; Str "t1"; Int 2;
         Str "2024-01-15T10:00:00Z"]].

(** The user log: two log rows for user 12, one for user 7. *)
Definition users : DataFrame :=
  mkDF ["user_id"; "timezone_homeclub"; "membership_expired_date"; "is_deleted"]
       [[Int 12; Str "Asia/Jakarta"; Str "2030-01-01"; Bool false];
        [Int 12; Str "Asia/Jakarta"; Str "2031-01-01"; Bool false];
        [Int 7; Str "Asia/Makassar"; NA; Bool false]].

(** A transaction table with one row per transaction id. *)
Definition transactions : DataFrame :=
  mkDF ["transaction_id"; "transaction_status"; "transaction_type";
        "transaction_at"]
       [[Str "t1"; Str "PAID"; Str "NEW"; Str "2024-01-20T03:00:00Z"];
        [Str "t2"; Str "PAID"; Str "NEW"; Str "2024-01-21T03:00:00Z"]].



(** A reward table with two rows for referral r1. *)
Definition rewards_twice : DataFrame :=
  mkDF ["referral_id"; "reward_value"]
       [[Str "r1"; Int 50]; [Str "r1"; Int 50]].


(** The cleaned table that [time.py] writes when the transactions file is
    absent: no transaction column but [transaction_id]. *)
Definition cleaned_without_transactions : DataFrame :=
  mkDF ["referral_id"; "referrer_id"; "referee_id"; "transaction_id";
        "user_referral_status_id"; "referral_at_local"; "referrer_expiry";
        "referrer_deleted"]
       [[Str "r1"; Int 12; Int 7; Str "t1"; Int 2;
         Str "2024-01-15 17:00:00"; Str "2030-01-01"; Bool false]].

(** That table after the status and reward merges of [fraud_check.py]. *)
Definition merged_without_transactions : DataFrame :=
  mkDF ["referral_id"; "referrer_id"; "referee_id"; "transaction_id";
        "user_referral_status_id"; "referral_at_local"; "referrer_expiry";
        "referrer_deleted"; "status_name"; "reward_value"]
       [[Str "r1"; Int 12; Int 7; Str "t1"; Int 2;
         Str "2024-01-15 17:00:00"; Str "2030-01-01"; Bool false;
         Str "Berhasil"; Int 50]].

(** A cleaned table with every column that [fraud_check.py] reads; its
    date cells are given as timestamps.  r1 is a rewarded, paid, new
    transaction five days after the referral; r2 is pending without a
    transaction; r3 failed. *)
Definition cleaned : DataFrame :=
  mkDF ["referral_id"; "referrer_id"; "referee_id"; "transaction_id";
        "user_referral_status_id"; "referral_at_local"; "transaction_status";
        "transaction_type"; "transaction_at_local"; "referrer_expiry";
        "referrer_deleted"; "is_reward_granted"]
       [[Str "r1"; Int 12; Int 7; Str "t1"; Int 2; Time 1705338000;
         Str "Paid"; Str "New"; Time 1705744800; Time 1893456000;
         Bool false; Bool true];
        [Str "r2"; Int 12; Int 8; NA; Int 1; Time 1705338000;
         NA; NA; NA; Time 1893456000; Bool false; NA];
        [Str "r3"; Int 12; Int 9; Str "t3"; Int 3; Time 1705338000;
         Str "Paid"; Str "New"; Time 1705744800; Time 1893456000;
         Bool false; Bool true]].

Definition statuses : DataFrame :=
  mkDF ["id"; "description"]
       [[Int 1; Str "Menunggu"]; [Int 2; Str "Berhasil"]; [Int 3; Str "Gagal"]].

Definition rewards : DataFrame :=
  mkDF ["referral_id"; "reward_value"]
       [[Str "r1"; Int 50]; [Str "r3"; Int 50]].

(** [pd.to_datetime] for the samples: timestamps pass, anything else is
    coerced to NaT. *)
Definition only_timestamps (v : cell) : option Z :=
  match v with
  | Time t => Some t
  | _ => None
  end.

(** 2024-01-15 10:00:00, the date of the sample run. *)
Definition sample_today : Z := 1705312800.

End Samples.

(** ** Choosing the referral file ([get_correct_referral_file]) *)

Module FileChoice.
Import PyStr.
Local Open Scope string_scope.

(** A directory as the helpers see it: the names [os.listdir] returns, in
    the order it returns them, each with the size [os.path.getsize] gives. *)
Definition listing : Type := list (string * Z).

(** [os.path.join(a, b)] on POSIX paths. *)
Definition path_join (a b : string) : string :=
  if startswith b "/" then b
  else if String.eqb a "" || endswith a "/" then a ++ b
  else a ++ "/" ++ b.

(** The name test both versions share. *)
Definition is_referral_name (f : string) : bool :=
  contains f "user_referral" && negb (contains f "log") &&
  negb (contains f "status").

Module TimePy.

(** [time.py]: the first listed file that passes the name test and is
    larger than 2000 bytes.  [dir] is [None] when the directory does not
    exist. *)
Definition large_candidates (directory : string) (entries : listing)
    : list string :=
  omap (fun e => if is_referral_name e.1 && (2000 <? e.2)%Z
                 then Some (path_join directory e.1) else None) entries.

Definition get_correct_referral_file (directory : string)
    (dir : option listing) : option string :=
  let candidates :=
    match dir with
    | Some entries => large_candidates directory entries
    | None => []
    end in
  match candidates with
  | best :: _ => Some best
  | [] => None
  end.

End TimePy.

Module CinversionPy.

(** [timezone_cinversion.py]: the largest file that passes the name test. *)
Definition candidates_with_size (directory : string) (entries : listing)
    : list (string * Z) :=
  omap (fun e => if is_referral_name e.1
                 then Some (path_join directory e.1, e.2) else None) entries.

(** [list.sort(key=lambda x: x[1], reverse=True)] is a stable sort by
    descending size: [insert_desc] puts an element in front of the first
    one that is not larger, so equal sizes keep their listing order. *)
Fixpoint insert_desc (x : string * Z) (l : list (string * Z))
    : list (string * Z) :=
  match l with
  | [] => [x]
  | y :: rest => if (y.2 <=? x.2)%Z then x :: y :: rest
                 else y :: insert_desc x rest
  end.

Fixpoint sort_desc (l : list (string * Z)) : list (string * Z) :=
  match l with
  | [] => []
  | x :: rest => insert_desc x (sort_desc rest)
  end.

(** [os.listdir] raises when the directory does not exist. *)
Definition get_correct_referral_file (directory : string)
    (dir : option listing) : result (option string) :=
  match dir with
  | None => Raise OtherError
  | Some entries =>
      match sort_desc (candidates_with_size directory entries) with
      | [] => Ok None
      | (best_file, best_size) :: _ => Ok (Some best_file)
      end
  end.

End CinversionPy.


End FileChoice.

(** ** Notions for following columns through [derive_flags] *)

Module Track.
Import PyStr Cell Helpers Frame Props FraudCheck.

(** First binding of [c] in an association list. *)
Fixpoint assoc {A} (c : string) (kv : list (string * A)) : option A :=
  match kv with
  | [] => None
  | (k, v) :: rest => if String.eqb c k then Some v else assoc c rest
  end.

(** [d] is [base] with the flag columns [kv] written over it: it is well
    formed, has [n] rows, reads the flags of [kv] under their names and
    reads every other column as [base] does. *)
Definition tracked (d : DataFrame) (n : nat) (base : DataFrame)
    (kv : list (string * list bool)) : Prop :=
  well_formed d /\ nrows d = n /\
  (forall c, assoc c kv = None -> getitem d c = getitem base c) /\
  (forall c f, assoc c kv = Some f -> getitem d c = Ok (Bool <$> f)).

(** The result of a computation, mapped when there is one. *)
Definition on_ok {A B} (f : A -> B) (r : result A) : result B :=
  match r with
  | Ok a => Ok (f a)
  | Raise e => Raise e
  end.

(** The column [c] of [df], or [fallback] when [df] has no such column. *)
Definition column_or (df : DataFrame) (c : string) (fallback : list cell)
    : list cell :=
  match getitem df c with
  | Ok col => col
  | Raise _ => fallback
  end.

(** [v.fillna(0)] on one cell *)
Definition fill_zero (v : cell) : cell := if isna v then Int 0 else v.

(** Lines 74-79 of [fraud_check.py] on their own: the reward default, the
    filling of missing rewards and the conversion of the date columns, as
    [derive_flags] begins. *)
Definition prepare (to_datetime : cell -> option Z) (df : DataFrame)
    : result DataFrame :=
  let df := if negb (has_column df "reward_value")
            then setitem_scalar df "reward_value" (Int 0) else df in
  let* df := apply_column fill_zero "reward_value" df in
  convert_dates to_datetime ["referral_at_local"; "transaction_at_local";
                             "referrer_expiry"] df.

(** What the prepared table reads under the name [c], in terms of [df]. *)
Definition prepared_column (to_datetime : cell -> option Z) (df : DataFrame)
    (c : string) : result (list cell) :=
  if String.eqb c "reward_value" then
    Ok (fill_zero <$> column_or df "reward_value" (replicate (nrows df) (Int 0)))
  else if in_list c ["referral_at_local"; "transaction_at_local"; "referrer_expiry"]
  then on_ok (fmap (coerce_datetime to_datetime)) (getitem df c)
  else getitem df c.

(** The flag columns [derive_flags] writes, cell by cell, from the columns
    of the prepared table [d]; [rewarded] are the results of [> 0] on its
    reward column.  An optional column that is absent gives its default. *)
Definition flag_values (today : Z) (d : DataFrame) (n : nat)
    (rewarded : list bool) : list (string * list bool) :=
  let col c := column_or d c [] in
  let now := normalize today in
  [ ("is_granted",
     match getitem d "is_reward_granted" with
     | Ok c => is_granted_of <$> c
     | Raise _ => replicate n false
     end);
    ("is_account_active",
     match getitem d "referrer_deleted" with
     | Ok c => is_account_active_of <$> c
     | Raise _ => replicate n true
     end);
    ("is_member_active",
     match getitem d "referrer_expiry" with
     | Ok c => (fun v => time_ge v (Time now)) <$> c
     | Raise _ => replicate n false
     end);
    ("same_month",
     zip_with same_month_of (col "transaction_at_local") (col "referral_at_local"));
    ("tx_after_ref",
     zip_with time_ge (col "transaction_at_local") (col "referral_at_local"));
    ("is_trans_new", is_trans_new_of <$> col "transaction_type");
    ("is_trans_paid", is_trans_paid_of <$> col "transaction_status");
    ("has_trans_id", has_trans_id_of <$> col "transaction_id");
    ("is_pending_or_failed", is_pending_or_failed_of <$> col "status_name");
    ("is_success", is_success_of <$> col "status_name");
    ("has_reward", rewarded) ].

(** The columns [derive_flags] cannot do without. *)
Definition required_columns : list string :=
  ["reward_value"; "status_name"; "transaction_id"; "transaction_status";
   "transaction_type"; "transaction_at_local"; "referral_at_local"].

End Track.

(** ** More sample tables *)

Module Samples2.
Import Cell Frame.

(** [Samples.cleaned] after the status and reward merges: r1 rewarded and
    successful, r2 pending without reward or transaction, r3 rewarded but
    failed. *)
Definition merged : DataFrame :=
  mkDF ["referral_id"; "referrer_id"; "referee_id"; "transaction_id";
        "user_referral_status_id"; "referral_at_local"; "transaction_status";
        "transaction_type"; "transaction_at_local"; "referrer_expiry";
        "referrer_deleted"; "is_reward_granted"; "status_name"; "reward_value"]
       [[Str "r1"; Int 12; Int 7; Str "t1"; Int 2; Time 1705338000;
         Str "Paid"; Str "New"; Time 1705744800; Time 1893456000;
         Bool false; Bool true; Str "Berhasil"; Int 50];
        [Str "r2"; Int 12; Int 8; NA; Int 1; Time 1705338000;
         NA; NA; NA; Time 1893456000; Bool false; NA; Str "Menunggu"; NA];
        [Str "r3"; Int 12; Int 9; Str "t3"; Int 3; Time 1705338000;
         Str "Paid"; Str "New"; Time 1705744800; Time 1893456000;
         Bool false; Bool true; Str "Gagal"; Int 50]].

(** A table as it reaches the report stage, without an [id] column and
    without the optional name and phone columns. *)
Definition judged : DataFrame :=
  mkDF ["referral_id"; "referral_source"; "referral_source_category";
        "referral_at_local"; "referrer_id"; "referee_id";
        "is_business_logic_valid"]
       [[Str "r1"; Str "User Sign Up"; Str "Online"; Time 1705338000;
         Int 12; Int 7; Bool true];
        [Str "r2"; Str "Lead"; Str "Offline"; Time 1705338000;
         Int 12; Int 8; Bool false]].

(** A cleaned table that lacks the source category. *)
Definition uncategorised : DataFrame :=
  mkDF ["referral_id"; "referral_source"]
       [[Str "r1"; Str "User Sign Up"]; [Str "r2"; Str "Lead"];
        [Str "r3"; NA]].

(** Referrals whose status id column has a gap, so that pandas reads it as
    floats. *)
Definition gapped : DataFrame :=
  mkDF ["referral_id"; "user_referral_status_id"]
       [[Str "r1"; Float 2]; [Str "r2"; NA]; [Str "r3"; Float 1]].

(** A reward table with two different rewards for referral r1. *)
Definition rewards_two_values : DataFrame :=
  mkDF ["referral_id"; "reward_value"]
       [[Str "r1"; Int 50]; [Str "r1"; Int 70]; [Str "r3"; Int 20]].

(** Two rows of flags: the perfect path, and a pending referral without
    reward; and the table that holds them. *)
Definition sample_flags : list RuleEngine.Flags :=
  [RuleEngine.mkFlags true true false true true true true true true true true;
   RuleEngine.mkFlags false false true false false false false false true true
                      false].

Definition flag_table : DataFrame :=
  mkDF RuleEngine.flag_columns
       [[Bool true; Bool true; Bool false; Bool true; Bool true; Bool true;
         Bool true; Bool true; Bool true; Bool true; Bool true];
        [Bool false; Bool false; Bool true; Bool false; Bool false; Bool false;
         Bool false; Bool false; Bool true; Bool true; Bool false]].

(** A joined table before the text columns are title-cased. *)
Definition raw_text : DataFrame :=
  mkDF ["referral_id"; "referral_source"; "transaction_status";
        "transaction_type"; "referrer_deleted"]
       [[Str "r1"; Str "user sign up"; Str "PAID"; Str "NEW"; Bool false];
        [Str "r2"; Str "draft transaction"; NA; NA; Str "false"]].

End Samples2.

(** ** [fraud_check.py], [main]: the source category fix and the report *)

Module Report.
Import PyStr Cell Helpers Frame FraudCheck.

(** Step 1 (lines 37-42): make sure [referral_source_category] exists. *)
Definition ensure_source_category (df : DataFrame) : result DataFrame :=
  if negb (has_column df "referral_source_category") then
    if has_column df "referral_source" then
      let* referral_source := getitem df "referral_source" in
      Ok (setitem df "referral_source_category"
                  ((fun v => Str (get_source_category v)) <$> referral_source))
    else Ok (setitem_scalar df "referral_source_category" (Str "Unknown"))
  else Ok df.

(** [pd.DataFrame()] about to receive columns of [n] values: no column yet,
    [n] rows. *)
Definition new_frame (n : nat) : DataFrame := mkDF [] (replicate n []).

(** [range(start, start + n)] as a column of integers. *)
Definition int_range (start : Z) (n : nat) : list cell :=
  (fun i => Int (start + Z.of_nat i)) <$> seq 0 n.

(** [df[c] if c in df.columns else "Unknown"] *)
Definition column_or_unknown (df : DataFrame) (c : string) : result (list cell) :=
  if has_column df c then getitem df c
  else Ok (replicate (nrows df) (Str "Unknown")).

(** Step 6 (lines 148-174): the report table. *)
Definition format_report (df : DataFrame) : result DataFrame :=
  let final_df := new_frame (nrows df) in
  (* ID logic *)
  let* ids := (if has_column df "id" then getitem df "id"
               else Ok (int_range 101 (nrows df))) in
  let final_df := setitem final_df "referral_details_id" ids in
  let* v := (if has_column df "referral_id" then getitem df "referral_id"
             else if has_column df "id" then getitem df "id"
             else Ok (replicate (nrows df) (Str "Unknown"))) in
  let final_df := setitem final_df "referral_id" v in
  let* v := column_or_unknown df "referral_source" in
  let final_df := setitem final_df "referral_source" v in
  let* v := getitem df "referral_source_category" in
  let final_df := setitem final_df "referral_source_category" v in
  let* v := getitem df "referral_at_local" in
  let final_df := setitem final_df "referral_at" v in
  let* v := getitem df "referrer_id" in
  let final_df := setitem final_df "referrer_id" v in
  let* v := column_or_unknown df "user_name" in
  let final_df := setitem final_df "referrer_name" v in
  let* v := column_or_unknown df "phone_number" in
  let final_df := setitem final_df "referrer_phone_number" v in
  let* v := column_or_unknown df "home_club" in
  let final_df := setitem final_df "referrer_homeclub" v in
  let* v := getitem df "referee_id" in
  let final_df := setitem final_df "referee_id" v in
  let* v := column_or_unknown df "referee_name" in
  let final_df := setitem final_df "referee_name" v in
  let* v := column_or_unknown df "referee_phone" in
  let final_df := setitem final_df "referee_phone" v in
  let* v := getitem df "is_business_logic_valid" in
  Ok (setitem final_df "is_business_logic_valid" v).

(** The columns [kv] assigned one after the other to a new table of [n]
    rows. *)
Definition from_columns (n : nat) (kv : list (string * list cell)) : DataFrame :=
  fold_left (fun d p => setitem d p.1 p.2) kv (new_frame n).

(** The header of the report. *)
Definition report_columns : list string :=
  ["referral_details_id"; "referral_id"; "referral_source";
   "referral_source_category"; "referral_at"; "referrer_id"; "referrer_name";
   "referrer_phone_number"; "referrer_homeclub"; "referee_id"; "referee_name";
   "referee_phone"; "is_business_logic_valid"].

(** The columns the report stage reads without a guard. *)
Definition report_needs : list string :=
  ["referral_source_category"; "referral_at_local"; "referrer_id";
   "referee_id"; "is_business_logic_valid"].

Section Main.

Variable to_datetime : cell -> option Z.
Variable today : Z.

(** [main] from the tables to the report.  [cleaned] is [None] when the
    cleaned file does not exist: [main] prints an error and returns. *)
Definition main (cleaned statuses rewards : option DataFrame)
    : result (option DataFrame) :=
  match cleaned with
  | None => Ok None
  | Some df =>
      let* df := ensure_source_category df in
      let* df := merge_statuses df statuses in
      let* df := merge_rewards df rewards in
      let* df := derive_flags to_datetime today df in
      let* df := apply_check_logic df in
      let* final_df := format_report df in
      Ok (Some final_df)
  end.

End Main.

End Report.

(** ** Left joins, row by row *)

Module Joined.
Import PyStr Cell Helpers Frame.

(** The cells a left join adds to the left row [l] when the right table has
    at most one row per key: the payload of the matching row, or [width]
    missing values. *)
Definition extension (shared : bool) (ri width : nat) (right : list (list cell))
    (li : nat) (l : list cell) : list cell :=
  match matches ri (cell_at li l) right with
  | [] => replicate width NA
  | m :: _ => payload shared ri m
  end.

(** The value that goes with the first of [keys] that equals [key] as a join
    key (numbers by value), or a missing value when none does. *)
Fixpoint lookup_first (key : cell) (keys values : list cell) : cell :=
  match keys, values with
  | k :: keys', v :: values' =>
      if bool_decide (key_of k = key_of key) then v
      else lookup_first key keys' values'
  | _, _ => NA
  end.

(** The reward table after its header has been normalised, and the join key
    (lines 59-65 of [fraud_check.py]). *)
Definition reward_table (rewards : DataFrame) : DataFrame :=
  let rewards := strip_columns rewards in
  if has_column rewards "user_referral_id"
  then rename rewards [("user_referral_id", "id")]
  else rewards.

Definition join_key (df : DataFrame) : string :=
  if has_column df "referral_id" then "referral_id" else "id".

(** The status table after its header has been normalised (lines 47-50). *)
Definition status_table (statuses : DataFrame) : DataFrame :=
  rename (strip_columns statuses)
         [("id", "user_referral_status_id"); ("description", "status_name")].

End Joined.

(** ** The verdict column, row by row *)

Module Verdicts.
Import RuleEngine.

(** The flag columns with the field of [Flags] each one holds. *)
Definition flag_fields : list (string * (Flags -> bool)) :=
  [("has_reward", has_reward); ("is_success", is_success);
   ("is_pending_or_failed", is_pending_or_failed);
   ("has_trans_id", has_trans_id); ("is_trans_paid", is_trans_paid);
   ("is_trans_new", is_trans_new); ("tx_after_ref", tx_after_ref);
   ("same_month", same_month); ("is_member_active", is_member_active);
   ("is_account_active", is_account_active); ("is_granted", is_granted)].

End Verdicts.

(** ** [time.py], [main], step 6: title case for the text columns
       (lines 128-136) *)

Module Initcap.
Import PyStr Cell Helpers Frame.

(** Characters that have a case: the letters of ASCII and Latin-1, the
    ordinal indicators and the micro sign. *)
Definition is_cased (c : ascii) : bool :=
  in_range 65 90 c || in_range 97 122 c ||
  (code c =? 170)%N || (code c =? 181)%N || (code c =? 186)%N ||
  (in_range 192 255 c && negb (code c =? 215)%N && negb (code c =? 247)%N).

(** The title-case form of one character: its upper-case form, but "Ss" for
    the sharp s.  As for [upper_char], the micro sign and y-diaeresis have
    title-case forms above code point 255 and are left as they are here. *)
Definition title_char (c : ascii) : string :=
  if (code c =? 223)%N then "Ss" else upper_char c.

(** [str.title]: a character that follows a cased character is lower-cased,
    any other is title-cased. *)
Fixpoint title_from (previous_is_cased : bool) (s : string) : string :=
  match s with
  | EmptyString => EmptyString
  | String c s' =>
      (if previous_is_cased then String (lower_char c) EmptyString
       else title_char c) ++ title_from (is_cased c) s'
  end.

Definition title (s : string) : string := title_from false s.

(** [any(x in col.lower() for x in ['id', 'date', 'club', 'at', 'tz'])] *)
Definition is_skipped_name (col : string) : bool :=
  existsb (fun x => contains (lower col) x) ["id"; "date"; "club"; "at"; "tz"].

(** [lambda x: str(x).title() if pd.notna(x) and isinstance(x, str) else x] *)
Definition initcap_cell (x : cell) : cell :=
  match x with
  | Str s => Str (title s)
  | _ => x
  end.

(** One turn of the loop.  The test [ref[col].dtype == 'object'] is left
    out: a column of another dtype holds no string, and the function
    applied leaves everything that is not a string as it is. *)
Definition initcap_column (ref : DataFrame) (col : string) : result DataFrame :=
  if negb (is_skipped_name col) then apply_column initcap_cell col ref
  else Ok ref.

Fixpoint initcap_loop (cols : list string) (ref : DataFrame) : result DataFrame :=
  match cols with
  | [] => Ok ref
  | col :: rest => let* ref := initcap_column ref col in initcap_loop rest ref
  end.

(** [for col in ref.columns: ...] *)
Definition initcap (ref : DataFrame) : result DataFrame :=
  initcap_loop (columns ref) ref.

(** Plain ASCII text. *)
Definition is_ascii (c : ascii) : bool := (code c <? 128)%N.

Fixpoint ascii_only (s : string) : bool :=
  match s with
  | EmptyString => true
  | String c s' => is_ascii c && ascii_only s'
  end.

(** The cells on which this model of [title] followed by [lower] is exact:
    everything but text with a character above code point 127. *)
Definition ascii_text (v : cell) : bool :=
  match v with
  | Str s => ascii_only s
  | _ => true
  end.

End Initcap.

(** * Properties *)

Import PyStr Cell Helpers Frame.

(** ** The rule engine *)

Section RuleEngineFacts.
Import RuleEngine.

Lemma getitem_lookup (row : gmap string bool) k b :
  row !! k = Some b -> RuleEngine.getitem row k = Ok b.
Proof. intros H. unfold RuleEngine.getitem. now rewrite H. Qed.

(** On a row that holds the eleven flag columns, [check_logic] computes the
    verdict of the decision table. *)
Lemma check_logic_of_lookups (row : gmap string bool) (f : Flags) :
  row !! "has_reward" = Some (has_reward f) ->
  row !! "is_success" = Some (is_success f) ->
  row !! "is_pending_or_failed" = Some (is_pending_or_failed f) ->
  row !! "has_trans_id" = Some (has_trans_id f) ->
  row !! "is_trans_paid" = Some (is_trans_paid f) ->
  row !! "is_trans_new" = Some (is_trans_new f) ->
  row !! "tx_after_ref" = Some (tx_after_ref f) ->
  row !! "same_month" = Some (same_month f) ->
  row !! "is_member_active" = Some (is_member_active f) ->
  row !! "is_account_active" = Some (is_account_active f) ->
  row !! "is_granted" = Some (is_granted f) ->
  check_logic row = Ok (table_verdict f).
Proof.
  intros H1 H2 H3 H4 H5 H6 H7 H8 H9 H10 H11.
  unfold check_logic.
  rewrite (getitem_lookup _ _ _ H1), (getitem_lookup _ _ _ H2),
    (getitem_lookup _ _ _ H3), (getitem_lookup _ _ _ H4),
    (getitem_lookup _ _ _ H5), (getitem_lookup _ _ _ H6),
    (getitem_lookup _ _ _ H7), (getitem_lookup _ _ _ H8),
    (getitem_lookup _ _ _ H9), (getitem_lookup _ _ _ H10),
    (getitem_lookup _ _ _ H11).
  clear. destruct f as [a b c d e g h i j k l]; cbn [has_reward is_success
    is_pending_or_failed has_trans_id is_trans_paid is_trans_new tx_after_ref
    same_month is_member_active is_account_active is_granted].
  destruct a, b, c, d, e, g, h, i, j, k, l; reflexivity.
Qed.

Lemma row_of_lookups (f : Flags) :
  row_of f !! "has_reward" = Some (has_reward f) /\
  row_of f !! "is_success" = Some (is_success f) /\
  row_of f !! "is_pending_or_failed" = Some (is_pending_or_failed f) /\
  row_of f !! "has_trans_id" = Some (has_trans_id f) /\
  row_of f !! "is_trans_paid" = Some (is_trans_paid f) /\
  row_of f !! "is_trans_new" = Some (is_trans_new f) /\
  row_of f !! "tx_after_ref" = Some (tx_after_ref f) /\
  row_of f !! "same_month" = Some (same_month f) /\
  row_of f !! "is_member_active" = Some (is_member_active f) /\
  row_of f !! "is_account_active" = Some (is_account_active f) /\
  row_of f !! "is_granted" = Some (is_granted f).
Proof. unfold row_of. repeat split; by simplify_map_eq. Qed.

Lemma check_logic_row_of (f : Flags) :
  check_logic (row_of f) = Ok (table_verdict f).
Proof.
  destruct (row_of_lookups f) as (?&?&?&?&?&?&?&?&?&?&?).
  now apply check_logic_of_lookups.
Qed.

(** A row that holds the eleven flag columns gets a verdict. *)
Lemma check_logic_on_flag_row (row : gmap string bool) :
  (forall k, In k flag_columns -> is_Some (row !! k)) ->
  exists b, check_logic row = Ok b.
Proof.
  intros Hrow.
  assert (Hk : forall k, In k flag_columns -> exists b, row !! k = Some b).
  { intros k Hin. destruct (Hrow k Hin) as [b Hb]. now exists b. }
  destruct (Hk "has_reward") as [a Ha]; [cbn; tauto|].
  destruct (Hk "is_success") as [b Hb]; [cbn; tauto|].
  destruct (Hk "is_pending_or_failed") as [c Hc]; [cbn; tauto|].
  destruct (Hk "has_trans_id") as [d Hd]; [cbn; tauto|].
  destruct (Hk "is_trans_paid") as [e He]; [cbn; tauto|].
  destruct (Hk "is_trans_new") as [g Hg]; [cbn; tauto|].
  destruct (Hk "tx_after_ref") as [h Hh]; [cbn; tauto|].
  destruct (Hk "same_month") as [i Hi]; [cbn; tauto|].
  destruct (Hk "is_member_active") as [j Hj]; [cbn; tauto|].
  destruct (Hk "is_account_active") as [k Hkk]; [cbn; tauto|].
  destruct (Hk "is_granted") as [l Hl]; [cbn; tauto|].
  exists (table_verdict (mkFlags a b c d e g h i j k l)).
  now apply (check_logic_of_lookups row (mkFlags a b c d e g h i j k l)).
Qed.

End RuleEngineFacts.

Section RuleEngineClaims.
Import RuleEngine.

Lemma bool_in_both (b : bool) : b ∈ [true; false].
Proof. destruct b; repeat constructor. Qed.

Lemma all_flags_complete (f : Flags) : f ∈ all_flags.
Proof.
  destruct f as [a b c d e g h i j k l]. unfold all_flags.
  do 11 (apply list_elem_of_bind; eexists; split; [| apply bool_in_both]).
  constructor.
Qed.

(** What [first_match] returns: the conditions of the rules passed over are
    all false, and the rule returned is one whose condition holds or the
    default past the end of the table. *)
Lemma first_match_spec (tbl : list ((Flags -> bool) * bool)) (f : Flags) (n : nat) :
  let k := fst (first_match n tbl f) in
  let v := snd (first_match n tbl f) in
  n <= k <= n + length tbl /\
  (forall i c w, i < k - n -> tbl !! i = Some (c, w) -> c f = false) /\
  (k < n + length tbl -> exists c, tbl !! (k - n) = Some (c, v) /\ c f = true) /\
  (k = n + length tbl -> v = false).
Proof.
  revert n. induction tbl as [|[c w] tbl IH]; intros n; cbn [first_match].
  - cbn. split; [lia|]. split; [intros i c w Hi; lia|]. split; [lia|reflexivity].
  - destruct (c f) eqn:Hc; cbn [fst snd length].
    + split; [lia|]. split; [intros i c' w' Hi; lia|]. split; [|lia].
      intros _. exists c. rewrite Nat.sub_diag. now split.
    + destruct (IH (S n)) as (Hr & Hbefore & Hat & Hend).
      split; [lia|]. split; [|split].
      * intros i c' w' Hi Hl. destruct i as [|i]; cbn in Hl.
        -- now inversion Hl; subst.
        -- apply (Hbefore i c' w'); [lia | exact Hl].
      * intros Hk. destruct Hat as (c' & Hl & Hc'); [lia|].
        exists c'. split; [|exact Hc'].
        replace (fst (first_match (S n) tbl f) - n)
          with (S (fst (first_match (S n) tbl f) - S n)) by lia.
        exact Hl.
      * intros Hk. apply Hend. lia.
Qed.

Lemma verdict_by_rule (f : Flags) :
  1 <= first_rule f <= 8 /\
  table_verdict f =
    match first_rule f with
    | 1 | 2 => true
    | _ => false
    end.
Proof.
  unfold first_rule, table_verdict, decision_table. cbn [first_match].
  repeat match goal with
         | |- context [if ?c then _ else _] => destruct c
         end; cbn; split; (lia || reflexivity).
Qed.

(** C1. On the row built from any assignment of the eleven flags,
    [check_logic] returns True exactly when the first rule of the decision
    table that matches is rule 1 (the perfect path) or rule 2 (pending or
    failed, no reward); it returns False when the first match is one of
    rules 3 to 7, and False when no rule matches (rule 8, default deny). *)
Theorem check_logic_first_match (f : Flags) :
  (check_logic (row_of f) = Ok true <-> first_rule f = 1 \/ first_rule f = 2) /\
  (3 <= first_rule f <= 7 -> check_logic (row_of f) = Ok false) /\
  (first_rule f = 8 -> check_logic (row_of f) = Ok false) /\
  1 <= first_rule f <= 8.
Proof.
  rewrite check_logic_row_of.
  destruct (verdict_by_rule f) as [Hrange Hv]. rewrite Hv.
  destruct (first_rule f) as [|[|[|n]]] eqn:Hn;
    intuition (first [lia | discriminate | auto]).
Qed.

(** C7. Rule evaluation is total and deterministic: on the row of every one
    of the 2^11 flag assignments, and on every row that holds the eleven
    flag columns, [check_logic] returns a boolean without raising, and that
    boolean is the only result it has. *)
Theorem check_logic_total :
  (forall f : Flags,
     exists b, check_logic (row_of f) = Ok b /\
               forall b', check_logic (row_of f) = Ok b' -> b' = b) /\
  (forall row : gmap string bool,
     (forall k, In k flag_columns -> is_Some (row !! k)) ->
     exists b, check_logic row = Ok b /\ ~ raises (check_logic row)) /\
  length all_flags = 2 ^ 11 /\
  (forall f : Flags, f ∈ all_flags).
Proof.
  split; [|split; [|split]].
  - intros f. exists (table_verdict f). rewrite check_logic_row_of.
    split; [reflexivity|]. intros b' H. now inversion H.
  - intros row Hrow. destruct (check_logic_on_flag_row row Hrow) as [b Hb].
    exists b. split; [exact Hb|]. rewrite Hb. intros [e He]. discriminate He.
  - reflexivity.
  - apply all_flags_complete.
Qed.

(** C10. When [has_reward] is true, [check_logic] returns True if and only
    if all ten conjuncts of rule 1 hold. *)
Theorem rewarded_valid_iff_perfect (f : Flags) :
  has_reward f = true ->
  (check_logic (row_of f) = Ok true <->
   has_reward f = true /\ is_success f = true /\ has_trans_id f = true /\
   is_trans_paid f = true /\ is_trans_new f = true /\ tx_after_ref f = true /\
   same_month f = true /\ is_member_active f = true /\
   is_account_active f = true /\ is_granted f = true).
Proof.
  intros Hr. rewrite check_logic_row_of.
  destruct f as [a b c d e g h i j k l]. cbn in *. subst a.
  unfold table_verdict, decision_table. cbn.
  destruct b, c, d, e, g, h, i, j, k, l; cbn;
    (split; [intros H; try discriminate H; repeat split
            | intros H; decompose [and] H; try discriminate; reflexivity]).
Qed.

(** C10 on the perfect-path row. *)
Lemma rewarded_valid_iff_perfect_witness :
  check_logic (row_of (mkFlags true true false true true true true true true true true))
    = Ok true <->
  true = true /\ true = true /\ true = true /\ true = true /\ true = true /\
  true = true /\ true = true /\ true = true /\ true = true /\ true = true.
Proof.
  exact (rewarded_valid_iff_perfect
           (mkFlags true true false true true true true true true true true)
           eq_refl).
Defined.

End RuleEngineClaims.

(** ** Strings *)

#[local] Arguments String.append : simpl nomatch.

Section StringFacts.
Import Props.
Local Open Scope string_scope.

Lemma append_nil_r (s : string) : s ++ "" = s.
Proof. induction s as [|c s IH]; simpl; [reflexivity | now rewrite IH]. Qed.

Lemma append_assoc (a b c : string) : (a ++ b) ++ c = a ++ b ++ c.
Proof. induction a as [|x a IH]; simpl; [reflexivity | now rewrite IH]. Qed.

Lemma startswith_spec (s p : string) :
  startswith s p = true <-> exists post, s = p ++ post.
Proof.
  revert s. induction p as [|a p IH]; intros s; cbn.
  - split; [intros _; now exists s | reflexivity].
  - destruct s as [|b s].
    + split; [discriminate | intros [post H]; discriminate].
    + rewrite andb_true_iff, Ascii.eqb_eq, IH. split.
      * intros [-> [post ->]]. now exists post.
      * intros [post H]. injection H as -> ->. split; [reflexivity | now exists post].
Qed.

Lemma contains_spec (s x : string) :
  contains s x = true <-> occurs_in x s.
Proof.
  unfold occurs_in. induction s as [|c s IH]; cbn.
  - rewrite orb_false_r, startswith_spec. split.
    + intros [post H]. now exists "", post.
    + intros (pre & post & H). destruct pre; cbn in H; [now exists post | discriminate].
  - rewrite orb_true_iff, startswith_spec, IH. split.
    + intros [[post H] | (pre & post & H)].
      * now exists "", post.
      * exists (String c pre), post. cbn. now rewrite H.
    + intros (pre & post & H). destruct pre as [|c' pre]; cbn in H.
      * left. now exists post.
      * right. injection H as -> H. now exists pre, post.
Qed.

Lemma lower_char_idem (c : ascii) : lower_char (lower_char c) = lower_char c.
Proof. destruct c as [[] [] [] [] [] [] [] []]; reflexivity. Qed.

Lemma lower_idem (s : string) : lower (lower s) = lower s.
Proof.
  induction s as [|c s IH]; cbn; [reflexivity|].
  now rewrite lower_char_idem, IH.
Qed.

Lemma ci_startswith_lower (s p : string) :
  ci_startswith s p = startswith (lower s) (lower p).
Proof.
  revert s. induction p as [|a p IH]; intros s; cbn; [reflexivity|].
  destruct s as [|b s]; cbn; [reflexivity|]. now rewrite IH.
Qed.

Lemma ci_search_lower (s p : string) :
  ci_search s p = contains (lower s) (lower p).
Proof.
  induction s as [|c s IH]; cbn.
  - now rewrite (ci_startswith_lower "" p).
  - now rewrite (ci_startswith_lower (String c s) p), IH.
Qed.

Lemma existsb_contains (s : string) (kws : list string) :
  existsb (fun x => contains s x) kws = true <->
  exists kw, In kw kws /\ occurs_in kw s.
Proof.
  rewrite existsb_exists. split; intros (kw & Hin & H); exists kw;
    (split; [exact Hin | now apply contains_spec]).
Qed.

End StringFacts.

(** ** The referral source classifier *)

Section ClassifierClaims.
Import Props.
Local Open Scope string_scope.

(** C5. The classifier lower-cases its input and answers "Online" when one
    of the Online keywords occurs in it, otherwise "Offline" when one of the
    Offline keywords occurs, otherwise "Other"; text holding keywords of
    both sets is "Online". *)
Theorem get_source_category_spec (source : string) :
  let s := lower source in
  let online := exists kw, In kw online_keywords /\ occurs_in kw s in
  let offline := exists kw, In kw offline_keywords /\ occurs_in kw s in
  (get_source_category (Str source) = "Online" <-> online) /\
  (get_source_category (Str source) = "Offline" <-> ~ online /\ offline) /\
  (get_source_category (Str source) = "Other" <-> ~ online /\ ~ offline) /\
  (online /\ offline -> get_source_category (Str source) = "Online").
Proof.
  cbv zeta. unfold get_source_category. cbn [py_str].
  pose proof (existsb_contains (lower source) online_keywords) as Hon.
  pose proof (existsb_contains (lower source) offline_keywords) as Hoff.
  unfold online_keywords, offline_keywords in *.
  destruct (existsb _ ["user sign up"; "app"; "web"; "online"]) eqn:E1.
  - assert (Ho : exists kw, In kw ["user sign up"; "app"; "web"; "online"] /\
                            occurs_in kw (lower source)) by now apply Hon.
    repeat split; try discriminate; try tauto.
  - assert (Ho : ~ exists kw, In kw ["user sign up"; "app"; "web"; "online"] /\
                              occurs_in kw (lower source)).
    { intros H. apply Hon in H. discriminate. }
    destruct (existsb _ ["draft transaction"; "lead"; "walk"]) eqn:E2.
    + assert (Hf : exists kw, In kw ["draft transaction"; "lead"; "walk"] /\
                              occurs_in kw (lower source)) by now apply Hoff.
      repeat split; try discriminate; try tauto.
    + assert (Hf : ~ exists kw, In kw ["draft transaction"; "lead"; "walk"] /\
                                occurs_in kw (lower source)).
      { intros H. apply Hoff in H. discriminate. }
      repeat split; try discriminate; try tauto.
Qed.

(** The examples of the specification. *)
Example source_category_examples :
  get_source_category (Str "User Sign Up via App") = "Online" /\
  get_source_category (Str "Draft Transaction - Walk In") = "Offline" /\
  get_source_category (Str "Referral Code") = "Other" /\
  get_source_category (Str "Walk In Lead From Web") = "Online" /\
  get_source_category NA = "Other".
Proof. repeat split; reflexivity. Qed.

End ClassifierClaims.

(** ** The status flags *)

Section StatusFlagClaims.
Import Props FraudCheck.
Local Open Scope string_scope.

Lemma contains_any_ci_spec (kws : list string) (s : string) :
  contains_any_ci kws s = true <->
  exists kw, In kw kws /\ occurs_in (lower kw) (lower s).
Proof.
  unfold contains_any_ci. rewrite existsb_exists.
  split; intros (kw & Hin & H); exists kw; (split; [exact Hin|]).
  - apply contains_spec. now rewrite <- ci_search_lower.
  - rewrite ci_search_lower. now apply contains_spec.
Qed.

Lemma contains_any_ci_lower (kws : list string) (s : string) :
  contains_any_ci kws (lower s) = contains_any_ci kws s.
Proof.
  unfold contains_any_ci. induction kws as [|kw kws IH]; simpl; [reflexivity|].
  now rewrite IH, !ci_search_lower, lower_idem.
Qed.

(** C6, counterexample.  "Tidak Berhasil" holds a keyword of each family,
    and both flags are true for it. *)
Lemma status_flags_not_disjoint :
  is_success_of (Str "Tidak Berhasil") = true /\
  is_pending_or_failed_of (Str "Tidak Berhasil") = true.
Proof. split; reflexivity. Qed.

(** C6, as amended.  Each flag is a substring search that ignores case:
    [is_success] holds exactly when a success keyword occurs in the status
    name, [is_pending_or_failed] exactly when a pending/failed keyword
    occurs.  A status name that is, ignoring case, one single keyword sets
    exactly one of the two flags. *)
Theorem status_flags_by_keyword (status : string) :
  (is_success_of (Str status) = true <->
   exists kw, In kw success_keywords /\ occurs_in (lower kw) (lower status)) /\
  (is_pending_or_failed_of (Str status) = true <->
   exists kw, In kw pending_failed_keywords /\
              occurs_in (lower kw) (lower status)) /\
  (forall kw, In kw success_keywords -> lower status = lower kw ->
     is_success_of (Str status) = true /\
     is_pending_or_failed_of (Str status) = false) /\
  (forall kw, In kw pending_failed_keywords -> lower status = lower kw ->
     is_success_of (Str status) = false /\
     is_pending_or_failed_of (Str status) = true).
Proof.
  unfold is_success_of, is_pending_or_failed_of. cbn [py_str].
  split; [apply contains_any_ci_spec|].
  split; [apply contains_any_ci_spec|].
  split; intros kw Hin Hl;
    rewrite <- (contains_any_ci_lower _ status),
            <- (contains_any_ci_lower ["Menunggu"; "Tidak"; "Fail"; "Pending"] status),
            Hl;
    cbn in Hin; repeat destruct Hin as [<- | Hin]; try contradiction;
    split; reflexivity.
Qed.

End StatusFlagClaims.

(** ** The identifier normalizer *)

Section CleanIdFacts.
Import Props.
Local Open Scope string_scope.



















Lemma lower_append (a b : string) : lower (a ++ b) = lower a ++ lower b.
Proof. induction a as [|c a IH]; simpl; [reflexivity | now rewrite IH]. Qed.















End CleanIdFacts.

Section CleanIdClaims.
Import Props.
Local Open Scope string_scope.



(** C3, at the failing inputs.  The test for the missing literals comes
    before the whitespace is stripped and before the ".0" suffix is removed,
    so the literals can come out of [clean_id] as text. *)
Lemma clean_id_returns_missing_literals :
  clean_id (Str " nan") = Str "nan" /\
  clean_id (Str "NULL ") = Str "NULL" /\
  clean_id (Str " ") = Str "" /\
  clean_id (Str ".0") = Str "" /\
  clean_output_ok (clean_id (Str " nan")) = false /\
  clean_output_ok (clean_id (Str " ")) = false.
Proof. repeat split; reflexivity. Qed.

End CleanIdClaims.

(** ** The local-time converter *)

Section ToLocalClaims.
Import Props.
Local Open Scope string_scope.

Variable tzdb : string -> option Zone.

Lemma try_except_ok {A} (body : result A) (a : A) :
  exists v, try_except body (Ok a) = Ok v.
Proof. destruct body as [v|e]; cbn; eauto. Qed.

(** After the optional [tz_localize], stripping the zone gives back the
    wall clock of the timestamp that was passed in. *)
Lemma strip_after_localize (ts : Timestamp) :
  replace_tzinfo_none
    match tzinfo ts with
    | None => tz_localize_utc ts
    | Some _ => ts
    end = mkTimestamp (clock ts) None.
Proof. destruct ts as [c [off|]]; reflexivity. Qed.

(** C4. [to_local] never raises.  It returns the missing marker when the
    timestamp is missing, when the time zone is missing and when the time
    zone reads "nan" in any letter case; and for a zone name that the zone
    database does not know it returns the timestamp that was passed in,
    with its zone information removed. *)
Theorem to_local_never_raises (ts : option Timestamp) (tz : cell) :
  (exists v, to_local tzdb ts tz = Ok v) /\
  (ts = None \/ isna tz = true \/ lower (py_str tz) = "nan" ->
   to_local tzdb ts tz = Ok None) /\
  (forall t, ts = Some t -> isna tz = false -> lower (py_str tz) <> "nan" ->
     tzdb (py_str tz) = None ->
     to_local tzdb ts tz = Ok (Some (mkTimestamp (clock t) None))).
Proof.
  split; [|split].
  - destruct ts as [t|]; cbn [to_local]; [|eauto].
    destruct (isna tz || (lower (py_str tz) =? "nan")); [eauto|].
    apply try_except_ok.
  - intros [-> | [H | H]]; [reflexivity | |]; destruct ts as [t|];
      cbn [to_local]; try reflexivity.
    + now rewrite H.
    + rewrite H. cbn. now rewrite orb_true_r.
  - intros t -> Hna Hnan Hdb. cbn [to_local]. rewrite Hna. cbn [orb].
    destruct (lower (py_str tz) =? "nan") eqn:E.
    + apply String.eqb_eq in E. contradiction.
    + unfold pytz_timezone. rewrite Hdb. cbn [bind try_except].
      now rewrite strip_after_localize.
Qed.

End ToLocalClaims.

(** The conversions of the specification, on the sample zone database:
    10:00 UTC on 2024-01-15 is 17:00 in Jakarta. *)
Example to_local_examples :
  let ten_utc := mkTimestamp 1705312800 (Some 0%Z) in
  to_local sample_tzdb (Some ten_utc) (Str "Asia/Jakarta")
    = Ok (Some (mkTimestamp 1705338000 None)) /\
  str_of_time 1705312800 = "2024-01-15 10:00:00" /\
  str_of_time 1705338000 = "2024-01-15 17:00:00" /\
  to_local sample_tzdb (Some ten_utc) NA = Ok None /\
  to_local sample_tzdb None (Str "Asia/Jakarta") = Ok None /\
  to_local sample_tzdb (Some ten_utc) (Str "Mars/Olympus")
    = Ok (Some (mkTimestamp 1705312800 None)).
Proof. repeat split; reflexivity. Qed.

(** ** Data frames: columns *)

Section FrameColumnFacts.
Local Open Scope string_scope.

Lemma col_index_none (c : string) (cols : list string) :
  col_index c cols = None <-> in_list c cols = false.
Proof.
  unfold in_list. induction cols as [|c' cols IH]; cbn; [tauto|].
  destruct (c =? c'); cbn; [split; discriminate|].
  destruct (col_index c cols); cbn; [|tauto].
  split; [discriminate|]. intros H. apply IH in H. discriminate.
Qed.

Lemma getitem_absent (df : DataFrame) (c : string) :
  has_column df c = false -> getitem df c = Raise (KeyError c).
Proof.
  unfold has_column, getitem, locate. intros H.
  apply col_index_none in H. now rewrite H.
Qed.

Lemma has_column_setitem_other (df : DataFrame) (c0 c : string) values :
  (c =? c0) = false ->
  has_column (setitem df c0 values) c = has_column df c.
Proof.
  intros Hne. unfold has_column, setitem, in_list.
  destruct (col_index c0 (columns df)); cbn [columns]; [reflexivity|].
  rewrite existsb_app. cbn. now rewrite Hne, !orb_false_r.
Qed.

Lemma columns_apply_column f c (df df' : DataFrame) :
  apply_column f c df = Ok df' -> columns df' = columns df.
Proof.
  unfold apply_column, getitem, locate, setitem.
  destruct (col_index c (columns df)); cbn; [|discriminate].
  now intros [= <-].
Qed.

Lemma has_column_apply_column f c0 (df df' : DataFrame) c :
  apply_column f c0 df = Ok df' -> has_column df' c = has_column df c.
Proof. intros H. unfold has_column. now rewrite (columns_apply_column _ _ _ _ H). Qed.

Lemma columns_convert_dates to_datetime cols (df df' : DataFrame) :
  FraudCheck.convert_dates to_datetime cols df = Ok df' ->
  columns df' = columns df.
Proof.
  revert df. induction cols as [|c cols IH]; intros df; cbn.
  - now intros [= <-].
  - destruct (has_column df c).
    + destruct (apply_column _ c df) as [d|e] eqn:E; cbn; [|discriminate].
      intros H. rewrite (IH _ H). now apply columns_apply_column in E.
    + cbn. apply IH.
Qed.

Lemma has_column_convert_dates to_datetime cols (df df' : DataFrame) c :
  FraudCheck.convert_dates to_datetime cols df = Ok df' ->
  has_column df' c = has_column df c.
Proof.
  intros H. unfold has_column. now rewrite (columns_convert_dates _ _ _ _ H).
Qed.

End FrameColumnFacts.

(** ** Flag derivation and absent columns *)

Section DeriveFlagsClaims.
Import FraudCheck.
Local Open Scope string_scope.

Variable to_datetime : cell -> option Z.
Variable today : Z.

Ltac absent :=
  unfold set_flag, setitem_scalar;
  repeat (rewrite has_column_setitem_other by reflexivity);
  assumption.

Ltac run_to_failure :=
  repeat first
    [ match goal with
      | |- raises (bind (getitem ?d ?c) _) =>
          rewrite (getitem_absent d c) by absent; eexists; reflexivity
      end
    | match goal with
      | |- raises (bind ?e _) =>
          let E := fresh "E" in
          destruct e eqn:E; [cbn [bind] | eexists; reflexivity]
      end ].

(** C8, on the code.  When any of the four transaction columns is absent
    from the table, [derive_flags] raises instead of filling in a default. *)
Theorem derive_flags_raises_without_transaction_column (df : DataFrame) (c : string) :
  In c ["transaction_id"; "transaction_status"; "transaction_type";
        "transaction_at_local"] ->
  has_column df c = false ->
  raises (derive_flags to_datetime today df).
Proof.
  intros Hin Hc. unfold derive_flags.
  set (df0 := if negb (has_column df "reward_value") then _ else df).
  assert (H0 : has_column df0 c = false).
  { subst df0. destruct (negb (has_column df "reward_value")); [|exact Hc].
    unfold setitem_scalar. rewrite has_column_setitem_other; [exact Hc|].
    cbn in Hin. repeat destruct Hin as [<- | Hin]; try reflexivity; contradiction. }
  clearbody df0. clear Hc.
  destruct (apply_column _ "reward_value" df0) as [df1|e] eqn:E1;
    [cbn [bind] | eexists; reflexivity].
  assert (H1 : has_column df1 c = false)
    by now rewrite (has_column_apply_column _ _ _ _ c E1).
  destruct (convert_dates to_datetime _ df1) as [df2|e] eqn:E2;
    [cbn [bind] | eexists; reflexivity].
  assert (H2 : has_column df2 c = false)
    by now rewrite (has_column_convert_dates _ _ _ _ c E2).
  clear E1 E2 H0 H1 df0 df1.
  cbn in Hin. repeat destruct Hin as [<- | Hin]; try contradiction;
    run_to_failure.
Qed.

End DeriveFlagsClaims.

(** ** Data frames: row counts *)

Section RowCountFacts.
Local Open Scope string_scope.

Lemma length_bind_ones {A B} (f : A -> list B) (l : list A) :
  (forall x, length (f x) = 1) -> length (l ≫= f) = length l.
Proof.
  intros Hf. induction l as [|x l IH]; [reflexivity|].
  rewrite bind_cons, length_app, Hf, IH. reflexivity.
Qed.

Lemma matches_none (ri : nat) (k : cell) (right : list (list cell)) :
  key_of k ∉ key_of <$> (cell_at ri <$> right) -> matches ri k right = [].
Proof.
  unfold matches. induction right as [|r right IH]; intros Hk; [reflexivity|].
  rewrite !fmap_cons, not_elem_of_cons in Hk. destruct Hk as [Hne Hk].
  rewrite filter_cons.
  destruct (decide (key_of (cell_at ri r) = key_of k)); [congruence|].
  now apply IH.
Qed.

Lemma matches_at_most_one (ri : nat) (k : cell) (right : list (list cell)) :
  NoDup (key_of <$> (cell_at ri <$> right)) -> length (matches ri k right) <= 1.
Proof.
  unfold matches. induction right as [|r right IH]; intros Hnd; [cbn; lia|].
  rewrite !fmap_cons in Hnd. apply NoDup_cons in Hnd as [Hr Hnd].
  rewrite filter_cons.
  destruct (decide (key_of (cell_at ri r) = key_of k)) as [Heq|Hne].
  - fold (matches ri k right). rewrite matches_none by (now rewrite <- Heq).
    cbn. lia.
  - now apply IH.
Qed.

Lemma join_row_one shared ri width (right : list (list cell)) li (l : list cell) :
  NoDup (key_of <$> (cell_at ri <$> right)) ->
  length (join_row shared ri width right li l) = 1.
Proof.
  intros Hnd. unfold join_row.
  pose proof (matches_at_most_one ri (cell_at li l) right Hnd) as Hle.
  destruct (matches ri (cell_at li l) right) as [|m [|m' ms]]; cbn in *;
    [reflexivity | reflexivity | lia].
Qed.

Lemma key_position_locate (df : DataFrame) key i :
  key_position df key = Ok i -> locate df key = Ok i.
Proof.
  unfold key_position. destruct (locate df key) as [j|e]; cbn [bind];
    [|discriminate].
  now destruct (in_list key (drop (S j) (columns df))).
Qed.

Lemma nrows_joined (left right : DataFrame) li ri shared ls rs :
  NoDup (key_of <$> (cell_at ri <$> rows right)) ->
  nrows (joined left right li ri shared ls rs) = nrows left.
Proof.
  intros Hnd. unfold nrows, joined. cbn [rows].
  apply length_bind_ones. intros l. now apply join_row_one.
Qed.


Lemma merge_csv_nrows (left right : DataFrame) key ls rs ri out :
  locate right key = Ok ri ->
  NoDup (key_of <$> (cell_at ri <$> rows right)) ->
  merge_csv left right key ls rs = Ok out ->
  nrows out = nrows left.
Proof.
  intros Hri Hnd. unfold merge_csv.
  destruct (key_position right key) as [ri'|e] eqn:Er; cbn [bind];
    [|discriminate].
  apply key_position_locate in Er. rewrite Hri in Er. injection Er as <-.
  destruct (key_position left key) as [li|e]; cbn [bind]; [|discriminate].
  destruct (keys_mergeable _ _); [|discriminate].
  intros [= <-]. now apply nrows_joined.
Qed.

Lemma dedup_keys (i : nat) (seen : list cell) (rs : list (list cell)) :
  NoDup (key_of <$> (cell_at i <$> dedup i seen rs)) /\
  forall k, k ∈ key_of <$> (cell_at i <$> dedup i seen rs) -> k ∉ seen.
Proof.
  revert seen. induction rs as [|r rs IH]; intros seen; cbn [dedup].
  - split; [constructor|]. intros k Hk. cbn in Hk. now apply elem_of_nil in Hk.
  - case_bool_decide as Hin; [apply IH|].
    destruct (IH (key_of (cell_at i r) :: seen)) as [Hnd Hout].
    rewrite !fmap_cons. split.
    + apply NoDup_cons. split; [|exact Hnd].
      intros Hk. apply Hout in Hk. apply Hk. now left.
    + intros k Hk. apply elem_of_cons in Hk as [-> | Hk]; [exact Hin|].
      apply Hout in Hk. intros Hs. apply Hk. now right.
Qed.

Lemma drop_duplicates_keys (df df' : DataFrame) c :
  drop_duplicates df c = Ok df' ->
  columns df' = columns df /\
  exists i, locate df' c = Ok i /\
            NoDup (key_of <$> (cell_at i <$> rows df')).
Proof.
  unfold drop_duplicates.
  destruct (locate df c) as [i|e] eqn:Hi; cbn [bind]; [|discriminate].
  intros [= <-]. split; [reflexivity|]. exists i. split.
  - unfold locate in *. exact Hi.
  - apply dedup_keys.
Qed.

Lemma locate_present (df : DataFrame) c :
  has_column df c = true -> exists i, locate df c = Ok i.
Proof.
  unfold has_column, locate. intros H.
  destruct (col_index c (columns df)) as [i|] eqn:E; [now exists i|].
  apply col_index_none in E. congruence.
Qed.

Lemma nrows_setitem (df : DataFrame) c values :
  length values = nrows df -> nrows (setitem df c values) = nrows df.
Proof.
  unfold setitem, nrows. intros H.
  destruct (col_index c (columns df)); cbn [rows];
    rewrite length_zip_with; lia.
Qed.

Lemma nrows_setitem_scalar (df : DataFrame) c v :
  nrows (setitem_scalar df c v) = nrows df.
Proof. apply nrows_setitem, length_replicate. Qed.

Lemma nrows_apply_column f c (df df' : DataFrame) :
  apply_column f c df = Ok df' -> nrows df' = nrows df.
Proof.
  unfold apply_column, getitem.
  destruct (locate df c) as [i|e]; cbn [bind]; [|discriminate].
  intros [= <-]. apply nrows_setitem. now rewrite !length_fmap.
Qed.

End RowCountFacts.

(** ** Row counts through the merges of the two pipelines *)

Section PipelineRowCounts.
Import TimeMain FraudCheck.
Local Open Scope string_scope.

Lemma length_getitem (df : DataFrame) c col :
  getitem df c = Ok col -> length col = nrows df.
Proof.
  unfold getitem. destruct (locate df c); cbn [bind]; [|discriminate].
  intros [= <-]. apply length_fmap.
Qed.






Lemma getitem_locate (df : DataFrame) c i :
  locate df c = Ok i -> getitem df c = Ok (cell_at i <$> rows df).
Proof. unfold getitem. now intros ->. Qed.



(** The reward merge keeps the number of rows whenever it completes,
    whatever the reward table holds. *)
Lemma nrows_merge_rewards (df out : DataFrame) (rewards : option DataFrame) :
  merge_rewards df rewards = Ok out -> nrows out = nrows df.
Proof.
  unfold merge_rewards. destruct rewards as [rewards|]; [|now intros [= <-]].
  set (rw := if has_column (strip_columns rewards) "user_referral_id"
             then _ else _).
  set (k := if has_column df "referral_id" then "referral_id" else "id").
  destruct (has_column df k && has_column rw k); [|now intros [= <-]].
  destruct (drop_duplicates rw k) as [rw'|e] eqn:Ed; cbn [bind]; [|discriminate].
  destruct (drop_duplicates_keys _ _ _ Ed) as (_ & i & Hi & Hnd).
  now apply merge_csv_nrows with (ri := i).
Qed.

Lemma select_first_column (df right : DataFrame) c cs :
  select df (c :: cs) = Ok right ->
  exists i, locate df c = Ok i /\ locate right c = Ok 0 /\
            cell_at 0 <$> rows right = cell_at i <$> rows df.
Proof.
  unfold select. cbn [locate_all].
  destruct (locate df c) as [i|e]; cbn [bind]; [|discriminate].
  destruct (locate_all df cs) as [js|e]; cbn [bind]; [|discriminate].
  intros [= <-]. exists i. split; [reflexivity|]. split.
  - unfold locate. cbn. now rewrite String.eqb_refl.
  - cbn [rows]. rewrite <- list_fmap_compose. reflexivity.
Qed.

Lemma nrows_merge_statuses (df out : DataFrame) (statuses : option DataFrame) :
  (forall st ids, statuses = Some st ->
     getitem (rename (strip_columns st)
                     [("id", "user_referral_status_id");
                      ("description", "status_name")])
             "user_referral_status_id" = Ok ids -> NoDup (key_of <$> ids)) ->
  merge_statuses df statuses = Ok out -> nrows out = nrows df.
Proof.
  intros Hnd. unfold merge_statuses.
  match goal with
  | |- bind ?m _ = _ -> _ => destruct m as [d|e] eqn:E
  end; cbn [bind]; [|discriminate].
  assert (Hd : nrows d = nrows df).
  { destruct statuses as [st|]; [|now injection E as <-].
    destruct (has_column (strip_columns st) "description");
      [|now injection E as <-].
    destruct (select _ _) as [right|e] eqn:Es; cbn [bind] in E; [|discriminate].
    destruct (select_first_column _ _ _ _ Es) as (i & Hi & H0 & Hkeys).
    apply (merge_csv_nrows _ _ _ _ _ _ _ H0) in E; [exact E|].
    rewrite Hkeys. apply (Hnd st); [reflexivity|]. now apply getitem_locate. }
  destruct (negb (has_column d "status_name")); intros [= <-];
    [now rewrite nrows_setitem_scalar | exact Hd].
Qed.

End PipelineRowCounts.

Section JoinClaims.
Import TimeMain FraudCheck Samples.
Local Open Scope string_scope.




(** The join stages on the sample tables: two reward rows for one referral
    and two log rows for one user leave one referral row. *)
Example joins_on_samples :
  (exists out, assemble referrals users transactions = Ok out /\ nrows out = 1) /\
  (exists out, merge_rewards referrals (Some rewards_twice) = Ok out /\
               nrows out = 1) /\
  (exists out, assemble referrals users empty_frame = Ok out /\ nrows out = 1).
Proof.
  repeat split; eexists; (split; [vm_compute; reflexivity|]); reflexivity.
Qed.

End JoinClaims.

Section MissingColumnExamples.
Import FraudCheck Samples.
Local Open Scope string_scope.

(** The first reading of [transaction_status] fails on the table written
    without transaction data, in [derive_flags] and so in the whole run. *)
Lemma derive_flags_raises_witness :
  raises (derive_flags only_timestamps sample_today merged_without_transactions).
Proof.
  apply (derive_flags_raises_without_transaction_column
           only_timestamps sample_today merged_without_transactions
           "transaction_status").
  - simpl. tauto.
  - reflexivity.
Defined.

Example classify_without_transactions :
  (let* df := merge_statuses cleaned_without_transactions (Some statuses) in
   merge_rewards df (Some rewards)) = Ok merged_without_transactions /\
  derive_flags only_timestamps sample_today merged_without_transactions
    = Raise (KeyError "transaction_status") /\
  classify only_timestamps sample_today cleaned_without_transactions
           (Some statuses) (Some rewards)
    = Raise (KeyError "transaction_status").
Proof. repeat split; vm_compute; reflexivity. Qed.

(** The guarded columns do get their defaults: without status and reward
    tables every status is "Unknown" and every reward is 0, and the run
    reaches its verdicts. *)
Example classify_with_defaults :
  exists out,
    classify only_timestamps sample_today cleaned None None = Ok out /\
    getitem out "status_name" = Ok [Str "Unknown"; Str "Unknown"; Str "Unknown"] /\
    getitem out "reward_value" = Ok [Int 0; Int 0; Int 0] /\
    getitem out "has_reward" = Ok [Bool false; Bool false; Bool false].
Proof. eexists. split; [vm_compute; reflexivity|]. repeat split; reflexivity. Qed.

(** The end-to-end scenarios of the specification: reward 50, "Berhasil",
    paid new transaction in the same month is valid; no reward and
    "Menunggu" is valid; reward 50 and "Gagal" is invalid. *)
Example classify_scenarios :
  exists out,
    classify only_timestamps sample_today cleaned (Some statuses) (Some rewards)
      = Ok out /\
    getitem out "reward_value" = Ok [Int 50; Int 0; Int 50] /\
    getitem out "is_business_logic_valid" = Ok [Bool true; Bool true; Bool false].
Proof. eexists. split; [vm_compute; reflexivity|]. split; reflexivity. Qed.

End MissingColumnExamples.

(** ** From the derived flags to a verdict for every row *)

Section VerdictFacts.
Import Props FraudCheck.
Local Open Scope string_scope.

Lemma col_index_lt (c : string) (cols : list string) i :
  col_index c cols = Some i -> i < length cols.
Proof.
  revert i. induction cols as [|c' cols IH]; intros i; cbn; [discriminate|].
  destruct (c =? c'); [intros [= <-]; lia|].
  destruct (col_index c cols) as [j|]; cbn; [|discriminate].
  intros [= <-]. specialize (IH j eq_refl). lia.
Qed.

Lemma col_index_app (c c' : string) (cols : list string) :
  col_index c (cols ++ [c']) =
    match col_index c cols with
    | Some i => Some i
    | None => if c =? c' then Some (length cols) else None
    end.
Proof.
  induction cols as [|c0 cols IH]; cbn.
  - now destruct (c =? c').
  - destruct (c =? c0); [reflexivity|]. rewrite IH.
    destruct (col_index c cols); cbn; [reflexivity|].
    now destruct (c =? c').
Qed.

Lemma Forall_zip_with {A B C} (f : A -> B -> C) (P : A -> Prop) (Q : C -> Prop)
    (l : list A) (k : list B) :
  (forall a b, P a -> Q (f a b)) -> Forall P l -> Forall Q (zip_with f l k).
Proof.
  intros Hf Hl. revert k. induction Hl as [|a l Ha Hl IH]; intros k;
    [constructor|].
  destruct k as [|b k]; cbn; [constructor|].
  constructor; [now apply Hf | apply IH].
Qed.

Lemma Forall_zip_with_fmap {A B C D} (f : A -> C -> D) (g : B -> C)
    (P : A -> Prop) (Q : D -> Prop) (l : list A) (k : list B) :
  (forall a b, P a -> Q (f a (g b))) ->
  Forall P l -> Forall Q (zip_with f l (g <$> k)).
Proof.
  intros Hf Hl. revert k. induction Hl as [|a l Ha Hl IH]; intros k;
    [constructor|].
  destruct k as [|b k]; cbn; [constructor|].
  constructor; [now apply Hf | apply IH].
Qed.

Lemma well_formed_setitem (df : DataFrame) c values :
  well_formed df -> well_formed (setitem df c values).
Proof.
  unfold well_formed, setitem. intros Hwf.
  destruct (col_index c (columns df)) as [i|]; cbn [columns rows];
    (eapply Forall_zip_with; [|exact Hwf]); intros r v Hr; cbn in *.
  - now rewrite length_insert.
  - rewrite !length_app, Hr. reflexivity.
Qed.

Lemma well_formed_apply_column f c (df df' : DataFrame) :
  well_formed df -> apply_column f c df = Ok df' -> well_formed df'.
Proof.
  unfold apply_column. intros Hwf.
  destruct (getitem df c); cbn [bind]; [|discriminate].
  intros [= <-]. now apply well_formed_setitem.
Qed.

Lemma convert_dates_keeps to_datetime cols (df df' : DataFrame) :
  well_formed df -> convert_dates to_datetime cols df = Ok df' ->
  well_formed df' /\ nrows df' = nrows df.
Proof.
  revert df. induction cols as [|c cols IH]; intros df Hwf; cbn.
  - now intros [= <-].
  - destruct (has_column df c).
    + destruct (apply_column _ c df) as [d|e] eqn:E; cbn [bind]; [|discriminate].
      intros H. apply IH in H; [|now apply (well_formed_apply_column _ _ _ _ Hwf E)].
      apply nrows_apply_column in E. now rewrite <- E.
    + cbn [bind]. now apply IH.
Qed.

Lemma nrows_set_flag (df : DataFrame) c flags :
  length flags = nrows df -> nrows (set_flag df c flags) = nrows df.
Proof. intros H. apply nrows_setitem. now rewrite length_fmap. Qed.

Lemma set_flag_keeps (df : DataFrame) c flags c' :
  well_formed df -> bool_column df c' -> bool_column (set_flag df c flags) c'.
Proof.
  intros Hwf (i & Hi & Hb). unfold bool_column, set_flag, setitem.
  assert (Hboth : Forall (fun r => length r = length (columns df) /\
                                   exists b, r !! i = Some (Bool b)) (rows df)).
  { unfold well_formed in Hwf. rewrite Forall_forall in *. intros r Hr.
    split; [now apply Hwf | now apply Hb]. }
  pose proof (col_index_lt _ _ _ Hi) as Hlt.
  destruct (col_index c (columns df)) as [j|] eqn:Hj; cbn [columns rows].
  - exists i. split; [exact Hi|].
    (eapply Forall_zip_with_fmap; [|exact Hboth]).
    intros r b [Hlen [b0 Hb0]]. cbn.
    destruct (decide (j = i)) as [->|Hne].
    + exists b. apply list_lookup_insert_eq. now rewrite Hlen.
    + exists b0. now rewrite list_lookup_insert_ne.
  - exists i. split; [rewrite col_index_app; now rewrite Hi|].
    (eapply Forall_zip_with_fmap; [|exact Hboth]).
    intros r b [Hlen [b0 Hb0]]. cbn. exists b0.
    rewrite lookup_app_l; [exact Hb0|]. now rewrite Hlen.
Qed.

Lemma set_flag_makes (df : DataFrame) c flags :
  well_formed df -> bool_column (set_flag df c flags) c.
Proof.
  intros Hwf. unfold bool_column, set_flag, setitem.
  destruct (col_index c (columns df)) as [j|] eqn:Hj; cbn [columns rows].
  - exists j. split; [exact Hj|].
    (eapply Forall_zip_with_fmap; [|exact Hwf]).
    intros r b Hr. cbn in *. exists b. apply list_lookup_insert_eq.
    rewrite Hr. now apply col_index_lt in Hj.
  - exists (length (columns df)). split.
    + rewrite col_index_app, Hj. now rewrite String.eqb_refl.
    + (eapply Forall_zip_with_fmap; [|exact Hwf]).
      intros r b Hr. cbn in *. exists b. rewrite <- Hr.
      apply list_lookup_middle. reflexivity.
Qed.

Lemma well_formed_set_flag (df : DataFrame) c flags :
  well_formed df -> well_formed (set_flag df c flags).
Proof. apply well_formed_setitem. Qed.

Lemma setitem_scalar_bool (df : DataFrame) c b :
  setitem_scalar df c (Bool b) = set_flag df c (replicate (nrows df) b).
Proof. unfold setitem_scalar, set_flag. now rewrite fmap_replicate. Qed.

Lemma length_map_result {A B} (f : A -> result B) (l : list A) bs :
  map_result f l = Ok bs -> length bs = length l.
Proof.
  revert bs. induction l as [|a l IH]; intros bs; cbn.
  - now intros [= <-].
  - destruct (f a); cbn [bind]; [|discriminate].
    destruct (map_result f l) as [bs'|]; cbn [bind]; [|discriminate].
    intros [= <-]. cbn. now rewrite (IH bs').
Qed.

Lemma map_result_ok {A B} (f : A -> result B) (l : list A) :
  Forall (fun a => exists b, f a = Ok b) l -> exists bs, map_result f l = Ok bs.
Proof.
  induction 1 as [|a l [b Hb] Hl [bs IH]]; cbn; [now exists []|].
  rewrite Hb, IH. cbn. now exists (b :: bs).
Qed.

Lemma row_view_lookup (cols : list string) (r : list cell) c i b :
  col_index c cols = Some i -> r !! i = Some (Bool b) ->
  row_view cols r !! c = Some b.
Proof.
  unfold row_view. revert r i. induction cols as [|c0 cols IH]; intros r i;
    cbn [col_index]; [discriminate|].
  destruct (c =? c0) eqn:Hc.
  - intros [= <-] Hr. apply String.eqb_eq in Hc as <-.
    destruct r as [|v r]; [discriminate|]. cbn in Hr. injection Hr as ->.
    cbn. apply lookup_insert_eq.
  - destruct (col_index c cols) as [j|] eqn:Hj; cbn; [|discriminate].
    intros [= <-] Hr. destruct r as [|v r]; [discriminate|]. cbn in Hr.
    assert (Hne : c0 <> c) by (intros <-; now rewrite String.eqb_refl in Hc).
    cbn. destruct v; cbn; try (now apply (IH r j));
      rewrite lookup_insert_ne by exact Hne; now apply (IH r j).
Qed.

End VerdictFacts.

Section VerdictForEveryRow.
Import Props FraudCheck.
Local Open Scope string_scope.

Variable to_datetime : cell -> option Z.
Variable today : Z.

(** One more flag column: the table stays well formed, keeps its rows and
    the boolean columns it had, and has the new one. *)
Lemma set_flag_step (d : DataFrame) c flags (cs : list string) n :
  well_formed d /\ nrows d = n /\ Forall (bool_column d) cs ->
  length flags = n ->
  well_formed (set_flag d c flags) /\ nrows (set_flag d c flags) = n /\
  Forall (bool_column (set_flag d c flags)) (c :: cs).
Proof.
  intros (Hwf & Hn & Hcs) Hlen. split; [now apply well_formed_set_flag|].
  split; [rewrite nrows_set_flag; lia|].
  constructor; [now apply set_flag_makes|].
  rewrite Forall_forall in *. intros c' Hc'. apply set_flag_keeps; auto.
Qed.

Ltac read_column H :=
  match type of H with
  | context [bind (getitem ?d ?c) _] =>
      is_var d;
      let col := fresh "col" in
      let E := fresh "E" in
      destruct (getitem d c) as [col|] eqn:E; cbn [bind] in H;
      [apply length_getitem in E | discriminate H]
  end.

Ltac lengths :=
  rewrite ?length_fmap, ?length_zip_with, ?length_replicate; lia.

Ltac add_flag H I :=
  match type of H with
  | context [set_flag ?d ?c ?f] =>
      is_var d;
      let d' := fresh "d" in
      let I' := fresh "I" in
      pose proof (set_flag_step d c f _ _ I ltac:(lengths)) as I';
      set (d' := set_flag d c f) in *; clearbody d'; clear I
  end.

Lemma derive_flags_columns (df out : DataFrame) :
  well_formed df -> derive_flags to_datetime today df = Ok out ->
  well_formed out /\ nrows out = nrows df /\
  Forall (bool_column out) RuleEngine.flag_columns.
Proof.
  intros Hwf H. unfold derive_flags in H.
  set (d0 := if negb (has_column df "reward_value") then _ else df) in H.
  assert (I0 : well_formed d0 /\ nrows d0 = nrows df).
  { subst d0. destruct (negb (has_column df "reward_value")); [|now split].
    split; [now apply well_formed_setitem | apply nrows_setitem_scalar]. }
  clearbody d0. destruct I0 as [Hwf0 Hn0].
  destruct (apply_column _ "reward_value" d0) as [d1|] eqn:E1; cbn [bind] in H;
    [|discriminate H].
  pose proof (well_formed_apply_column _ _ _ _ Hwf0 E1) as Hwf1.
  apply nrows_apply_column in E1.
  destruct (convert_dates to_datetime _ d1) as [d2|] eqn:E2; cbn [bind] in H;
    [|discriminate H].
  apply (convert_dates_keeps _ _ _ _ Hwf1) in E2 as [Hwf2 Hn2].
  assert (I : well_formed d2 /\ nrows d2 = nrows df /\ Forall (bool_column d2) []).
  { repeat split; [exact Hwf2 | lia | constructor]. }
  clear Hwf Hwf0 Hn0 Hwf1 E1 Hwf2 Hn2 d0 d1.
  read_column H.
  destruct (map_result gt_zero col) as [has_reward|] eqn:Eh; cbn [bind] in H;
    [apply length_map_result in Eh | discriminate H].
  add_flag H I.
  read_column H. add_flag H I0.
  read_column H. add_flag H I.
  read_column H. add_flag H I0.
  read_column H. add_flag H I.
  read_column H. add_flag H I0.
  read_column H. read_column H. add_flag H I.
  rewrite setitem_scalar_bool in H. add_flag H I0.
  read_column H. read_column H. add_flag H I.
  destruct (has_column d8 "referrer_expiry").
  2: rewrite setitem_scalar_bool in H.
  1: read_column H.
  all: cbn [bind] in H; add_flag H I0.
  all: destruct (has_column _ "referrer_deleted").
  all: try rewrite setitem_scalar_bool in H.
  all: try read_column H.
  all: cbn [bind] in H; add_flag H I.
  all: destruct (has_column _ "is_reward_granted").
  all: try rewrite setitem_scalar_bool in H.
  all: try read_column H.
  all: add_flag H I0; injection H as <-.
  all: destruct I as (Hw & Hn & Hcols); split; [exact Hw|]; split; [exact Hn|].
  all: unfold RuleEngine.flag_columns; rewrite Forall_forall in *.
  all: intros c Hc; apply Hcols; revert Hc.
  all: rewrite !elem_of_cons; tauto.
Qed.

(** Once the flags are derived, rule evaluation gives every row a verdict:
    on a well-formed table on which [derive_flags] succeeds,
    [apply_check_logic] does not raise and keeps the number of rows. *)
Theorem verdict_for_every_row (df flagged : DataFrame) :
  well_formed df -> derive_flags to_datetime today df = Ok flagged ->
  exists out, apply_check_logic flagged = Ok out /\ nrows out = nrows df /\
              bool_column out "is_business_logic_valid".
Proof.
  intros Hwf H. apply (derive_flags_columns _ _ Hwf) in H as (Hw & Hn & Hcols).
  unfold apply_check_logic.
  destruct (map_result_ok
              (fun r => RuleEngine.check_logic (row_view (columns flagged) r))
              (rows flagged)) as [verdicts Hv].
  { rewrite Forall_forall. intros r Hr.
    apply check_logic_on_flag_row. intros k Hk.
    rewrite Forall_forall in Hcols.
    destruct (Hcols k) as (i & Hi & Hb); [now apply list_elem_of_In|].
    rewrite Forall_forall in Hb. destruct (Hb r Hr) as [b Hrb].
    exists b. now apply (row_view_lookup _ _ _ i). }
  rewrite Hv. cbn [bind]. eexists. split; [reflexivity|]. split.
  - rewrite nrows_set_flag; [exact Hn|]. now apply length_map_result in Hv.
  - now apply set_flag_makes.
Qed.

End VerdictForEveryRow.

Section VerdictExample.
Import Props FraudCheck Samples.
Local Open Scope string_scope.

(** The sample table with a status column: flags and verdicts are computed
    for all of its rows. *)
Lemma verdict_for_every_row_witness :
  exists flagged out,
    derive_flags only_timestamps sample_today
                 (setitem_scalar cleaned "status_name" (Str "Unknown")) = Ok flagged /\
    apply_check_logic flagged = Ok out /\ nrows out = 3.
Proof.
  destruct (derive_flags only_timestamps sample_today
              (setitem_scalar cleaned "status_name" (Str "Unknown")))
    as [flagged|e] eqn:E; [|vm_compute in E; discriminate E].
  assert (Hwf : well_formed (setitem_scalar cleaned "status_name" (Str "Unknown")))
    by (repeat constructor).
  destruct (verdict_for_every_row only_timestamps sample_today _ _ Hwf E)
    as (out & Hout & Hn & _).
  exists flagged, out. repeat split; [exact Hout | exact Hn].
Defined.

End VerdictExample.

(** ** Choosing the referral file *)

Section FileChoiceFacts.
Import FileChoice.



Lemma elem_of_omap_inv {A B} (f : A -> option B) (l : list A) (y : B) :
  y ∈ omap f l -> exists x, x ∈ l /\ f x = Some y.
Proof. intros H. now apply list_elem_of_omap in H. Qed.



End FileChoiceFacts.

Section FileChoiceTheorems.
Import FileChoice.










End FileChoiceTheorems.

(** ** More on the rule engine *)

Section RuleEngineMore.
Import RuleEngine.

(** [check_logic], closed form: the verdict is True exactly on the perfect
    path or for a pending/failed referral without reward; the five
    "invalid" tests never change it, since what follows them is False too. *)
Theorem check_logic_closed_form (f : Flags) :
  check_logic (row_of f) =
    Ok (perfect_path f || (is_pending_or_failed f && negb (has_reward f))).
Proof.
  rewrite check_logic_row_of. unfold table_verdict, decision_table, perfect_path.
  destruct f as [a b c d e g h i j k l]. cbn [first_match fst snd has_reward
    is_success is_pending_or_failed has_trans_id is_trans_paid is_trans_new
    tx_after_ref same_month is_member_active is_account_active is_granted].
  destruct a, b, c, d, e, g, h, i, j, k, l; reflexivity.
Qed.

(** [check_logic] on a row without reward reads six columns only: two such
    rows that agree on them get the same result, verdict or exception,
    whatever the other columns hold and whether they exist or not. *)
Theorem check_logic_unrewarded_reads (row row' : gmap string bool) :
  row !! "has_reward" = Some false ->
  (forall k, In k ["has_reward"; "is_pending_or_failed"; "is_success";
                   "has_trans_id"; "is_trans_paid"; "tx_after_ref"] ->
             row' !! k = row !! k) ->
  check_logic row' = check_logic row.
Proof.
  intros Hr Hagree. unfold check_logic, RuleEngine.getitem.
  rewrite (Hagree "has_reward"), (Hagree "is_pending_or_failed"),
    (Hagree "is_success"), (Hagree "has_trans_id"), (Hagree "is_trans_paid"),
    (Hagree "tx_after_ref") by (cbn; tauto).
  rewrite Hr. cbn.
  destruct (row !! "is_pending_or_failed") as [[]|]; cbn; try reflexivity.
Qed.

(** A row holding the six columns only, against the full row. *)
Lemma check_logic_unrewarded_reads_witness :
  check_logic (<["has_reward" := false]> (<["is_pending_or_failed" := false]>
               (<["is_success" := true]> (<["has_trans_id" := true]>
               (<["is_trans_paid" := true]> (<["tx_after_ref" := false]> ∅))))))
    = check_logic (row_of (mkFlags false true false true true true false true
                                   true true true)).
Proof.
  apply check_logic_unrewarded_reads.
  - reflexivity.
  - intros k Hk. cbn in Hk.
    repeat destruct Hk as [<- | Hk]; try contradiction; reflexivity.
Defined.

(** A row without the [has_reward] column raises at the first lookup. *)
Example check_logic_missing_column :
  forall row : gmap string bool,
    row !! "has_reward" = None ->
    check_logic row = Raise (KeyError "has_reward").
Proof. intros row H. unfold check_logic, RuleEngine.getitem. now rewrite H. Qed.

End RuleEngineMore.

(** ** More on the identifier normalizer and the time converter *)

Section CleanIdMore.
Import Props.
Local Open Scope string_scope.


Lemma space_not_num (c : ascii) : is_space c = true -> is_num_char c = false.
Proof. destruct c as [[] [] [] [] [] [] [] []]; cbv; congruence. Qed.





End CleanIdMore.

Section ToLocalMore.
Local Open Scope string_scope.

Variable tzdb : string -> option Zone.

(** [to_local] with a zone the database knows: the result is the wall clock
    of that zone at the instant of the timestamp, without zone information.
    A timestamp without zone information is read as UTC.  Whatever the
    arguments, a timestamp that [to_local] returns carries no zone. *)
Theorem to_local_converts (ts : Timestamp) (tz : cell) (zone : Zone) :
  isna tz = false -> lower (py_str tz) <> "nan" ->
  tzdb (py_str tz) = Some zone ->
  let utc := (clock ts - default 0 (tzinfo ts))%Z in
  to_local tzdb (Some ts) tz
    = Ok (Some (mkTimestamp (utc + utcoffset zone utc) None)) /\
  forall ts' tz' r, to_local tzdb ts' tz' = Ok (Some r) -> tzinfo r = None.
Proof.
  intros Hna Hnan Hdb utc. split.
  - cbn [to_local]. rewrite Hna. cbn [orb].
    destruct (lower (py_str tz) =? "nan") eqn:E;
      [apply String.eqb_eq in E; contradiction|].
    unfold pytz_timezone. rewrite Hdb. cbn [bind].
    subst utc. destruct ts as [c [off|]]; cbn; do 3 f_equal; lia.
  - intros [t|] tz' r; cbn [to_local]; [|discriminate].
    destruct (isna tz' || (lower (py_str tz') =? "nan")); [discriminate|].
    destruct (pytz_timezone tzdb (py_str tz')) as [z|e]; cbn [bind try_except].
    + destruct (astimezone _ z) as [l|e]; cbn; now intros [= <-].
    + now intros [= <-].
Qed.

End ToLocalMore.

(** 10:00 UTC, given without zone information, is 17:00 in Jakarta. *)
Lemma to_local_converts_witness :
  to_local sample_tzdb (Some (mkTimestamp 1705312800 None)) (Str "Asia/Jakarta")
    = Ok (Some (mkTimestamp 1705338000 None)).
Proof.
  exact (proj1 (to_local_converts sample_tzdb (mkTimestamp 1705312800 None)
                  (Str "Asia/Jakarta") (mkZone (fun _ => 25200%Z))
                  eq_refl ltac:(discriminate) eq_refl)).
Defined.

(** ** Data frames: reading back what was written *)

Section FrameReadWrite.
Import Props.

Lemma cell_at_lookup (i : nat) (r : list cell) :
  cell_at i r = default NA (r !! i).
Proof. unfold cell_at. apply nth_lookup. Qed.

Lemma fmap_zip_with_const {A B C} (f : A -> B -> A) (g : A -> C) (h : B -> C)
    (P : A -> Prop) (l : list A) (k : list B) :
  (forall a b, P a -> g (f a b) = h b) ->
  Forall P l -> length k = length l ->
  g <$> zip_with f l k = h <$> k.
Proof.
  intros Hf Hl. revert k. induction Hl as [|a l Ha Hl IH]; intros k Hk.
  - destruct k; [reflexivity | discriminate].
  - destruct k as [|b k]; [discriminate|]. cbn. rewrite Hf by exact Ha.
    f_equal. apply IH. cbn in Hk. lia.
Qed.

Lemma fmap_zip_with_keep {A B C} (f : A -> B -> A) (g : A -> C)
    (P : A -> Prop) (l : list A) (k : list B) :
  (forall a b, P a -> g (f a b) = g a) ->
  Forall P l -> length k = length l ->
  g <$> zip_with f l k = g <$> l.
Proof.
  intros Hf Hl. revert k. induction Hl as [|a l Ha Hl IH]; intros k Hk.
  - destruct k; [reflexivity | discriminate].
  - destruct k as [|b k]; [discriminate|]. cbn. rewrite Hf by exact Ha.
    f_equal. apply IH. cbn in Hk. lia.
Qed.

Lemma col_index_some_present (c : string) (cols : list string) i :
  col_index c cols = Some i -> in_list c cols = true.
Proof.
  intros H. destruct (in_list c cols) eqn:E; [reflexivity|].
  apply col_index_none in E. congruence.
Qed.

Lemma col_index_lookup (c : string) (cols : list string) i :
  col_index c cols = Some i -> cols !! i = Some c.
Proof.
  revert i. induction cols as [|c0 cols IH]; intros i; cbn; [discriminate|].
  destruct (c =? c0)%string eqn:E.
  - intros [= <-]. apply String.eqb_eq in E. now subst.
  - destruct (col_index c cols) as [j|]; cbn; [|discriminate].
    intros [= <-]. cbn. now apply IH.
Qed.

(** [df[c] = values] followed by [df[c]] gives [values] back. *)
Lemma getitem_setitem_same (df : DataFrame) c values :
  well_formed df -> length values = nrows df ->
  getitem (setitem df c values) c = Ok values.
Proof.
  intros Hwf Hlen. unfold getitem, locate, setitem.
  destruct (col_index c (columns df)) as [i|] eqn:Hi; cbn [columns rows].
  - rewrite Hi. cbn [bind]. f_equal.
    rewrite <- (list_fmap_id values) at 2.
    eapply fmap_zip_with_const; [|exact Hwf|exact Hlen].
    intros r v Hr. cbn in *.
    rewrite cell_at_lookup, list_lookup_insert_eq; [reflexivity|].
    rewrite Hr. now apply col_index_lt in Hi.
  - rewrite col_index_app, Hi, String.eqb_refl. cbn [bind]. f_equal.
    rewrite <- (list_fmap_id values) at 2.
    eapply fmap_zip_with_const; [|exact Hwf|exact Hlen].
    intros r v Hr. cbn in *.
    rewrite cell_at_lookup, <- Hr, list_lookup_middle; reflexivity.
Qed.

(** ... and leaves every other column as it was. *)
Lemma getitem_setitem_other (df : DataFrame) c c' values :
  well_formed df -> length values = nrows df -> (c' =? c)%string = false ->
  getitem (setitem df c values) c' = getitem df c'.
Proof.
  intros Hwf Hlen Hne. unfold getitem, locate, setitem.
  destruct (col_index c (columns df)) as [i|] eqn:Hi; cbn [columns rows].
  - destruct (col_index c' (columns df)) as [j|] eqn:Hj; cbn [bind]; [|reflexivity].
    f_equal. eapply fmap_zip_with_keep; [|exact Hwf|exact Hlen].
    intros r v Hr. cbn in *.
    rewrite !cell_at_lookup, list_lookup_insert_ne; [reflexivity|].
    intros ->. apply col_index_lookup in Hi, Hj. rewrite Hi in Hj.
    injection Hj as ->. now rewrite String.eqb_refl in Hne.
  - rewrite col_index_app, Hne.
    destruct (col_index c' (columns df)) as [j|] eqn:Hj; cbn [bind]; [|reflexivity].
    f_equal. eapply fmap_zip_with_keep; [|exact Hwf|exact Hlen].
    intros r v Hr. cbn in *.
    rewrite !cell_at_lookup, lookup_app_l; [reflexivity|].
    rewrite Hr. now apply col_index_lt in Hj.
Qed.

End FrameReadWrite.

(** ** What [derive_flags] writes *)

Section DeriveFlagsTracking.
Import Props FraudCheck Track.

Variable to_datetime : cell -> option Z.
Variable today : Z.

Lemma tracked_start (d : DataFrame) :
  well_formed d -> tracked d (nrows d) d [].
Proof.
  intros H. split; [exact H|]. split; [reflexivity|].
  split; [reflexivity | intros c f Hc; discriminate Hc].
Qed.

Lemma tracked_set_flag (d base : DataFrame) n kv c flags :
  tracked d n base kv -> length flags = n ->
  tracked (set_flag d c flags) n base ((c, flags) :: kv).
Proof.
  intros (Hwf & Hn & Hbase & Hkv) Hlen.
  assert (Hl : length (Bool <$> flags) = nrows d) by (rewrite length_fmap; lia).
  split; [now apply well_formed_set_flag|].
  split; [rewrite nrows_set_flag; lia|]. split.
  - intros c' Hc'. cbn in Hc'. destruct (c' =? c)%string eqn:E; [discriminate|].
    unfold set_flag. rewrite getitem_setitem_other by assumption. now apply Hbase.
  - intros c' f Hc'. cbn in Hc'. destruct (c' =? c)%string eqn:E.
    + injection Hc' as <-. apply String.eqb_eq in E as ->.
      unfold set_flag. now apply getitem_setitem_same.
    + unfold set_flag. rewrite getitem_setitem_other by assumption. now apply Hkv.
Qed.

Lemma tracked_base (d base : DataFrame) n kv c :
  tracked d n base kv -> assoc c kv = None -> getitem d c = getitem base c.
Proof. intros (_ & _ & H & _). apply H. Qed.

Lemma tracked_flag (d base : DataFrame) n kv c f :
  tracked d n base kv -> assoc c kv = Some f -> getitem d c = Ok (Bool <$> f).
Proof. intros (_ & _ & _ & H). apply H. Qed.

Lemma tracked_nrows (d base : DataFrame) n kv :
  tracked d n base kv -> nrows d = n.
Proof. now intros (_ & H & _). Qed.

Lemma has_column_getitem (df : DataFrame) c :
  has_column df c = true -> exists col, getitem df c = Ok col.
Proof.
  intros H. destruct (locate_present _ _ H) as [i Hi].
  exists (cell_at i <$> rows df). now apply getitem_locate.
Qed.

Lemma getitem_ok_has_column (df : DataFrame) c col :
  getitem df c = Ok col -> has_column df c = true.
Proof.
  intros H. destruct (has_column df c) eqn:E; [reflexivity|].
  rewrite (getitem_absent _ _ E) in H. discriminate H.
Qed.

(** [apply_column] rewrites its column cell by cell and no other. *)
Lemma apply_column_reads f c (df df' : DataFrame) :
  well_formed df -> apply_column f c df = Ok df' ->
  forall c', getitem df' c' =
             if (c' =? c)%string then on_ok (fmap f) (getitem df c')
             else getitem df c'.
Proof.
  intros Hwf H c'. unfold apply_column in H.
  destruct (getitem df c) as [col|e] eqn:E; cbn [bind] in H; [|discriminate H].
  injection H as <-.
  assert (Hl : length (f <$> col) = nrows df).
  { rewrite length_fmap. now apply length_getitem in E. }
  destruct (c' =? c)%string eqn:Hc.
  - apply String.eqb_eq in Hc as ->. rewrite E. cbn.
    now apply getitem_setitem_same.
  - now apply getitem_setitem_other.
Qed.

Lemma tracked_ext (d base : DataFrame) n kv kv' :
  (forall c, assoc c kv' = assoc c kv) -> tracked d n base kv ->
  tracked d n base kv'.
Proof.
  intros Hext (Hwf & Hn & Hbase & Hkv). repeat split; try assumption.
  - intros c Hc. apply Hbase. now rewrite <- Hext.
  - intros c f Hc. apply Hkv. now rewrite <- Hext.
Qed.

Ltac read_col H I :=
  match type of H with
  | context [bind (getitem ?d ?c) _] =>
      is_var d;
      let col := fresh "col" in
      let E := fresh "E" in
      let L := fresh "L" in
      destruct (getitem d c) as [col|] eqn:E; cbn [bind] in H;
      [pose proof (length_getitem _ _ _ E) as L;
       rewrite (tracked_nrows _ _ _ _ I) in L;
       try rewrite (tracked_base _ _ _ _ c I eq_refl) in E
      | discriminate H]
  end.

Ltac lens := rewrite ?length_fmap, ?length_zip_with, ?length_replicate; lia.

Ltac write_flag H I :=
  match type of H with
  | context [set_flag ?d ?c ?f] =>
      is_var d;
      let d' := fresh "d" in
      let I' := fresh "I" in
      let N := fresh "N" in
      pose proof (tracked_nrows _ _ _ _ I) as N;
      pose proof (tracked_set_flag d _ _ _ c f I ltac:(lens)) as I';
      set (d' := set_flag d c f) in *; clearbody d'; clear I
  end.

Ltac absent_col Hc I c :=
  let R := fresh "R" in
  pose proof (getitem_absent _ c Hc) as R;
  rewrite (tracked_base _ _ _ _ c I eq_refl) in R.

(** The table [derive_flags] returns is the prepared table with the flag
    columns of [flag_values] written over it. *)
Lemma derive_flags_tracked (df out : DataFrame) :
  well_formed df -> derive_flags to_datetime today df = Ok out ->
  exists prepared rewarded,
    prepare to_datetime df = Ok prepared /\
    well_formed prepared /\ nrows prepared = nrows df /\
    map_result gt_zero (column_or prepared "reward_value" []) = Ok rewarded /\
    (forall c, In c required_columns -> has_column prepared c = true) /\
    tracked out (nrows df) prepared
            (flag_values today prepared (nrows df) rewarded).
Proof.
  intros Hwf H. unfold derive_flags in H. unfold prepare.
  set (d0 := if negb (has_column df "reward_value") then _ else df) in *.
  assert (I0 : well_formed d0 /\ nrows d0 = nrows df).
  { subst d0. destruct (negb (has_column df "reward_value")); [|now split].
    split; [now apply well_formed_setitem | apply nrows_setitem_scalar]. }
  clearbody d0. destruct I0 as [Hwf0 Hn0].
  change (fun v : cell => if isna v then Int 0 else v) with fill_zero in H.
  destruct (apply_column fill_zero "reward_value" d0) as [d1|] eqn:E1;
    cbn [bind] in H |- *; [|discriminate H].
  pose proof (well_formed_apply_column _ _ _ _ Hwf0 E1) as Hwf1.
  apply nrows_apply_column in E1.
  destruct (convert_dates to_datetime _ d1) as [d2|] eqn:E2; cbn [bind] in H;
    [|discriminate H].
  apply (convert_dates_keeps _ _ _ _ Hwf1) in E2 as [Hwf2 Hn2].
  exists d2.
  assert (Hn : nrows d2 = nrows df) by lia.
  pose proof (tracked_start d2 Hwf2) as I. rewrite Hn in I.
  clear Hwf Hwf0 Hn0 Hwf1 E1 Hn2 d0 d1.
  read_col H I.
  destruct (map_result gt_zero col) as [rewarded|] eqn:Eh; cbn [bind] in H;
    [pose proof (length_map_result _ _ _ Eh) as Lh | discriminate H].
  exists rewarded.
  write_flag H I.
  read_col H I0. write_flag H I0.
  read_col H I. write_flag H I.
  read_col H I0. write_flag H I0.
  read_col H I. write_flag H I.
  read_col H I0. write_flag H I0.
  read_col H I. read_col H I. write_flag H I.
  rewrite setitem_scalar_bool in H. write_flag H I0.
  read_col H I. read_col H I. write_flag H I.
  destruct (has_column d8 "referrer_expiry") eqn:Hc1.
  2: absent_col Hc1 I0 "referrer_expiry"; rewrite setitem_scalar_bool in H.
  1: read_col H I0.
  all: cbn [bind] in H; write_flag H I0.
  all: match goal with
       | _ : tracked ?d _ _ _ |- _ =>
           destruct (has_column d "referrer_deleted") eqn:Hc2
       end.
  all: try (absent_col Hc2 I "referrer_deleted"; rewrite setitem_scalar_bool in H).
  all: try read_col H I.
  all: cbn [bind] in H; write_flag H I.
  all: match goal with
       | _ : tracked ?d _ _ _ |- _ =>
           destruct (has_column d "is_reward_granted") eqn:Hc3
       end.
  all: try (absent_col Hc3 I0 "is_reward_granted"; rewrite setitem_scalar_bool in H).
  all: try read_col H I0.
  all: write_flag H I0; injection H as <-.
  all: split; [reflexivity|]; split; [exact Hwf2|]; split; [exact Hn|].
  all: unfold column_or at 1; rewrite E; split; [exact Eh|]; split.
  all: try (intros c Hc; cbn in Hc;
            repeat destruct Hc as [<- | Hc]; try contradiction;
            eapply getitem_ok_has_column; eassumption).
  all: eapply tracked_ext; [|exact I].
  all: intros c; unfold flag_values, column_or; cbv zeta.
  all: repeat match goal with
              | H1 : ?x = Ok ?a, H2 : ?x = Ok ?b |- _ =>
                  rewrite H1 in H2; injection H2 as <-
              end.
  all: repeat match goal with
              | Hx : getitem _ _ = _ |- _ => rewrite Hx; clear Hx
              end.
  all: repeat match goal with
              | Hx : nrows _ = nrows _ |- _ => try rewrite Hx; clear Hx
              end.
  all: cbn [assoc].
  all: repeat (destruct (c =? _)%string; [reflexivity|]); reflexivity.
Qed.

Lemma convert_step_reads c (df df' : DataFrame) :
  well_formed df ->
  (if has_column df c then apply_column (coerce_datetime to_datetime) c df
   else Ok df) = Ok df' ->
  well_formed df' /\
  forall c', getitem df' c' =
             if (c' =? c)%string
             then on_ok (fmap (coerce_datetime to_datetime)) (getitem df c')
             else getitem df c'.
Proof.
  intros Hwf H. destruct (has_column df c) eqn:Hc.
  - split; [now apply (well_formed_apply_column _ _ _ _ Hwf H)|].
    now apply apply_column_reads.
  - injection H as <-. split; [exact Hwf|]. intros c'.
    destruct (c' =? c)%string eqn:E; [|reflexivity].
    apply String.eqb_eq in E as ->. now rewrite (getitem_absent _ _ Hc).
Qed.

(** The prepared table, column by column, in terms of the table given. *)
Lemma prepare_reads (df prepared : DataFrame) :
  well_formed df -> prepare to_datetime df = Ok prepared ->
  forall c, getitem prepared c = prepared_column to_datetime df c.
Proof.
  intros Hwf H c. unfold prepare in H.
  set (d0 := if negb (has_column df "reward_value") then _ else df) in H.
  assert (I0 : well_formed d0 /\
               forall c', getitem d0 c' =
                 if (c' =? "reward_value")%string
                 then Ok (column_or df "reward_value"
                                    (replicate (nrows df) (Int 0)))
                 else getitem df c').
  { subst d0. unfold column_or. destruct (has_column df "reward_value") eqn:Hc; cbn [negb].
    - split; [exact Hwf|]. intros c'.
      destruct (c' =? "reward_value")%string eqn:E; [|reflexivity].
      apply String.eqb_eq in E as ->.
      destruct (has_column_getitem _ _ Hc) as [col Hcol]. now rewrite Hcol.
    - split; [now apply well_formed_setitem|]. intros c'.
      rewrite (getitem_absent _ _ Hc).
      destruct (c' =? "reward_value")%string eqn:E.
      + apply String.eqb_eq in E as ->. unfold setitem_scalar.
        apply getitem_setitem_same; [exact Hwf | apply length_replicate].
      + unfold setitem_scalar.
        apply getitem_setitem_other; [exact Hwf | apply length_replicate | exact E]. }
  clearbody d0. destruct I0 as [Hwf0 R0].
  destruct (apply_column fill_zero "reward_value" d0) as [d1|] eqn:E1;
    cbn [bind] in H; [|discriminate H].
  pose proof (apply_column_reads _ _ _ _ Hwf0 E1) as R1.
  pose proof (well_formed_apply_column _ _ _ _ Hwf0 E1) as Hwf1.
  cbn [convert_dates] in H.
  destruct (if has_column d1 "referral_at_local" then _ else Ok d1) as [d2|] eqn:E2;
    cbn [bind] in H; [|discriminate H].
  destruct (convert_step_reads _ _ _ Hwf1 E2) as [Hwf2 R2].
  destruct (if has_column d2 "transaction_at_local" then _ else Ok d2) as [d3|] eqn:E3;
    cbn [bind] in H; [|discriminate H].
  destruct (convert_step_reads _ _ _ Hwf2 E3) as [Hwf3 R3].
  destruct (if has_column d3 "referrer_expiry" then _ else Ok d3) as [d4|] eqn:E4;
    cbn [bind] in H; [|discriminate H].
  destruct (convert_step_reads _ _ _ Hwf3 E4) as [Hwf4 R4].
  injection H as <-.
  rewrite R4, R3, R2, R1, R0. unfold prepared_column, in_list. cbn [existsb].
  destruct (c =? "reward_value")%string eqn:Ea.
  - apply String.eqb_eq in Ea as ->. reflexivity.
  - destruct (c =? "referral_at_local")%string eqn:Eb.
    + apply String.eqb_eq in Eb as ->. cbn. now destruct (getitem df _).
    + destruct (c =? "transaction_at_local")%string eqn:Ec.
      * apply String.eqb_eq in Ec as ->. cbn. now destruct (getitem df _).
      * destruct (c =? "referrer_expiry")%string eqn:Ed; cbn; reflexivity.
Qed.

End DeriveFlagsTracking.

Section DeriveFlagsSpec.
Import Props FraudCheck Track.

Variable to_datetime : cell -> option Z.
Variable today : Z.

Lemma plain_column (df prepared : DataFrame) c :
  well_formed df -> prepare to_datetime df = Ok prepared ->
  has_column prepared c = true ->
  prepared_column to_datetime df c = getitem df c ->
  exists col, getitem df c = Ok col /\ column_or prepared c [] = col.
Proof.
  intros Hwf Hp Hc Hplain. destruct (has_column_getitem _ _ Hc) as [col Hcol].
  exists col. unfold column_or. rewrite Hcol. split; [|reflexivity].
  now rewrite <- Hplain, <- (prepare_reads _ _ _ Hwf Hp).
Qed.

Lemma date_column (df prepared : DataFrame) c :
  well_formed df -> prepare to_datetime df = Ok prepared ->
  has_column prepared c = true ->
  prepared_column to_datetime df c
    = on_ok (fmap (coerce_datetime to_datetime)) (getitem df c) ->
  exists col, getitem df c = Ok col /\
              column_or prepared c [] = coerce_datetime to_datetime <$> col.
Proof.
  intros Hwf Hp Hc Hdate. destruct (has_column_getitem _ _ Hc) as [col' Hcol].
  rewrite (prepare_reads _ _ _ Hwf Hp), Hdate in Hcol.
  destruct (getitem df c) as [col|] eqn:E; cbn in Hcol; [|discriminate Hcol].
  injection Hcol as <-. exists col. split; [reflexivity|].
  unfold column_or. rewrite (prepare_reads _ _ _ Hwf Hp), Hdate, ?E. reflexivity.
Qed.

(** [derive_flags], the flags read from text: each cell of [is_success],
    [is_pending_or_failed], [has_trans_id], [is_trans_paid] and
    [is_trans_new] is computed from the cell of the same row in
    [status_name], [transaction_id], [transaction_status] and
    [transaction_type] of the table given, whatever columns were written in
    between. *)
Theorem derive_flags_text_flags (df out : DataFrame) :
  well_formed df -> derive_flags to_datetime today df = Ok out ->
  exists status_name transaction_id transaction_status transaction_type,
    getitem df "status_name" = Ok status_name /\
    getitem df "transaction_id" = Ok transaction_id /\
    getitem df "transaction_status" = Ok transaction_status /\
    getitem df "transaction_type" = Ok transaction_type /\
    getitem out "is_success"
      = Ok (Bool <$> (is_success_of <$> status_name)) /\
    getitem out "is_pending_or_failed"
      = Ok (Bool <$> (is_pending_or_failed_of <$> status_name)) /\
    getitem out "has_trans_id"
      = Ok (Bool <$> (has_trans_id_of <$> transaction_id)) /\
    getitem out "is_trans_paid"
      = Ok (Bool <$> (is_trans_paid_of <$> transaction_status)) /\
    getitem out "is_trans_new"
      = Ok (Bool <$> (is_trans_new_of <$> transaction_type)).
Proof.
  intros Hwf H.
  destruct (derive_flags_tracked _ _ _ _ Hwf H)
    as (prepared & rewarded & Hp & Hwfp & Hn & Hr & Hreq & Ht).
  destruct (plain_column df prepared "status_name" Hwf Hp) as (c1 & E1 & C1);
    [apply Hreq; cbn; tauto | reflexivity |].
  destruct (plain_column df prepared "transaction_id" Hwf Hp) as (c2 & E2 & C2);
    [apply Hreq; cbn; tauto | reflexivity |].
  destruct (plain_column df prepared "transaction_status" Hwf Hp) as (c3 & E3 & C3);
    [apply Hreq; cbn; tauto | reflexivity |].
  destruct (plain_column df prepared "transaction_type" Hwf Hp) as (c4 & E4 & C4);
    [apply Hreq; cbn; tauto | reflexivity |].
  exists c1, c2, c3, c4. repeat (split; [assumption|]).
  rewrite <- C1, <- C2, <- C3, <- C4.
  repeat split; apply (tracked_flag _ _ _ _ _ _ Ht); reflexivity.
Qed.

(** The comparison of two cells of date columns, after coercion. *)
Lemma date_cells (a b : cell) :
  (to_datetime a = None \/ to_datetime b = None ->
   time_ge (coerce_datetime to_datetime a) (coerce_datetime to_datetime b) = false /\
   same_month_of (coerce_datetime to_datetime a) (coerce_datetime to_datetime b)
     = false) /\
  (forall x y, to_datetime a = Some x -> to_datetime b = Some y ->
   time_ge (coerce_datetime to_datetime a) (coerce_datetime to_datetime b)
     = (y <=? x)%Z /\
   same_month_of (coerce_datetime to_datetime a) (coerce_datetime to_datetime b)
     = bool_decide (to_period_M x = to_period_M y)).
Proof.
  unfold coerce_datetime. split.
  - intros [H | H]; rewrite H; cbn; [tauto|].
    destruct (to_datetime a); cbn; tauto.
  - intros x y -> ->. cbn. tauto.
Qed.

(** [derive_flags], the flags read from dates: [tx_after_ref] and
    [same_month] compare, row by row, the coerced [transaction_at_local]
    with the coerced [referral_at_local] of the table given; a pair of cells
    of which either is missing or does not parse gives False in both, and a
    pair of dates gives "not before" and "same year and month". *)
Theorem derive_flags_date_flags (df out : DataFrame) :
  well_formed df -> derive_flags to_datetime today df = Ok out ->
  let coerce := coerce_datetime to_datetime in
  exists transaction_at referral_at,
    getitem df "transaction_at_local" = Ok transaction_at /\
    getitem df "referral_at_local" = Ok referral_at /\
    getitem out "tx_after_ref"
      = Ok (Bool <$> zip_with time_ge (coerce <$> transaction_at)
                                      (coerce <$> referral_at)) /\
    getitem out "same_month"
      = Ok (Bool <$> zip_with same_month_of (coerce <$> transaction_at)
                                            (coerce <$> referral_at)) /\
    (forall a b, to_datetime a = None \/ to_datetime b = None ->
       time_ge (coerce a) (coerce b) = false /\
       same_month_of (coerce a) (coerce b) = false) /\
    (forall a b x y, to_datetime a = Some x -> to_datetime b = Some y ->
       time_ge (coerce a) (coerce b) = (y <=? x)%Z /\
       same_month_of (coerce a) (coerce b)
         = bool_decide (to_period_M x = to_period_M y)).
Proof.
  intros Hwf H coerce.
  destruct (derive_flags_tracked _ _ _ _ Hwf H)
    as (prepared & rewarded & Hp & Hwfp & Hn & Hr & Hreq & Ht).
  destruct (date_column df prepared "transaction_at_local" Hwf Hp)
    as (c1 & E1 & C1); [apply Hreq; cbn; tauto | reflexivity |].
  destruct (date_column df prepared "referral_at_local" Hwf Hp)
    as (c2 & E2 & C2); [apply Hreq; cbn; tauto | reflexivity |].
  exists c1, c2. split; [exact E1|]. split; [exact E2|].
  subst coerce. rewrite <- C1, <- C2.
  split; [apply (tracked_flag _ _ _ _ _ _ Ht); reflexivity|].
  split; [apply (tracked_flag _ _ _ _ _ _ Ht); reflexivity|].
  split.
  - intros a b. apply date_cells.
  - intros a b x y. apply date_cells.
Qed.

Lemma map_result_replicate {A B} (f : A -> result B) (a : A) (b : B) n :
  f a = Ok b -> map_result f (replicate n a) = Ok (replicate n b).
Proof.
  intros H. induction n as [|n IH]; cbn; [reflexivity|]. now rewrite H, IH.
Qed.

Lemma map_result_fmap {A B} (f : A -> result B) (g : A -> B) (l : list A) :
  (forall a, a ∈ l -> f a = Ok (g a)) -> map_result f l = Ok (g <$> l).
Proof.
  induction l as [|a l IH]; intros H; cbn; [reflexivity|].
  rewrite (H a (list_elem_of_here _ _)), IH; [reflexivity|].
  intros a' Ha'. apply H. now right.
Qed.

(** [derive_flags], the reward flag: [has_reward] is [> 0] on the reward of
    the row, a missing reward counting as 0; a table without a
    [reward_value] column gets False in every row. *)
Theorem derive_flags_reward_flag (df out : DataFrame) :
  well_formed df -> derive_flags to_datetime today df = Ok out ->
  exists rewarded,
    getitem out "has_reward" = Ok (Bool <$> rewarded) /\
    map_result gt_zero
      (fill_zero <$> column_or df "reward_value" (replicate (nrows df) (Int 0)))
      = Ok rewarded /\
    getitem out "reward_value"
      = Ok (fill_zero <$> column_or df "reward_value"
                                    (replicate (nrows df) (Int 0))) /\
    (has_column df "reward_value" = false ->
     rewarded = replicate (nrows df) false) /\
    gt_zero (fill_zero NA) = Ok false /\
    (forall z, gt_zero (fill_zero (Int z)) = Ok (0 <? z)%Z /\
               gt_zero (fill_zero (Float z)) = Ok (0 <? z)%Z).
Proof.
  intros Hwf H.
  destruct (derive_flags_tracked _ _ _ _ Hwf H)
    as (prepared & rewarded & Hp & Hwfp & Hn & Hr & Hreq & Ht).
  pose proof (prepare_reads _ _ _ Hwf Hp "reward_value") as Hrv.
  change (prepared_column to_datetime df "reward_value")
    with (Ok (fill_zero <$> column_or df "reward_value"
                                      (replicate (nrows df) (Int 0)))) in Hrv.
  unfold column_or at 1 in Hr. rewrite Hrv in Hr.
  exists rewarded. split; [apply (tracked_flag _ _ _ _ _ _ Ht); reflexivity|].
  split; [exact Hr|]. split.
  - rewrite <- Hrv. apply (tracked_base _ _ _ _ _ Ht). reflexivity.
  - split; [|split; [reflexivity | intros z; split; reflexivity]].
    intros Hc. unfold column_or in Hr. rewrite (getitem_absent _ _ Hc) in Hr.
    rewrite fmap_replicate in Hr.
    rewrite (map_result_replicate gt_zero _ false) in Hr by reflexivity.
    now injection Hr as <-.
Qed.

(** [derive_flags], the user checks: with the column present each flag is
    computed from its cell, and without it every row gets the default
    (member not active, account active, reward not granted). *)
Theorem derive_flags_user_checks (df out : DataFrame) :
  well_formed df -> derive_flags to_datetime today df = Ok out ->
  getitem out "is_member_active"
    = Ok (Bool <$> match getitem df "referrer_expiry" with
                   | Ok col => (fun v => time_ge (coerce_datetime to_datetime v)
                                                 (Time (normalize today))) <$> col
                   | Raise _ => replicate (nrows df) false
                   end) /\
  getitem out "is_account_active"
    = Ok (Bool <$> match getitem df "referrer_deleted" with
                   | Ok col => is_account_active_of <$> col
                   | Raise _ => replicate (nrows df) true
                   end) /\
  getitem out "is_granted"
    = Ok (Bool <$> match getitem df "is_reward_granted" with
                   | Ok col => is_granted_of <$> col
                   | Raise _ => replicate (nrows df) false
                   end).
Proof.
  intros Hwf H.
  destruct (derive_flags_tracked _ _ _ _ Hwf H)
    as (prepared & rewarded & Hp & Hwfp & Hn & Hr & Hreq & Ht).
  pose proof (prepare_reads _ _ _ Hwf Hp) as R.
  rewrite (tracked_flag _ _ _ _ "is_member_active" _ Ht eq_refl),
    (tracked_flag _ _ _ _ "is_account_active" _ Ht eq_refl),
    (tracked_flag _ _ _ _ "is_granted" _ Ht eq_refl).
  rewrite !R.
  change (prepared_column to_datetime df "referrer_expiry")
    with (on_ok (fmap (coerce_datetime to_datetime)) (getitem df "referrer_expiry")).
  change (prepared_column to_datetime df "referrer_deleted")
    with (getitem df "referrer_deleted").
  change (prepared_column to_datetime df "is_reward_granted")
    with (getitem df "is_reward_granted").
  repeat split.
  destruct (getitem df "referrer_expiry") as [col|]; cbn; [|reflexivity].
  do 2 f_equal. rewrite <- list_fmap_compose. reflexivity.
Qed.

(** [derive_flags] leaves the data alone: apart from the eleven flag
    columns it writes, the table it returns reads as the table given,
    except that missing rewards are 0 and the three date columns are
    coerced to timestamps.  The number of rows is unchanged. *)
Theorem derive_flags_keeps_data (df out : DataFrame) :
  well_formed df -> derive_flags to_datetime today df = Ok out ->
  nrows out = nrows df /\
  forall c, ~ In c RuleEngine.flag_columns ->
    getitem out c =
      if String.eqb c "reward_value" then
        Ok (fill_zero <$> column_or df "reward_value"
                                    (replicate (nrows df) (Int 0)))
      else if in_list c ["referral_at_local"; "transaction_at_local";
                         "referrer_expiry"]
      then on_ok (fmap (coerce_datetime to_datetime)) (getitem df c)
      else getitem df c.
Proof.
  intros Hwf H.
  destruct (derive_flags_tracked _ _ _ _ Hwf H)
    as (prepared & rewarded & Hp & Hwfp & Hn & Hr & Hreq & Ht).
  split; [apply (tracked_nrows _ _ _ _ Ht)|].
  intros c Hc. fold (prepared_column to_datetime df c).
  rewrite <- (prepare_reads _ _ _ Hwf Hp c).
  apply (tracked_base _ _ _ _ _ Ht).
  unfold flag_values. cbn [assoc].
  repeat match goal with
         | |- context [String.eqb c ?k] =>
             let E := fresh "E" in
             destruct (String.eqb c k) eqn:E;
             [apply String.eqb_eq in E; subst c; exfalso; apply Hc; cbn; tauto|]
         end.
  reflexivity.
Qed.

End DeriveFlagsSpec.

Section DeriveFlagsWitnesses.
Import Props FraudCheck Track Samples Samples2.

Lemma merged_well_formed : well_formed merged.
Proof. repeat constructor. Qed.

Ltac on_sample :=
  destruct (derive_flags only_timestamps sample_today merged) as [out|e] eqn:E;
  [exists out; split; [reflexivity|] | vm_compute in E; discriminate E].

(** The text flags of the three sample rows. *)
Lemma derive_flags_text_flags_witness :
  exists out,
    derive_flags only_timestamps sample_today merged = Ok out /\
    getitem out "is_success" = Ok [Bool true; Bool false; Bool false] /\
    getitem out "is_pending_or_failed" = Ok [Bool false; Bool true; Bool false] /\
    getitem out "has_trans_id" = Ok [Bool true; Bool false; Bool true] /\
    getitem out "is_trans_paid" = Ok [Bool true; Bool false; Bool true] /\
    getitem out "is_trans_new" = Ok [Bool true; Bool false; Bool true].
Proof.
  on_sample.
  destruct (derive_flags_text_flags only_timestamps sample_today merged out
              merged_well_formed E)
    as (c1 & c2 & c3 & c4 & E1 & E2 & E3 & E4 & H1 & H2 & H3 & H4 & H5).
  vm_compute in E1, E2, E3, E4.
  injection E1 as <-. injection E2 as <-. injection E3 as <-. injection E4 as <-.
  rewrite H1, H2, H3, H4, H5. repeat split.
Defined.

(** The date flags of the three sample rows: r2 has no transaction date. *)
Lemma derive_flags_date_flags_witness :
  exists out,
    derive_flags only_timestamps sample_today merged = Ok out /\
    getitem out "tx_after_ref" = Ok [Bool true; Bool false; Bool true] /\
    getitem out "same_month" = Ok [Bool true; Bool false; Bool true].
Proof.
  on_sample.
  destruct (derive_flags_date_flags only_timestamps sample_today merged out
              merged_well_formed E)
    as (c1 & c2 & E1 & E2 & H1 & H2 & _).
  vm_compute in E1, E2. injection E1 as <-. injection E2 as <-.
  rewrite H1, H2. split; reflexivity.
Defined.

(** The reward flag of the three sample rows: r2 has no reward. *)
Lemma derive_flags_reward_flag_witness :
  exists out,
    derive_flags only_timestamps sample_today merged = Ok out /\
    getitem out "has_reward" = Ok [Bool true; Bool false; Bool true] /\
    getitem out "reward_value" = Ok [Int 50; Int 0; Int 50].
Proof.
  on_sample.
  destruct (derive_flags_reward_flag only_timestamps sample_today merged out
              merged_well_formed E)
    as (rewarded & H1 & Hr & H2 & _).
  vm_compute in Hr. injection Hr as <-. rewrite H1, H2. split; reflexivity.
Defined.

(** The user checks of the three sample rows. *)
Lemma derive_flags_user_checks_witness :
  exists out,
    derive_flags only_timestamps sample_today merged = Ok out /\
    getitem out "is_member_active" = Ok [Bool true; Bool true; Bool true] /\
    getitem out "is_account_active" = Ok [Bool true; Bool true; Bool true] /\
    getitem out "is_granted" = Ok [Bool true; Bool false; Bool true].
Proof.
  on_sample.
  destruct (derive_flags_user_checks only_timestamps sample_today merged out
              merged_well_formed E) as (H1 & H2 & H3).
  rewrite H1, H2, H3. repeat split.
Defined.

(** The referral ids of the sample come through unchanged. *)
Lemma derive_flags_keeps_data_witness :
  exists out,
    derive_flags only_timestamps sample_today merged = Ok out /\
    nrows out = 3 /\
    getitem out "referral_id" = Ok [Str "r1"; Str "r2"; Str "r3"].
Proof.
  on_sample.
  destruct (derive_flags_keeps_data only_timestamps sample_today merged out
              merged_well_formed E) as (Hn & Hk).
  split; [exact Hn|]. rewrite (Hk "referral_id"); [reflexivity|].
  cbn. intros H. repeat destruct H as [H | H]; try discriminate H. exact H.
Defined.

End DeriveFlagsWitnesses.

(** ** The report *)

Section ReportFacts.
Import Props FraudCheck Report.

Lemma columns_setitem_new (df : DataFrame) c values :
  has_column df c = false -> columns (setitem df c values) = columns df ++ [c].
Proof.
  intros H. apply col_index_none in H. unfold setitem. now rewrite H.
Qed.

Lemma fold_setitem_reads (kv : list (string * list cell)) (d : DataFrame) n :
  well_formed d -> nrows d = n ->
  NoDup (kv.*1) -> (forall c, c ∈ kv.*1 -> has_column d c = false) ->
  Forall (fun p => length p.2 = n) kv ->
  let out := fold_left (fun d p => setitem d p.1 p.2) kv d in
  well_formed out /\ nrows out = n /\ columns out = columns d ++ kv.*1 /\
  (forall c v, (c, v) ∈ kv -> getitem out c = Ok v) /\
  (forall c, c ∉ kv.*1 -> getitem out c = getitem d c).
Proof.
  revert d. induction kv as [|[c v] kv IH]; intros d Hwf Hn Hnd Hfresh Hlen; cbn.
  - repeat split; try assumption.
    + now rewrite app_nil_r.
    + intros c v Hin. now apply elem_of_nil in Hin.
  - cbn in Hnd. apply NoDup_cons in Hnd as [Hc Hnd].
    apply Forall_cons in Hlen as [Hv Hlen]. cbn in Hv.
    assert (Hfc : has_column d c = false) by (apply Hfresh; cbn; now left).
    assert (Hl : length v = nrows d) by lia.
    destruct (IH (setitem d c v)) as (Hw & Hr & Hcols & Hin & Hout).
    + now apply well_formed_setitem.
    + rewrite nrows_setitem; lia.
    + exact Hnd.
    + intros c' Hc'. rewrite has_column_setitem_other.
      * apply Hfresh. cbn. now right.
      * apply String.eqb_neq. intros ->. contradiction.
    + exact Hlen.
    + split; [exact Hw|]. split; [exact Hr|]. split; [|split].
      * rewrite Hcols, columns_setitem_new by exact Hfc.
        now rewrite <- app_assoc.
      * intros c' v' Hm. apply elem_of_cons in Hm as [[= -> ->] | Hm].
        -- rewrite Hout by exact Hc. now apply getitem_setitem_same.
        -- now apply Hin.
      * intros c' Hc'. cbn in Hc'. apply not_elem_of_cons in Hc' as [Hne Hc'].
        rewrite Hout by exact Hc'. apply getitem_setitem_other; try assumption.
        now apply String.eqb_neq.
Qed.

Lemma new_frame_facts (n : nat) :
  well_formed (new_frame n) /\ nrows (new_frame n) = n /\
  forall c, has_column (new_frame n) c = false.
Proof.
  unfold well_formed, new_frame, nrows. cbn. repeat split.
  - apply Forall_forall. intros r Hr. apply elem_of_replicate in Hr as [-> _].
    reflexivity.
  - apply length_replicate.
Qed.

(** Columns of equal length assigned to a new table under different names
    make a table with exactly those columns, in that order, each reading
    back as assigned. *)
Lemma from_columns_reads (n : nat) (kv : list (string * list cell)) :
  NoDup (kv.*1) -> Forall (fun p => length p.2 = n) kv ->
  well_formed (from_columns n kv) /\ nrows (from_columns n kv) = n /\
  columns (from_columns n kv) = kv.*1 /\
  forall c v, (c, v) ∈ kv -> getitem (from_columns n kv) c = Ok v.
Proof.
  intros Hnd Hlen. destruct (new_frame_facts n) as (Hw & Hn & Hf).
  destruct (fold_setitem_reads kv (new_frame n) n Hw Hn Hnd (fun c _ => Hf c) Hlen)
    as (H1 & H2 & H3 & H4 & _).
  repeat split; assumption.
Qed.

Lemma length_column_or_unknown (df : DataFrame) c v :
  column_or_unknown df c = Ok v -> length v = nrows df.
Proof.
  unfold column_or_unknown. destruct (has_column df c).
  - apply length_getitem.
  - intros [= <-]. apply length_replicate.
Qed.

Lemma length_int_range (start : Z) (n : nat) : length (int_range start n) = n.
Proof. unfold int_range. now rewrite length_fmap, length_seq. Qed.

End ReportFacts.

Section ReportStage.
Import Props FraudCheck Report.

Lemma guarded_column_ok (df : DataFrame) c (alt : result (list cell)) :
  (exists v, alt = Ok v /\ length v = nrows df) ->
  exists v, (if has_column df c then getitem df c else alt) = Ok v /\
            length v = nrows df.
Proof.
  intros Halt. destruct (has_column df c) eqn:E; [|exact Halt].
  destruct (has_column_getitem _ _ E) as [v Hv]. exists v.
  split; [exact Hv | now apply length_getitem in Hv].
Qed.

Lemma unknown_column_ok (df : DataFrame) :
  exists v, Ok (replicate (nrows df) (Str "Unknown")) = Ok v /\ length v = nrows df.
Proof. eexists. split; [reflexivity | apply length_replicate]. Qed.

Lemma column_or_unknown_ok (df : DataFrame) c :
  exists v, column_or_unknown df c = Ok v /\ length v = nrows df.
Proof. apply guarded_column_ok, unknown_column_ok. Qed.

(** [format_report] as one assignment of thirteen columns, once every read
    has been made. *)
Lemma format_report_unfold (df : DataFrame) :
  format_report df =
  let* ids := (if has_column df "id" then getitem df "id"
               else Ok (int_range 101 (nrows df))) in
  let* rid := (if has_column df "referral_id" then getitem df "referral_id"
               else if has_column df "id" then getitem df "id"
               else Ok (replicate (nrows df) (Str "Unknown"))) in
  let* src := column_or_unknown df "referral_source" in
  let* cat := getitem df "referral_source_category" in
  let* at_ := getitem df "referral_at_local" in
  let* rr := getitem df "referrer_id" in
  let* nm := column_or_unknown df "user_name" in
  let* ph := column_or_unknown df "phone_number" in
  let* hc := column_or_unknown df "home_club" in
  let* re := getitem df "referee_id" in
  let* rn := column_or_unknown df "referee_name" in
  let* rp := column_or_unknown df "referee_phone" in
  let* ok := getitem df "is_business_logic_valid" in
  Ok (from_columns (nrows df)
        [("referral_details_id", ids); ("referral_id", rid);
         ("referral_source", src); ("referral_source_category", cat);
         ("referral_at", at_); ("referrer_id", rr); ("referrer_name", nm);
         ("referrer_phone_number", ph); ("referrer_homeclub", hc);
         ("referee_id", re); ("referee_name", rn); ("referee_phone", rp);
         ("is_business_logic_valid", ok)]).
Proof. reflexivity. Qed.

Ltac report_names_distinct :=
  cbn; apply (bool_decide_unpack _); vm_compute; exact I.

(** The report stage fails exactly when one of the five columns it reads
    without a guard is missing, with the [KeyError] of the first of them in
    the order of [report_needs]; otherwise it returns a well-formed table
    with the thirteen report columns and one row per input row. *)
Theorem format_report_outcome (df : DataFrame) :
  match find (fun c => negb (has_column df c)) report_needs with
  | Some c => format_report df = Raise (KeyError c)
  | None => exists out, format_report df = Ok out /\
                        columns out = report_columns /\
                        nrows out = nrows df /\ well_formed out
  end.
Proof.
  rewrite format_report_unfold.
  destruct (guarded_column_ok df "id" (Ok (int_range 101 (nrows df))))
    as (ids & -> & Lids).
  { eexists. split; [reflexivity | apply length_int_range]. }
  destruct (guarded_column_ok df "referral_id"
              (if has_column df "id" then getitem df "id"
               else Ok (replicate (nrows df) (Str "Unknown"))))
    as (rid & -> & Lrid).
  { apply guarded_column_ok, unknown_column_ok. }
  destruct (column_or_unknown_ok df "referral_source") as (src & -> & Lsrc).
  destruct (column_or_unknown_ok df "user_name") as (nm & -> & Lnm).
  destruct (column_or_unknown_ok df "phone_number") as (ph & -> & Lph).
  destruct (column_or_unknown_ok df "home_club") as (hc & -> & Lhc).
  destruct (column_or_unknown_ok df "referee_name") as (rn & -> & Lrn).
  destruct (column_or_unknown_ok df "referee_phone") as (rp & -> & Lrp).
  cbn [bind find report_needs].
  destruct (has_column df "referral_source_category") eqn:H1; cbn [negb];
    [|now rewrite (getitem_absent _ _ H1)].
  destruct (has_column_getitem _ _ H1) as [cat Ecat].
  rewrite Ecat. cbn [bind]. apply length_getitem in Ecat.
  destruct (has_column df "referral_at_local") eqn:H2; cbn [negb];
    [|now rewrite (getitem_absent _ _ H2)].
  destruct (has_column_getitem _ _ H2) as [at_ Eat].
  rewrite Eat. cbn [bind]. apply length_getitem in Eat.
  destruct (has_column df "referrer_id") eqn:H3; cbn [negb];
    [|now rewrite (getitem_absent _ _ H3)].
  destruct (has_column_getitem _ _ H3) as [rr Err].
  rewrite Err. cbn [bind]. apply length_getitem in Err.
  destruct (has_column df "referee_id") eqn:H4; cbn [negb];
    [|now rewrite (getitem_absent _ _ H4)].
  destruct (has_column_getitem _ _ H4) as [re Ere].
  rewrite Ere. cbn [bind]. apply length_getitem in Ere.
  destruct (has_column df "is_business_logic_valid") eqn:H5; cbn [negb];
    [|now rewrite (getitem_absent _ _ H5)].
  destruct (has_column_getitem _ _ H5) as [ok Eok].
  rewrite Eok. cbn [bind]. apply length_getitem in Eok.
  eexists. split; [reflexivity|].
  match goal with |- context [from_columns ?n ?kv] =>
    destruct (from_columns_reads n kv) as (Hw & Hn & Hc & _)
  end.
  - report_names_distinct.
  - repeat (apply Forall_cons; split; [assumption|]). apply Forall_nil. exact I.
  - split; [exact Hc|]. split; [exact Hn | exact Hw].
Qed.

Lemma guarded_column_length (df : DataFrame) c (alt : result (list cell)) v :
  (forall w, alt = Ok w -> length w = nrows df) ->
  (if has_column df c then getitem df c else alt) = Ok v ->
  length v = nrows df.
Proof.
  intros Halt. destruct (has_column df c); [apply length_getitem | apply Halt].
Qed.

Lemma unknown_column_length (df : DataFrame) w :
  Ok (replicate (nrows df) (Str "Unknown")) = Ok w -> length w = nrows df.
Proof. intros [= <-]. apply length_replicate. Qed.

Ltac report_reads H :=
  rewrite format_report_unfold in H;
  repeat match type of H with
         | bind ?m _ = Ok _ =>
             let v := fresh "v" in
             let E := fresh "E" in
             destruct m as [v|] eqn:E; cbn [bind] in H; [|discriminate H]
         end;
  injection H as <-;
  match goal with |- context [from_columns ?n ?kv] =>
    let Hget := fresh "Hget" in
    let Hw := fresh "Hshape" in
    destruct (from_columns_reads n kv) as (Hw & Hget);
    [report_names_distinct
    |repeat (apply Forall_cons; split;
             [first [eapply length_getitem; eassumption
                    |eapply length_column_or_unknown; eassumption
                    |eapply guarded_column_length; [|eassumption];
                     first [apply unknown_column_length
                           |intros w [= <-]; apply length_int_range
                           |intros w; apply guarded_column_length,
                                        unknown_column_length]]|]);
     apply Forall_nil; exact I
    |]
  end.

Ltac report_shape Hn Hc Hget :=
  match goal with
  | H : nrows (from_columns _ _) = _ /\ _ |- _ => destruct H as (Hn & Hc & Hget)
  end.

Ltac report_column Hget :=
  apply Hget; rewrite !elem_of_cons;
  repeat first [left; reflexivity | right].

(** The shape of a report, and where its verdicts come from. *)
Lemma format_report_shape (df out : DataFrame) :
  format_report df = Ok out ->
  well_formed out /\ nrows out = nrows df /\ columns out = report_columns /\
  getitem out "is_business_logic_valid" = getitem df "is_business_logic_valid".
Proof.
  intros H. report_reads H. report_shape Hn Hc Hget.
  split; [assumption|]. split; [exact Hn|]. split; [exact Hc|].
  report_column Hget.
Qed.

(** Eleven columns of the report are columns of the input under the
    report's names: five are read as they are (so they must exist), six are
    filled with "Unknown" when the input has no such column. *)
Theorem format_report_copies (df out : DataFrame) :
  format_report df = Ok out ->
  getitem out "referral_source_category" = getitem df "referral_source_category" /\
  getitem out "referral_at" = getitem df "referral_at_local" /\
  getitem out "referrer_id" = getitem df "referrer_id" /\
  getitem out "referee_id" = getitem df "referee_id" /\
  getitem out "is_business_logic_valid" = getitem df "is_business_logic_valid" /\
  getitem out "referral_source" = column_or_unknown df "referral_source" /\
  getitem out "referrer_name" = column_or_unknown df "user_name" /\
  getitem out "referrer_phone_number" = column_or_unknown df "phone_number" /\
  getitem out "referrer_homeclub" = column_or_unknown df "home_club" /\
  getitem out "referee_name" = column_or_unknown df "referee_name" /\
  getitem out "referee_phone" = column_or_unknown df "referee_phone".
Proof.
  intros H. report_reads H. report_shape Hn Hc Hget.
  repeat split; report_column Hget.
Qed.

(** The ID logic of the report: with an [id] column the report's
    [referral_details_id] is that column, and it stands in for a missing
    [referral_id]; without one the rows are numbered 101, 102, ... in row
    order, and a missing [referral_id] reads "Unknown" in every row. *)
Theorem format_report_ids (df out : DataFrame) :
  format_report df = Ok out ->
  (has_column df "id" = true ->
     getitem out "referral_details_id" = getitem df "id" /\
     (has_column df "referral_id" = false ->
        getitem out "referral_id" = getitem df "id")) /\
  (has_column df "id" = false ->
     (exists ids, getitem out "referral_details_id" = Ok ids /\
                  length ids = nrows df /\ NoDup ids /\
                  forall i, i < nrows df ->
                            ids !! i = Some (Int (101 + Z.of_nat i))) /\
     (has_column df "referral_id" = false ->
        getitem out "referral_id" = Ok (replicate (nrows df) (Str "Unknown")))) /\
  (has_column df "referral_id" = true ->
     getitem out "referral_id" = getitem df "referral_id").
Proof.
  intros H. report_reads H. report_shape Hn Hc Hget.
  assert (Hids : getitem (from_columns (nrows df) _) "referral_details_id" = Ok v)
    by (apply Hget; rewrite !elem_of_cons; now left).
  assert (Hrid : getitem (from_columns (nrows df) _) "referral_id" = Ok v0)
    by (apply Hget; rewrite !elem_of_cons; right; now left).
  rewrite Hids, Hrid. clear Hget Hids Hrid.
  split; [|split].
  - intros Hid. rewrite Hid in E, E0. split; [now rewrite E|].
    intros Hr. rewrite Hr in E0. now rewrite E0.
  - intros Hid. rewrite Hid in E, E0. injection E as <-. split.
    + exists (int_range 101 (nrows df)). split; [reflexivity|].
      split; [apply length_int_range|]. split.
      * unfold int_range. apply NoDup_fmap_2; [|apply NoDup_seq].
        intros i j [= Hij]. lia.
      * intros i Hi. unfold int_range. rewrite list_lookup_fmap.
        rewrite lookup_seq_lt by exact Hi. reflexivity.
    + intros Hr. rewrite Hr in E0. now rewrite E0.
  - intros Hr. rewrite Hr in E0. now rewrite E0.
Qed.

End ReportStage.

Section SourceCategoryFix.
Import Props FraudCheck Report.

Lemma get_source_category_values (v : cell) :
  get_source_category v ∈ ["Online"; "Offline"; "Other"].
Proof.
  unfold get_source_category.
  repeat match goal with |- context [if ?b then _ else _] => destruct b end;
    rewrite !elem_of_cons; auto.
Qed.

(** Step 1 of [main] never raises and changes nothing but the category
    column: a table that has one is returned as it is; otherwise the column
    is computed from [referral_source] cell by cell, or is "Unknown" in every
    row when that column is missing too.  Either way the new column holds
    only "Online", "Offline", "Other" or "Unknown". *)
Theorem ensure_source_category_spec (df : DataFrame) :
  well_formed df ->
  exists out,
    ensure_source_category df = Ok out /\
    well_formed out /\ nrows out = nrows df /\
    has_column out "referral_source_category" = true /\
    (forall c, c <> "referral_source_category" -> getitem out c = getitem df c) /\
    (has_column df "referral_source_category" = true -> out = df) /\
    (has_column df "referral_source_category" = false ->
       (forall sources, getitem df "referral_source" = Ok sources ->
          getitem out "referral_source_category" =
          Ok ((fun v => Str (get_source_category v)) <$> sources)) /\
       (has_column df "referral_source" = false ->
          getitem out "referral_source_category" =
          Ok (replicate (nrows df) (Str "Unknown"))) /\
       exists col, getitem out "referral_source_category" = Ok col /\
                   Forall (fun v => v ∈ [Str "Online"; Str "Offline";
                                         Str "Other"; Str "Unknown"]) col).
Proof.
  intros Hwf. unfold ensure_source_category.
  destruct (has_column df "referral_source_category") eqn:Hcat; cbn [negb].
  { exists df. repeat split; try assumption; discriminate. }
  destruct (has_column df "referral_source") eqn:Hsrc.
  - destruct (has_column_getitem _ _ Hsrc) as [sources Es]. rewrite Es. cbn [bind].
    assert (Hl : length ((fun v => Str (get_source_category v)) <$> sources) = nrows df).
    { rewrite length_fmap. now apply length_getitem in Es. }
    eexists. split; [reflexivity|].
    split; [now apply well_formed_setitem|]. split; [now apply nrows_setitem|].
    split; [eapply getitem_ok_has_column; now apply getitem_setitem_same|].
    split; [|split; [discriminate|intros _; split; [|split]]].
    + intros c Hc. apply getitem_setitem_other; try assumption.
      now apply String.eqb_neq.
    + intros sources' [= <-]. now apply getitem_setitem_same.
    + discriminate.
    + eexists. split; [now apply getitem_setitem_same|].
      apply Forall_fmap, Forall_forall. intros v _. cbn.
      pose proof (get_source_category_values v) as Hv.
      rewrite !elem_of_cons in *. rewrite elem_of_nil in Hv.
      destruct Hv as [->|[->|[->|[]]]]; auto.
  - assert (Hl : length (replicate (nrows df) (Str "Unknown")) = nrows df)
      by apply length_replicate.
    eexists. split; [reflexivity|]. unfold setitem_scalar.
    split; [now apply well_formed_setitem|]. split; [now apply nrows_setitem|].
    split; [eapply getitem_ok_has_column; now apply getitem_setitem_same|].
    split; [|split; [discriminate|intros _; split; [|split]]].
    + intros c Hc. apply getitem_setitem_other; try assumption.
      now apply String.eqb_neq.
    + intros sources Es. apply getitem_ok_has_column in Es. congruence.
    + intros _. now apply getitem_setitem_same.
    + eexists. split; [now apply getitem_setitem_same|].
      apply Forall_forall. intros v Hv. apply elem_of_replicate in Hv as [-> _].
      rewrite !elem_of_cons. auto.
Qed.

End SourceCategoryFix.

(** ** Left joins: shape and left-hand data *)

Section JoinShape.
Import Props Joined.

Lemma length_payload {A B} (shared : bool) (ri : nat) (r : list A) (r' : list B) :
  length r = length r' ->
  length (payload shared ri r) = length (payload shared ri r').
Proof.
  intros H. unfold payload. destruct shared; [|exact H].
  rewrite !length_app, !length_take, !length_drop. lia.
Qed.

Lemma join_row_lengths shared ri (rcols : list string) (right : list (list cell))
    li (l : list cell) W :
  Forall (fun r => length r = W) right ->
  length rcols = length (payload shared ri (replicate W NA)) ->
  Forall (fun o => length o = length l + length rcols)
         (join_row shared ri (length rcols) right li l).
Proof.
  intros Hright Hw. unfold join_row.
  assert (Hm : Forall (fun r => length r = W) (matches ri (cell_at li l) right)).
  { unfold matches. rewrite Forall_forall in *. intros r Hr.
    apply list_elem_of_filter in Hr as [_ Hr]. now apply Hright. }
  destruct (matches ri (cell_at li l) right) as [|m ms] eqn:E.
  - constructor; [|constructor]. now rewrite length_app, length_replicate.
  - rewrite <- E in *. clear E. apply Forall_fmap.
    eapply Forall_impl; [exact Hm|]. intros r Hr. cbn.
    rewrite length_app, Hw. f_equal. apply length_payload.
    now rewrite length_replicate.
Qed.

Lemma length_locate_all (df : DataFrame) cs idx :
  locate_all df cs = Ok idx -> length idx = length cs.
Proof.
  revert idx. induction cs as [|c cs IH]; intros idx; cbn [locate_all].
  - now intros [= <-].
  - destruct (locate df c); cbn [bind]; [|discriminate].
    destruct (locate_all df cs) as [js|]; cbn [bind]; [|discriminate].
    intros [= <-]. cbn. now rewrite (IH js).
Qed.

Lemma well_formed_select (df right : DataFrame) cs :
  select df cs = Ok right -> well_formed right.
Proof.
  unfold select. destruct (locate_all df cs) as [idx|] eqn:E; cbn [bind];
    [|discriminate].
  intros [= <-]. unfold well_formed. cbn [rows columns].
  apply Forall_fmap, Forall_forall. intros r _. cbn.
  rewrite length_fmap. now apply length_locate_all in E.
Qed.

Lemma merge_left_inv (left right : DataFrame) lkey rkey ls rs out :
  merge_left left right lkey rkey ls rs = Ok out ->
  exists li ri, locate left lkey = Ok li /\ locate right rkey = Ok ri /\
                out = joined left right li ri (lkey =? rkey)%string ls rs.
Proof.
  unfold merge_left.
  destruct (key_position right rkey) as [ri|] eqn:Er; cbn [bind]; [|discriminate].
  destruct (key_position left lkey) as [li|] eqn:El; cbn [bind]; [|discriminate].
  intros [= <-]. exists li, ri.
  now rewrite (key_position_locate _ _ _ El), (key_position_locate _ _ _ Er).
Qed.

Lemma merge_csv_inv (left right : DataFrame) key ls rs out :
  merge_csv left right key ls rs = Ok out ->
  exists li ri, locate left key = Ok li /\ locate right key = Ok ri /\
                out = joined left right li ri true ls rs.
Proof.
  unfold merge_csv.
  destruct (key_position right key) as [ri|] eqn:Er; cbn [bind]; [|discriminate].
  destruct (key_position left key) as [li|] eqn:El; cbn [bind]; [|discriminate].
  destruct (keys_mergeable _ _); [|discriminate].
  intros [= <-]. exists li, ri.
  now rewrite (key_position_locate _ _ _ El), (key_position_locate _ _ _ Er).
Qed.

(** A left join of well-formed tables is well formed. *)
Lemma well_formed_joined (left right : DataFrame) li ri shared ls rs :
  well_formed left -> well_formed right ->
  well_formed (joined left right li ri shared ls rs).
Proof.
  intros Hl Hr. unfold well_formed, joined in *. cbn [rows columns].
  rewrite length_app, !length_fmap.
  apply Forall_forall. intros o Ho.
  apply list_elem_of_bind in Ho as (l & Ho & Hin).
  rewrite Forall_forall in Hl. rewrite <- (Hl l Hin).
  pose proof (join_row_lengths shared ri (payload shared ri (columns right))
                (rows right) li l (length (columns right)) Hr) as H.
  rewrite Forall_forall in H. apply H; [|exact Ho].
  apply length_payload. now rewrite length_replicate.
Qed.

Lemma well_formed_merge_left (left right : DataFrame) lkey rkey ls rs out :
  well_formed left -> well_formed right ->
  merge_left left right lkey rkey ls rs = Ok out -> well_formed out.
Proof.
  intros Hl Hr H. apply merge_left_inv in H as (li & ri & _ & _ & ->).
  now apply well_formed_joined.
Qed.

Lemma well_formed_merge_csv (left right : DataFrame) key ls rs out :
  well_formed left -> well_formed right ->
  merge_csv left right key ls rs = Ok out -> well_formed out.
Proof.
  intros Hl Hr H. apply merge_csv_inv in H as (li & ri & _ & _ & ->).
  now apply well_formed_joined.
Qed.

(** On a right table with at most one row per key, the join extends every
    left row on its right, in order. *)
Lemma joined_rows (left right : DataFrame) li ri shared ls rs :
  NoDup (key_of <$> (cell_at ri <$> rows right)) ->
  rows (joined left right li ri shared ls rs) =
  (fun l => l ++ extension shared ri
                   (length (payload shared ri (columns right)))
                   (rows right) li l) <$> rows left.
Proof.
  intros Hnd. unfold joined. cbn [rows].
  induction (rows left) as [|l ls' IH]; [reflexivity|].
  rewrite bind_cons, fmap_cons, IH. f_equal.
  change (?a :: ?b) with ([a] ++ b). f_equal.
  unfold join_row, extension.
  pose proof (matches_at_most_one ri (cell_at li l) (rows right) Hnd) as Hle.
  destruct (matches ri (cell_at li l) (rows right)) as [|m [|m' ms]];
    cbn in *; [reflexivity | reflexivity | lia].
Qed.

Lemma col_index_app_l (c : string) (cols more : list string) i :
  col_index c cols = Some i -> col_index c (cols ++ more) = Some i.
Proof.
  revert i. induction cols as [|c0 cols IH]; intros i; cbn; [discriminate|].
  destruct (c =? c0)%string; [trivial|].
  destruct (col_index c cols) as [j|]; cbn; [|discriminate].
  intros [= <-]. now rewrite (IH j eq_refl).
Qed.

Lemma append_empty_r (s : string) : (s ++ "")%string = s.
Proof. induction s as [|a s IH]; cbn; [reflexivity | now rewrite IH]. Qed.

Lemma with_suffix_empty (overlap : list string) (cols : list string) :
  with_suffix overlap "" <$> cols = cols.
Proof.
  induction cols as [|c cols IH]; [reflexivity|]. cbn. rewrite IH. f_equal.
  unfold with_suffix. destruct (in_list c overlap); [apply append_empty_r | reflexivity].
Qed.

(** With the empty suffix on the left and one right row per key at most, a
    left join leaves every column of the left table as it was. *)
Lemma joined_keeps_left (left right : DataFrame) li ri shared rs c :
  well_formed left ->
  NoDup (key_of <$> (cell_at ri <$> rows right)) ->
  has_column left c = true ->
  getitem (joined left right li ri shared "" rs) c = getitem left c.
Proof.
  intros Hwf Hnd Hc.
  pose proof (joined_rows left right li ri shared "" rs Hnd) as Hrows.
  assert (Hcols : exists more,
            columns (joined left right li ri shared "" rs) = columns left ++ more).
  { unfold joined. cbn [columns]. rewrite with_suffix_empty. eauto. }
  destruct Hcols as [more Hcols].
  destruct (locate_present _ _ Hc) as [i Hi].
  rewrite (getitem_locate _ _ _ Hi).
  assert (Hi' : locate (joined left right li ri shared "" rs) c = Ok i).
  { unfold locate in *. rewrite Hcols.
    destruct (col_index c (columns left)) as [j|] eqn:E; [|discriminate Hi].
    injection Hi as ->. now rewrite (col_index_app_l _ _ _ _ E). }
  rewrite (getitem_locate _ _ _ Hi'). f_equal. rewrite Hrows.
  rewrite <- list_fmap_compose. apply Forall_fmap_ext.
  unfold well_formed in Hwf.
  rewrite Forall_forall in *. intros l Hl. cbn. unfold cell_at.
  apply app_nth1. rewrite (Hwf l Hl).
  unfold locate in Hi. destruct (col_index c (columns left)) as [j|] eqn:E;
    [|discriminate Hi]. injection Hi as ->. now apply col_index_lt in E.
Qed.

End JoinShape.

Section RewardJoin.
Import Props FraudCheck Joined.

Lemma well_formed_strip_columns (df : DataFrame) :
  well_formed df -> well_formed (strip_columns df).
Proof. unfold well_formed, strip_columns. cbn. now rewrite length_fmap. Qed.

Lemma well_formed_rename (df : DataFrame) mapping :
  well_formed df -> well_formed (rename df mapping).
Proof. unfold well_formed, rename. cbn. now rewrite length_fmap. Qed.

Lemma dedup_sublist (i : nat) (seen : list cell) (rs : list (list cell)) :
  forall r, r ∈ dedup i seen rs -> r ∈ rs.
Proof.
  revert seen. induction rs as [|r0 rs IH]; intros seen r; cbn [dedup]; [trivial|].
  case_bool_decide.
  - intros Hr. right. now apply (IH seen).
  - intros Hr. apply elem_of_cons in Hr as [->|Hr]; [now left|].
    right. now apply (IH _ _ Hr).
Qed.

Lemma well_formed_drop_duplicates (df df' : DataFrame) c :
  well_formed df -> drop_duplicates df c = Ok df' -> well_formed df'.
Proof.
  unfold drop_duplicates, well_formed.
  destruct (locate df c) as [i|]; cbn [bind]; [|discriminate].
  intros Hwf [= <-]. cbn. rewrite Forall_forall in *.
  intros r Hr. apply Hwf. now apply dedup_sublist in Hr.
Qed.

(** A reward merge that completes either returns the table as it is, or
    is a left join on a reward table with one row per join key at most. *)
Lemma merge_rewards_cases (df out : DataFrame) (rewards : option DataFrame) :
  merge_rewards df rewards = Ok out ->
  out = df \/
  exists rw li ri,
    ((forall r, rewards = Some r -> well_formed r) -> well_formed rw) /\
    NoDup (key_of <$> (cell_at ri <$> rows rw)) /\
    out = joined df rw li ri true "" "_reward".
Proof.
  unfold merge_rewards. destruct rewards as [rewards|];
    [|intros [= <-]; now left].
  set (rw := if has_column (strip_columns rewards) "user_referral_id"
             then _ else _).
  assert (Hrw : well_formed rewards -> well_formed rw).
  { intros H. subst rw. destruct (has_column _ _);
      [apply well_formed_rename|]; now apply well_formed_strip_columns. }
  set (k := if has_column df "referral_id" then "referral_id" else "id").
  destruct (has_column df k && has_column rw k); [|intros [= <-]; now left].
  destruct (drop_duplicates rw k) as [rw'|] eqn:Ed; cbn [bind]; [|discriminate].
  destruct (drop_duplicates_keys _ _ _ Ed) as (Hcols & j & Hj & Hnd).
  intros H. apply merge_csv_inv in H as (li & ri & _ & Hri & ->).
  rewrite Hj in Hri. injection Hri as <-.
  right. exists rw', li, j. split; [|split; [exact Hnd | reflexivity]].
  intros Hr. apply (well_formed_drop_duplicates _ _ _ (Hrw (Hr _ eq_refl)) Ed).
Qed.

Lemma merge_rewards_well_formed (df out : DataFrame) (rewards : option DataFrame) :
  well_formed df -> (forall r, rewards = Some r -> well_formed r) ->
  merge_rewards df rewards = Ok out -> well_formed out.
Proof.
  intros Hwf Hr H.
  destruct (merge_rewards_cases _ _ _ H) as [->|(rw & li & ri & Hrw & _ & ->)];
    [exact Hwf|].
  apply well_formed_joined; auto.
Qed.

(** A reward merge that completes has not touched the referral data: the
    result has the rows of [df] in their order, every column of [df] reads
    as before, and a well-formed reward table gives a well-formed result. *)
Theorem merge_rewards_keeps_referral_data (df out : DataFrame)
    (rewards : option DataFrame) :
  well_formed df -> merge_rewards df rewards = Ok out ->
  nrows out = nrows df /\
  (forall c, has_column df c = true -> getitem out c = getitem df c) /\
  ((forall rw, rewards = Some rw -> well_formed rw) -> well_formed out).
Proof.
  intros Hwf H.
  split; [now apply nrows_merge_rewards in H|]. split.
  - intros c Hc.
    destruct (merge_rewards_cases _ _ _ H) as [->|(rw & li & ri & _ & Hnd & ->)];
      [reflexivity|].
    now apply joined_keeps_left.
  - intros Hr. now apply (merge_rewards_well_formed df out rewards).
Qed.

End RewardJoin.

Section FirstReward.
Import Props FraudCheck Joined.

Lemma col_index_skip (c : string) (cols : list string) i rv :
  col_index c cols = Some rv -> rv <> i ->
  col_index c (take i cols ++ drop (S i) cols) =
  Some (if (rv <? i)%nat then rv else rv - 1).
Proof.
  revert i rv. induction cols as [|c0 cols IH]; intros i rv; cbn [col_index];
    [discriminate|].
  destruct (c =? c0)%string eqn:E.
  - intros [= <-] Hne. destruct i as [|i]; [lia|].
    cbn. now rewrite E.
  - destruct (col_index c cols) as [j|] eqn:Ej;
      cbn [fmap option_fmap option_map]; [|discriminate].
    intros [= <-] Hne. destruct i as [|i].
    + cbn. rewrite drop_0, Ej. cbn. f_equal. lia.
    + assert (R : (if (S j <? S i)%nat then S j else S j - 1) =
                  S (if (j <? i)%nat then j else j - 1)).
      { change (S j <? S i)%nat with (j <? i)%nat.
        destruct (Nat.ltb_spec j i); lia. }
      rewrite R. cbn -[Nat.ltb Nat.sub].
      rewrite E, (IH i j eq_refl) by lia. reflexivity.
Qed.

Lemma nth_skip {A} (d : A) (r : list A) i rv :
  rv <> i -> i < length r ->
  nth (if (rv <? i)%nat then rv else rv - 1) (take i r ++ drop (S i) r) d = nth rv r d.
Proof.
  intros Hne Hi. destruct (rv <? i)%nat eqn:E.
  - apply Nat.ltb_lt in E. rewrite app_nth1 by (rewrite length_take; lia).
    rewrite !nth_lookup, lookup_take_lt by lia. reflexivity.
  - apply Nat.ltb_ge in E. rewrite app_nth2 by (rewrite length_take; lia).
    rewrite length_take, !nth_lookup, lookup_drop.
    replace (S i + (rv - 1 - i `min` length r)) with rv by lia. reflexivity.
Qed.

Lemma col_index_fmap_fixed (f : string -> string) (c : string) (cols : list string) :
  f c = c -> (forall c', c' ∈ cols -> f c' = c -> c' = c) ->
  col_index c (f <$> cols) = col_index c cols.
Proof.
  intros Hc. induction cols as [|c0 cols IH]; intros Hinj; [reflexivity|].
  cbn. destruct (c =? c0)%string eqn:E.
  - apply String.eqb_eq in E as <-. now rewrite Hc, String.eqb_refl.
  - destruct (c =? f c0)%string eqn:E'.
    + apply String.eqb_eq in E'. symmetry in E'.
      apply Hinj in E'; [|now left]. subst c0. now rewrite String.eqb_refl in E.
    + rewrite IH; [reflexivity|]. intros c' Hc'. apply Hinj. now right.
Qed.

Lemma col_index_app_r (c : string) (cols more : list string) :
  col_index c cols = None ->
  col_index c (cols ++ more) = (fun p => length cols + p) <$> col_index c more.
Proof.
  induction cols as [|c0 cols IH]; cbn.
  - intros _. now destruct (col_index c more).
  - destruct (c =? c0)%string; [discriminate|].
    destruct (col_index c cols); cbn; [discriminate|]. intros _.
    rewrite IH by reflexivity. now destruct (col_index c more).
Qed.

Lemma matches_dedup (i : nat) (key : cell) (seen : list cell) (rs : list (list cell)) :
  (key_of key ∈ seen -> matches i key (dedup i seen rs) = []) /\
  (key_of key ∉ seen ->
   head (matches i key (dedup i seen rs)) = head (matches i key rs)).
Proof.
  revert seen. induction rs as [|r rs IH]; intros seen; cbn [dedup];
    [split; reflexivity|].
  unfold matches in *. case_bool_decide as Hr.
  - split; [apply IH|]. intros Hk. rewrite filter_cons.
    destruct (decide (key_of (cell_at i r) = key_of key)) as [Heq|Hne];
      [congruence|].
    now apply IH.
  - rewrite !filter_cons.
    destruct (decide (key_of (cell_at i r) = key_of key)) as [Heq|Hne].
    + split; [congruence | reflexivity].
    + split; intros Hk; apply (IH (key_of (cell_at i r) :: seen)).
      * now right.
      * rewrite not_elem_of_cons. split; [congruence | exact Hk].
Qed.

Lemma head_matches_lookup_first (i rv : nat) (key : cell) (rs : list (list cell)) :
  match head (matches i key rs) with
  | Some m => cell_at rv m
  | None => NA
  end = lookup_first key (cell_at i <$> rs) (cell_at rv <$> rs).
Proof.
  unfold matches. induction rs as [|r rs IH]; [reflexivity|].
  rewrite filter_cons. cbn [fmap list_fmap lookup_first].
  destruct (decide (key_of (cell_at i r) = key_of key)) as [Heq|Hne].
  - rewrite bool_decide_eq_true_2 by exact Heq. reflexivity.
  - rewrite bool_decide_eq_false_2 by exact Hne. exact IH.
Qed.

Lemma not_reward_suffixed (c c' : string) :
  In c ["reward_value"; "is_reward_granted"] -> (c' ++ "_reward")%string <> c.
Proof.
  intros [<-|[<-|[]]] H;
    repeat (destruct c' as [|? c']; [discriminate H|]; injection H as _ H);
    destruct c'; discriminate H.
Qed.

End FirstReward.

Section FirstRewardJoin.
Import Props FraudCheck Joined.

Lemma key_not_reward_column (df : DataFrame) c :
  In c ["reward_value"; "is_reward_granted"] -> c <> join_key df.
Proof.
  unfold join_key.
  intros [<-|[<-|[]]]; destruct (has_column df "referral_id"); discriminate.
Qed.

Lemma locate_of_getitem (df : DataFrame) c col :
  getitem df c = Ok col ->
  exists i, col_index c (columns df) = Some i /\ col = cell_at i <$> rows df.
Proof.
  unfold getitem, locate.
  destruct (col_index c (columns df)) as [i|]; cbn [bind]; [|discriminate].
  intros [= <-]. eauto.
Qed.

(** The reward columns after a merge that completes: every referral row
    carries the value of the first reward row whose join key equals its
    own (numbers by value), and a missing value when no reward row has its
    key.  The column is read by value ([value_of]): with a gap in it pandas
    holds an integer column as floats. *)
Theorem merge_rewards_first_reward (df rewards out : DataFrame) c keys rkeys values :
  well_formed df -> well_formed rewards ->
  In c ["reward_value"; "is_reward_granted"] ->
  has_column df c = false ->
  getitem df (join_key df) = Ok keys ->
  getitem (reward_table rewards) (join_key df) = Ok rkeys ->
  getitem (reward_table rewards) c = Ok values ->
  merge_rewards df (Some rewards) = Ok out ->
  exists col,
    getitem out c = Ok col /\
    value_of <$> col =
      value_of <$> ((fun key => lookup_first key rkeys values) <$> keys).
Proof.
  intros Hwf Hwr Hc Hdfc Hkeys Hrkeys Hvalues Hout.
  exists ((fun key => lookup_first key rkeys values) <$> keys).
  split; [|reflexivity].
  assert (Hrw : well_formed (reward_table rewards)).
  { unfold reward_table. cbv zeta.
    destruct (has_column (strip_columns rewards) "user_referral_id");
      [apply well_formed_rename|]; now apply well_formed_strip_columns. }
  pose proof (key_not_reward_column df c Hc) as Hck.
  unfold merge_rewards in Hout. fold (reward_table rewards) in Hout.
  fold (join_key df) in Hout.
  set (rw := reward_table rewards) in *. set (k := join_key df) in *.
  rewrite (getitem_ok_has_column _ _ _ Hkeys),
    (getitem_ok_has_column _ _ _ Hrkeys) in Hout.
  cbn [andb] in Hout.
  destruct (locate_of_getitem _ _ _ Hkeys) as (li & Hli & ->).
  destruct (locate_of_getitem _ _ _ Hrkeys) as (ri & Hri & ->).
  destruct (locate_of_getitem _ _ _ Hvalues) as (rv & Hrv & ->).
  assert (Hne : rv <> ri).
  { intros ->. apply col_index_lookup in Hri, Hrv. congruence. }
  unfold drop_duplicates, locate in Hout. rewrite Hri in Hout. cbn [bind] in Hout.
  set (rw' := mkDF (columns rw) (dedup ri [] (rows rw))) in *.
  assert (Hnd : NoDup (key_of <$> (cell_at ri <$> rows rw'))) by apply dedup_keys.
  apply merge_csv_inv in Hout as (li' & ri' & Hli' & Hri' & ->).
  unfold locate in Hli', Hri'. cbn [columns rw'] in Hri'.
  rewrite Hli in Hli'. rewrite Hri in Hri'.
  injection Hli' as <-. injection Hri' as <-.
  pose proof (joined_rows df rw' li ri true "" "_reward" Hnd) as Hrows.
  cbn [columns rows rw'] in Hrows.
  assert (Hcols : columns (joined df rw' li ri true "" "_reward") =
            columns df ++
            (with_suffix
               (filter (fun c0 => in_list c0 (payload true ri (columns rw)) = true)
                       (take li (columns df) ++ drop (S li) (columns df)))
               "_reward" <$> payload true ri (columns rw))).
  { unfold joined. cbn [columns rw']. now rewrite with_suffix_empty. }
  set (overlap := filter _ _) in Hcols.
  set (p := if (rv <? ri)%nat then rv else rv - 1).
  assert (Hp : col_index c (with_suffix overlap "_reward"
                              <$> payload true ri (columns rw)) = Some p).
  { rewrite col_index_fmap_fixed.
    - unfold payload. now apply col_index_skip.
    - unfold with_suffix. destruct (in_list c overlap) eqn:E; [|reflexivity].
      exfalso. unfold in_list in E. apply existsb_exists in E as (x & Hx & E).
      apply String.eqb_eq in E as <-. apply list_elem_of_In in Hx.
      subst overlap. apply list_elem_of_filter in Hx as [_ Hx].
      assert (Hin : c ∈ columns df).
      { apply elem_of_app in Hx as [Hx|Hx];
          [now apply (subseteq_take li) | now apply (subseteq_drop (S li))]. }
      unfold has_column, in_list in Hdfc.
      assert (existsb (String.eqb c) (columns df) = true); [|congruence].
      apply existsb_exists. exists c. split; [now apply list_elem_of_In|].
      apply String.eqb_refl.
    - intros c' _. unfold with_suffix. destruct (in_list c' overlap); [|trivial].
      intros H. now apply not_reward_suffixed in H. }
  unfold getitem, locate. rewrite Hcols.
  rewrite col_index_app_r by (now apply col_index_none).
  rewrite Hp. cbn [fmap option_fmap option_map bind]. f_equal.
  rewrite Hrows, <- !list_fmap_compose. apply Forall_fmap_ext.
  unfold well_formed in Hwf, Hrw. rewrite Forall_forall in *.
  intros l Hl. cbn. unfold cell_at at 1.
  rewrite app_nth2 by (rewrite (Hwf l Hl); lia).
  replace (length (columns df) + p - length l) with p by (rewrite (Hwf l Hl); lia).
  rewrite <- head_matches_lookup_first.
  destruct (matches_dedup ri (cell_at li l) [] (rows rw)) as [_ Hd].
  fold (cell_at li l). rewrite <- Hd by apply not_elem_of_nil.
  unfold extension.
  destruct (matches ri (cell_at li l) (dedup ri [] (rows rw))) as [|m ms] eqn:Hm.
  - cbn. rewrite nth_lookup.
    destruct (replicate _ NA !! p) eqn:E; [|reflexivity].
    now apply lookup_replicate in E as [-> _].
  - cbn. unfold payload, cell_at. subst p. apply nth_skip; [exact Hne|].
    assert (Hin : m ∈ rows rw).
    { apply (dedup_sublist ri []).
      assert (Hmm : m ∈ matches ri (cell_at li l) (dedup ri [] (rows rw)))
        by (rewrite Hm; now left).
      unfold matches in Hmm. now apply list_elem_of_filter in Hmm as [_ Hmm]. }
    rewrite (Hrw m Hin). now apply col_index_lt in Hri.
Qed.

End FirstRewardJoin.

Section StatusJoin.
Import Props FraudCheck Joined.

Lemma with_suffix_no_overlap (suffix : string) (cols : list string) :
  with_suffix [] suffix <$> cols = cols.
Proof. induction cols as [|c cols IH]; [reflexivity|]. cbn. now rewrite IH. Qed.

Lemma filter_in_singleton_absent (c : string) (cols : list string) :
  existsb (String.eqb c) cols = false ->
  filter (fun c0 => in_list c0 [c] = true) cols = [].
Proof.
  induction cols as [|c0 cols IH]; [reflexivity|]. cbn [existsb].
  intros H. apply orb_false_iff in H as [Hc H].
  rewrite filter_cons.
  destruct (decide (in_list c0 [c] = true)) as [Hin|_]; [|now apply IH].
  unfold in_list in Hin. cbn [existsb] in Hin.
  rewrite (String.eqb_sym c0 c), Hc in Hin. discriminate Hin.
Qed.

Lemma existsb_sublist (c : string) (cols sub : list string) :
  sub ⊆ cols -> existsb (String.eqb c) cols = false ->
  existsb (String.eqb c) sub = false.
Proof.
  intros Hsub H. destruct (existsb (String.eqb c) sub) eqn:E; [|reflexivity].
  apply existsb_exists in E as (x & Hx & E). rewrite <- H. symmetry.
  apply existsb_exists. exists x. split; [|exact E].
  apply list_elem_of_In, Hsub, list_elem_of_In, Hx.
Qed.

(** A status merge that completes, on a table without a [status_name]
    column and with a status table that has a description column and no
    repeated id: every referral row gets the description of the status row
    whose id equals its status id (numbers by value, so that an id column
    with a gap, which pandas reads as floats, finds its names), or a missing
    value when there is none, and every column the table had reads as
    before.  The names are read by value ([value_of]), which for text is the
    text itself. *)
Theorem merge_statuses_status_name (df st out : DataFrame) keys ids names :
  well_formed df ->
  has_column df "status_name" = false ->
  has_column (strip_columns st) "description" = true ->
  getitem df "user_referral_status_id" = Ok keys ->
  getitem (status_table st) "user_referral_status_id" = Ok ids ->
  NoDup (key_of <$> ids) ->
  getitem (status_table st) "status_name" = Ok names ->
  merge_statuses df (Some st) = Ok out ->
  (exists col,
     getitem out "status_name" = Ok col /\
     value_of <$> col =
       value_of <$> ((fun key => lookup_first key ids names) <$> keys)) /\
  forall c, has_column df c = true -> getitem out c = getitem df c.
Proof.
  intros Hwf Hsn Hdesc Hkeys Hids Hnd Hnames Hout.
  cut (getitem out "status_name" =
         Ok ((fun key => lookup_first key ids names) <$> keys) /\
       forall c, has_column df c = true -> getitem out c = getitem df c).
  { intros [H1 H2]. split; [|exact H2]. eexists. split; [exact H1|reflexivity]. }
  unfold merge_statuses in Hout. rewrite Hdesc in Hout.
  fold (status_table st) in Hout.
  set (tbl := status_table st) in *.
  destruct (locate_of_getitem _ _ _ Hkeys) as (li & Hli & ->).
  destruct (locate_of_getitem _ _ _ Hids) as (i & Hi & ->).
  destruct (locate_of_getitem _ _ _ Hnames) as (j & Hj & ->).
  unfold select in Hout. cbn [locate_all] in Hout.
  unfold locate at 1 2 in Hout. rewrite Hi, Hj in Hout.
  cbn [bind fmap list_fmap] in Hout.
  set (right := mkDF _ _) in Hout.
  assert (Hk0 : cell_at 0 <$> rows right = cell_at i <$> rows tbl).
  { subst right. cbn [rows]. now rewrite <- list_fmap_compose. }
  assert (Hk1 : cell_at 1 <$> rows right = cell_at j <$> rows tbl).
  { subst right. cbn [rows]. now rewrite <- list_fmap_compose. }
  assert (Hnd0 : NoDup (key_of <$> (cell_at 0 <$> rows right))) by now rewrite Hk0.
  destruct (merge_csv df right _ "_x" "_y") as [d|] eqn:Em; cbn [bind] in Hout;
    [|discriminate Hout].
  apply merge_csv_inv in Em as (li' & ri' & Hli' & Hri' & ->).
  unfold locate in Hli'. rewrite Hli in Hli'. injection Hli' as <-.
  assert (ri' = 0) as -> by (cbv in Hri'; congruence).
  set (d := joined df right li 0 true "_x" "_y") in *.
  pose proof (joined_rows df right li 0 true "_x" "_y" Hnd0) as Hrows.
  fold d in Hrows.
  assert (Hcols : columns d = columns df ++ ["status_name"]).
  { assert (Hov : filter (fun c => in_list c (payload true 0 (columns right)) = true)
                     (take li (columns df) ++ drop (S li) (columns df)) = []).
    { apply (filter_in_singleton_absent "status_name").
      apply (existsb_sublist _ (columns df)); [|exact Hsn].
      intros x Hx. apply elem_of_app in Hx as [Hx|Hx];
        [now apply (subseteq_take li) | now apply (subseteq_drop (S li))]. }
    subst d. unfold joined. cbn [columns]. rewrite Hov.
    now rewrite !with_suffix_no_overlap. }
  assert (Hhas : has_column d "status_name" = true).
  { unfold has_column, in_list. rewrite Hcols, existsb_app. cbn.
    now rewrite orb_true_r. }
  rewrite Hhas in Hout. cbn [negb] in Hout. injection Hout as <-.
  cbn [right columns payload take drop app length] in Hrows.
  unfold well_formed in Hwf. rewrite Forall_forall in Hwf. split.
  - unfold getitem, locate. rewrite Hcols, col_index_app.
    apply col_index_none in Hsn. rewrite Hsn. cbn [String.eqb Ascii.eqb Bool.eqb bind].
    f_equal. rewrite Hrows, <- !list_fmap_compose. apply Forall_fmap_ext.
    apply Forall_forall. intros l Hl. cbn [compose]. unfold cell_at at 1.
    rewrite app_nth2 by (rewrite (Hwf l Hl); lia).
    replace (length (columns df) - length l) with 0 by (rewrite (Hwf l Hl); lia).
    rewrite <- Hk0, <- Hk1, <- head_matches_lookup_first. unfold extension.
    destruct (matches 0 (cell_at li l) (rows right)) as [|m ms] eqn:Hm;
      [reflexivity|]. cbn [head].
    assert (Hin : m ∈ rows right).
    { assert (Hmm : m ∈ matches 0 (cell_at li l) (rows right))
        by (rewrite Hm; now left).
      unfold matches in Hmm. now apply list_elem_of_filter in Hmm as [_ Hmm]. }
    subst right. cbn [rows] in Hin. apply list_elem_of_fmap in Hin as (r & -> & _).
    reflexivity.
  - intros c Hc. destruct (locate_present _ _ Hc) as [ci Hci].
    rewrite (getitem_locate _ _ _ Hci).
    assert (Hci' : locate d c = Ok ci).
    { unfold locate in *. rewrite Hcols.
      destruct (col_index c (columns df)) as [n|] eqn:E; [|discriminate Hci].
      injection Hci as ->. now rewrite (col_index_app_l _ _ _ _ E). }
    rewrite (getitem_locate _ _ _ Hci'). f_equal. rewrite Hrows.
    rewrite <- list_fmap_compose. apply Forall_fmap_ext.
    apply Forall_forall. intros l Hl. cbn. unfold cell_at.
    apply app_nth1. rewrite (Hwf l Hl).
    unfold locate in Hci. destruct (col_index c (columns df)) as [n|] eqn:E;
      [|discriminate Hci]. injection Hci as ->. now apply col_index_lt in E.
Qed.

End StatusJoin.

Section StatusShadow.
Import Props FraudCheck Joined.

Lemma elem_of_take_drop (x : string) (l : list string) i :
  x ∈ l -> l !! i <> Some x -> x ∈ take i l ++ drop (S i) l.
Proof.
  intros Hx Hi. apply list_elem_of_lookup in Hx as [j Hj].
  apply elem_of_app. destruct (decide (j < i)) as [Hlt|Hge].
  - left. apply list_elem_of_lookup. exists j. now rewrite lookup_take_lt.
  - right. apply list_elem_of_lookup. exists (j - S i). rewrite lookup_drop.
    assert (j <> i) by (intros ->; congruence).
    now replace (S i + (j - S i)) with j by lia.
Qed.

Lemma in_list_spec (x : string) (l : list string) :
  in_list x l = true <-> x ∈ l.
Proof.
  unfold in_list. rewrite existsb_exists. split.
  - intros (y & Hy & E). apply String.eqb_eq in E as <-. now apply list_elem_of_In.
  - intros H. exists x. split; [now apply list_elem_of_In | apply String.eqb_refl].
Qed.

(** A table that already has a [status_name] column loses it in a status
    merge that completes: the join renames it and the merged one with the
    default suffixes, so the guard that follows finds no [status_name] and
    writes "Unknown" in every row. *)
Theorem merge_statuses_shadowed (df st out : DataFrame) :
  well_formed df ->
  has_column df "status_name" = true ->
  has_column (strip_columns st) "description" = true ->
  merge_statuses df (Some st) = Ok out ->
  getitem out "status_name" = Ok (replicate (nrows out) (Str "Unknown")) /\
  has_column out "status_name_x" = true /\
  has_column out "status_name_y" = true.
Proof.
  intros Hwf Hsn Hdesc Hout.
  unfold merge_statuses in Hout. rewrite Hdesc in Hout.
  fold (status_table st) in Hout.
  set (tbl := status_table st) in *.
  destruct (select tbl _) as [right|] eqn:Es; cbn [bind] in Hout;
    [|discriminate Hout].
  pose proof (well_formed_select _ _ _ Es) as Hwr.
  assert (Hrc : columns right = ["user_referral_status_id"; "status_name"]).
  { unfold select in Es. destruct (locate_all tbl _); cbn [bind] in Es;
      [|discriminate Es]. now injection Es as <-. }
  destruct (merge_csv df right _ "_x" "_y") as [d|] eqn:Em; cbn [bind] in Hout;
    [|discriminate Hout].
  pose proof (well_formed_merge_csv _ _ _ _ _ _ Hwf Hwr Em) as Hwo.
  apply merge_csv_inv in Em as (li & ri & Hli & Hri & ->).
  assert (ri = 0) as ->.
  { unfold locate in Hri. rewrite Hrc in Hri. cbv in Hri. congruence. }
  set (d := joined df right li 0 true "_x" "_y") in *.
  set (overlap := filter (fun c => in_list c (payload true 0 (columns right)) = true)
                         (take li (columns df) ++ drop (S li) (columns df))).
  assert (Hov : forall c, in_list c overlap = true <-> c = "status_name").
  { intros c. rewrite in_list_spec. subst overlap.
    rewrite list_elem_of_filter, in_list_spec, Hrc.
    cbn [payload take drop app].
    rewrite list_elem_of_singleton. split; [tauto|]. intros ->. split; [reflexivity|].
    apply elem_of_take_drop; [now apply in_list_spec|].
    unfold locate in Hli.
    destruct (col_index _ (columns df)) as [n|] eqn:E; [|discriminate Hli].
    injection Hli as ->. apply col_index_lookup in E. rewrite E. discriminate. }
  assert (Hcols : columns d =
            (with_suffix overlap "_x" <$> columns df) ++ ["status_name_y"]).
  { subst d. unfold joined. cbn [columns]. fold overlap. f_equal.
    rewrite Hrc. cbn [payload take drop app fmap list_fmap].
    unfold with_suffix. now rewrite (proj2 (Hov "status_name") eq_refl). }
  assert (Hx : "status_name_x" ∈ with_suffix overlap "_x" <$> columns df).
  { apply list_elem_of_fmap. exists "status_name". split; [|now apply in_list_spec].
    unfold with_suffix. now rewrite (proj2 (Hov "status_name") eq_refl). }
  assert (Hno : has_column d "status_name" = false).
  { destruct (has_column d "status_name") eqn:E; [|reflexivity]. exfalso.
    apply in_list_spec in E. rewrite Hcols in E.
    apply elem_of_app in E as [E|E].
    - apply list_elem_of_fmap in E as (c & E & _). unfold with_suffix in E.
      destruct (in_list c overlap) eqn:Ec.
      + apply Hov in Ec as ->. discriminate E.
      + subst c. rewrite (proj2 (Hov "status_name") eq_refl) in Ec. discriminate Ec.
    - apply list_elem_of_singleton in E. discriminate E. }
  rewrite Hno in Hout. cbn [negb] in Hout. injection Hout as <-.
  rewrite nrows_setitem_scalar. unfold setitem_scalar.
  assert (Hl : length (replicate (nrows d) (Str "Unknown")) = nrows d)
    by apply length_replicate.
  split; [now apply getitem_setitem_same|].
  split; (rewrite has_column_setitem_other by reflexivity);
    apply in_list_spec; rewrite Hcols, elem_of_app;
    [left; exact Hx | right; now left].
Qed.

End StatusShadow.

(** ** The verdict column, row by row *)

Section VerdictsByRow.
Import Props FraudCheck Verdicts.

Lemma bool_cell_lookup (df : DataFrame) c (bs : list bool) n r :
  getitem df c = Ok (Bool <$> bs) -> rows df !! n = Some r ->
  exists b, bs !! n = Some b /\ row_view (columns df) r !! c = Some b.
Proof.
  intros Hc Hr. destruct (locate_of_getitem _ _ _ Hc) as (i & Hi & Hcol).
  assert (Hn : (Bool <$> bs) !! n = Some (cell_at i r)).
  { rewrite Hcol, list_lookup_fmap, Hr. reflexivity. }
  rewrite list_lookup_fmap in Hn. destruct (bs !! n) as [b|]; [|discriminate Hn].
  injection Hn as Hn. exists b. split; [reflexivity|].
  apply (row_view_lookup _ _ _ i); [exact Hi|].
  rewrite cell_at_lookup in Hn. destruct (r !! i) as [v|]; cbn in Hn; congruence.
Qed.

Lemma map_result_fmap2 {A B C} (f : A -> result C) (g : B -> C)
    (l : list A) (k : list B) :
  length l = length k ->
  (forall n a b, l !! n = Some a -> k !! n = Some b -> f a = Ok (g b)) ->
  map_result f l = Ok (g <$> k).
Proof.
  revert k. induction l as [|a l IH]; intros [|b k] Hlen H;
    try discriminate Hlen; [reflexivity|].
  cbn. rewrite (H 0 a b eq_refl eq_refl). cbn [bind].
  rewrite (IH k); [reflexivity | cbn in Hlen; lia|].
  intros n a' b' Ha Hb. now apply (H (S n)).
Qed.

(** The verdict of a row is the verdict of the decision table on the flags
    of that row: when the flag columns hold the records [fs] row by row,
    rule evaluation succeeds and the verdict column is [table_verdict] of
    each record. *)
Theorem verdicts_by_row (flagged : DataFrame) (fs : list RuleEngine.Flags) :
  well_formed flagged ->
  (forall c field, (c, field) ∈ flag_fields ->
                   getitem flagged c = Ok (Bool <$> (field <$> fs))) ->
  exists out,
    apply_check_logic flagged = Ok out /\
    getitem out "is_business_logic_valid" =
      Ok (Bool <$> (RuleEngine.table_verdict <$> fs)) /\
    forall c, c <> "is_business_logic_valid" ->
              getitem out c = getitem flagged c.
Proof.
  intros Hwf Hcols.
  assert (Hlen : length (rows flagged) = length fs).
  { pose proof (Hcols "has_reward" RuleEngine.has_reward) as H.
    apply length_getitem in H; [|unfold flag_fields; rewrite !elem_of_cons; tauto].
    rewrite !length_fmap in H. unfold nrows in H. lia. }
  unfold apply_check_logic.
  rewrite (map_result_fmap2 _ RuleEngine.table_verdict _ fs Hlen).
  - cbn [bind]. eexists. split; [reflexivity|].
    assert (Hl : length (Bool <$> (RuleEngine.table_verdict <$> fs)) = nrows flagged)
      by (rewrite !length_fmap; unfold nrows; lia).
    unfold set_flag. split; [now apply getitem_setitem_same|].
    intros c Hc. apply getitem_setitem_other; try assumption.
    now apply String.eqb_neq.
  - intros n r f Hr Hf.
    assert (Hfield : forall c field, (c, field) ∈ flag_fields ->
                       row_view (columns flagged) r !! c = Some (field f)).
    { intros c field Hin.
      destruct (bool_cell_lookup _ _ _ _ _ (Hcols c field Hin) Hr) as (b & Hb & Hv).
      rewrite list_lookup_fmap, Hf in Hb. injection Hb as <-. exact Hv. }
    apply check_logic_of_lookups; apply Hfield; unfold flag_fields;
      rewrite !elem_of_cons; tauto.
Qed.

End VerdictsByRow.

(** ** [main] of [fraud_check.py], end to end *)

Section MainReport.
Import Props FraudCheck Report Joined.

Variable to_datetime : cell -> option Z.
Variable today : Z.

Lemma ensure_source_category_keeps (df out : DataFrame) :
  well_formed df -> ensure_source_category df = Ok out ->
  well_formed out /\ nrows out = nrows df.
Proof.
  intros Hwf. unfold ensure_source_category.
  destruct (negb (has_column df "referral_source_category"));
    [|intros [= <-]; now split].
  destruct (has_column df "referral_source").
  - destruct (getitem df "referral_source") as [src|] eqn:E; cbn [bind];
      [|discriminate].
    intros [= <-]. apply length_getitem in E.
    split; [apply well_formed_setitem | apply nrows_setitem];
      rewrite ?length_fmap; assumption.
  - intros [= <-]. split; [now apply well_formed_setitem|].
    apply nrows_setitem_scalar.
Qed.

Lemma well_formed_merge_statuses (df out : DataFrame) (statuses : option DataFrame) :
  well_formed df -> merge_statuses df statuses = Ok out -> well_formed out.
Proof.
  intros Hwf. unfold merge_statuses.
  match goal with
  | |- bind ?m _ = _ -> _ => destruct m as [d|e] eqn:E
  end; cbn [bind]; [|discriminate].
  assert (Hd : well_formed d).
  { destruct statuses as [st|]; [|now injection E as <-].
    destruct (has_column (strip_columns st) "description");
      [|now injection E as <-].
    destruct (select _ _) as [right|] eqn:Es; cbn [bind] in E; [|discriminate E].
    apply well_formed_select in Es.
    now apply (well_formed_merge_csv _ _ _ _ _ _ Hwf Es) in E. }
  destruct (negb (has_column d "status_name")); intros [= <-];
    [now apply well_formed_setitem | exact Hd].
Qed.

End MainReport.

Section MainReportTheorem.
Import Props FraudCheck Report Joined.

Variable to_datetime : cell -> option Z.
Variable today : Z.

(** [main] from the three tables to the report.  Without a cleaned table it
    returns without a report and without an error.  Whenever it completes on
    well-formed tables, the report is well formed, has the thirteen report
    columns, and holds one boolean verdict per row; it has one row per row of
    the cleaned table when no status id is repeated in the status table
    (ids compared as the join compares them, numbers by value). *)
Theorem main_report (cleaned : DataFrame) (statuses rewards : option DataFrame)
    (res : option DataFrame) :
  well_formed cleaned ->
  (forall st, statuses = Some st -> well_formed st) ->
  (forall rw, rewards = Some rw -> well_formed rw) ->
  main to_datetime today (Some cleaned) statuses rewards = Ok res ->
  main to_datetime today None statuses rewards = Ok None /\
  exists out verdicts,
    res = Some out /\ well_formed out /\ columns out = report_columns /\
    getitem out "is_business_logic_valid" = Ok (Bool <$> verdicts) /\
    ((forall st ids, statuses = Some st ->
        getitem (status_table st) "user_referral_status_id" = Ok ids ->
        NoDup (key_of <$> ids)) ->
     nrows out = nrows cleaned).
Proof.
  intros Hwf Hst Hrw H. split; [reflexivity|].
  unfold main in H.
  destruct (ensure_source_category cleaned) as [d1|] eqn:E1; cbn [bind] in H;
    [|discriminate H].
  destruct (ensure_source_category_keeps _ _ Hwf E1) as [Hw1 Hn1].
  destruct (merge_statuses d1 statuses) as [d2|] eqn:E2; cbn [bind] in H;
    [|discriminate H].
  pose proof (well_formed_merge_statuses _ _ _ Hw1 E2) as Hw2.
  destruct (merge_rewards d2 rewards) as [d3|] eqn:E3; cbn [bind] in H;
    [|discriminate H].
  pose proof (merge_rewards_well_formed _ _ _ Hw2 Hrw E3) as Hw3.
  pose proof (nrows_merge_rewards _ _ _ E3) as Hn3.
  destruct (derive_flags to_datetime today d3) as [d4|] eqn:E4; cbn [bind] in H;
    [|discriminate H].
  destruct (derive_flags_columns _ _ _ _ Hw3 E4) as (Hw4 & Hn4 & _).
  unfold apply_check_logic in H.
  destruct (map_result _ (rows d4)) as [verdicts|] eqn:E5; cbn [bind] in H;
    [|discriminate H].
  apply length_map_result in E5.
  destruct (format_report _) as [out|] eqn:E6; cbn [bind] in H; [|discriminate H].
  injection H as <-.
  destruct (format_report_shape _ _ E6) as (Hw & Hn & Hc & Hv).
  exists out, verdicts. split; [reflexivity|]. split; [exact Hw|].
  split; [exact Hc|]. split.
  - rewrite Hv. unfold set_flag. apply getitem_setitem_same; [exact Hw4|].
    rewrite length_fmap. exact E5.
  - intros Hids. rewrite Hn, nrows_set_flag by exact E5.
    rewrite Hn4, Hn3, <- Hn1. now apply (nrows_merge_statuses _ _ _ Hids) in E2.
Qed.

End MainReportTheorem.

(** ** Title case and the flags *)

Section TitleCase.
Import Props FraudCheck Initcap.
Local Open Scope string_scope.

Lemma upper_append (a b : string) : upper (a ++ b) = upper a ++ upper b.
Proof.
  induction a as [|c a IH]; [reflexivity|]. cbn [upper append].
  change (String c a ++ b) with (String c (a ++ b)). cbn [upper].
  now rewrite IH, append_assoc.
Qed.

Lemma upper_lower_char (c : ascii) :
  upper (String (lower_char c) "") = upper (String c "").
Proof. destruct c as [[] [] [] [] [] [] [] []]; reflexivity. Qed.

Lemma upper_title_char (c : ascii) : upper (title_char c) = upper (String c "").
Proof. destruct c as [[] [] [] [] [] [] [] []]; reflexivity. Qed.

Lemma upper_cons (c : ascii) (s : string) :
  upper (String c s) = upper (String c "") ++ upper s.
Proof. cbn [upper]. now rewrite append_nil_r. Qed.

Lemma upper_title_from (b : bool) (s : string) : upper (title_from b s) = upper s.
Proof.
  revert b. induction s as [|c s IH]; intros b; [reflexivity|].
  cbn [title_from]. rewrite upper_append, IH, (upper_cons c s).
  destruct b; [now rewrite upper_lower_char | now rewrite upper_title_char].
Qed.

Lemma lower_title_char (c : ascii) :
  is_ascii c = true -> lower (title_char c) = String (lower_char c) "".
Proof.
  destruct c as [[] [] [] [] [] [] [] []]; intros H;
    first [discriminate H | reflexivity].
Qed.

Lemma lower_title_from (b : bool) (s : string) :
  ascii_only s = true -> lower (title_from b s) = lower s.
Proof.
  revert b. induction s as [|c s IH]; intros b; [reflexivity|].
  cbn [ascii_only title_from]. intros H. apply andb_true_iff in H as [Hc Hs].
  rewrite lower_append, IH by exact Hs. cbn [lower].
  destruct b; cbn [lower append].
  - now rewrite lower_char_idem.
  - now rewrite lower_title_char.
Qed.

End TitleCase.

Section InitcapStage.
Import Props FraudCheck Track Initcap.
Local Open Scope string_scope.

(** Title-casing a cell of the cleaned table does not change what the fraud
    check derives from it: the comparisons with "PAID" and "NEW" are made
    on the upper-cased text, and for ASCII text the comparison with "false"
    and the source category are made on the lower-cased text. *)
Theorem initcap_keeps_flags (v : cell) :
  is_trans_paid_of (initcap_cell v) = is_trans_paid_of v /\
  is_trans_new_of (initcap_cell v) = is_trans_new_of v /\
  (ascii_text v = true ->
     is_account_active_of (initcap_cell v) = is_account_active_of v /\
     get_source_category (initcap_cell v) = get_source_category v).
Proof.
  destruct v as [|s| | | |]; try (repeat split; reflexivity).
  unfold is_trans_paid_of, is_trans_new_of, is_account_active_of,
    get_source_category.
  cbn [initcap_cell py_str eq_bool orb ascii_text]. unfold title.
  rewrite upper_title_from. split; [reflexivity|]. split; [reflexivity|].
  intros H. now rewrite (lower_title_from false s H).
Qed.

Lemma initcap_loop_reads (cols : list string) (ref : DataFrame) :
  well_formed ref -> NoDup cols ->
  (forall c, c ∈ cols -> has_column ref c = true) ->
  exists out,
    initcap_loop cols ref = Ok out /\ columns out = columns ref /\
    nrows out = nrows ref /\ well_formed out /\
    forall c col, getitem ref c = Ok col ->
      getitem out c =
      Ok (if bool_decide (c ∈ cols) && negb (is_skipped_name c)
          then initcap_cell <$> col else col).
Proof.
  revert ref. induction cols as [|c0 cols IH]; intros ref Hwf Hnd Hin.
  - exists ref. repeat split; try assumption. intros c col Hc. exact Hc.
  - apply NoDup_cons in Hnd as [Hc0 Hnd]. cbn [initcap_loop].
    unfold initcap_column. destruct (is_skipped_name c0) eqn:Hskip; cbn [negb bind].
    + destruct (IH ref Hwf Hnd) as (out & E & Hcols & Hn & Hw & Hread).
      { intros c Hc. apply Hin. now right. }
      exists out. repeat split; try assumption.
      intros c col Hc. rewrite (Hread c col Hc).
      destruct (decide (c = c0)) as [->|Hne].
      * rewrite Hskip, !andb_false_r. reflexivity.
      * rewrite (bool_decide_ext (c ∈ c0 :: cols) (c ∈ cols)); [reflexivity|].
        rewrite elem_of_cons. tauto.
    + assert (Hhas : has_column ref c0 = true) by (apply Hin; now left).
      destruct (has_column_getitem _ _ Hhas) as [col0 E0].
      destruct (apply_column initcap_cell c0 ref) as [ref'|] eqn:Ea;
        [|unfold apply_column in Ea; rewrite E0 in Ea; discriminate Ea].
      cbn [bind].
      pose proof (well_formed_apply_column _ _ _ _ Hwf Ea) as Hwf'.
      pose proof (columns_apply_column _ _ _ _ Ea) as Hcols'.
      pose proof (nrows_apply_column _ _ _ _ Ea) as Hn'.
      pose proof (apply_column_reads _ _ _ _ Hwf Ea) as Hread'.
      destruct (IH ref' Hwf' Hnd) as (out & E & Hcols & Hn & Hw & Hread).
      { intros c Hc. unfold has_column. rewrite Hcols'. apply Hin. now right. }
      exists out. split; [exact E|]. split; [congruence|].
      split; [congruence|]. split; [exact Hw|].
      intros c col Hc. specialize (Hread' c). rewrite Hc in Hread'.
      destruct (c =? c0) eqn:Hcc.
      * apply String.eqb_eq in Hcc as ->. cbn [on_ok] in Hread'.
        rewrite (Hread _ _ Hread').
        rewrite (bool_decide_eq_false_2 _ Hc0). cbn [andb].
        rewrite bool_decide_eq_true_2 by now left.
        now rewrite Hskip.
      * apply String.eqb_neq in Hcc. rewrite (Hread _ _ Hread').
        rewrite (bool_decide_ext (c ∈ c0 :: cols) (c ∈ cols)); [reflexivity|].
        rewrite elem_of_cons. tauto.
Qed.

(** Step 6 of [time.py] on a table without a repeated column name: it does
    not raise, keeps header and rows, leaves alone every column whose
    lower-cased name contains "id", "date", "club", "at" or "tz", and
    title-cases the text cells of the others. *)
Theorem initcap_columns (ref : DataFrame) :
  well_formed ref -> NoDup (columns ref) ->
  exists out,
    initcap ref = Ok out /\ columns out = columns ref /\
    nrows out = nrows ref /\ well_formed out /\
    forall c col, getitem ref c = Ok col ->
      getitem out c =
      Ok (if is_skipped_name c then col else initcap_cell <$> col).
Proof.
  intros Hwf Hnd. unfold initcap.
  destruct (initcap_loop_reads (columns ref) ref Hwf Hnd)
    as (out & E & Hcols & Hn & Hw & Hread).
  { intros c Hc. unfold has_column, in_list. apply existsb_exists.
    exists c. split; [now apply list_elem_of_In | apply String.eqb_refl]. }
  exists out. repeat split; try assumption.
  intros c col Hc. rewrite (Hread c col Hc).
  assert (Hin : c ∈ columns ref).
  { apply getitem_ok_has_column in Hc. unfold has_column, in_list in Hc.
    apply existsb_exists in Hc as (x & Hx & Heq).
    apply String.eqb_eq in Heq as <-. now apply list_elem_of_In. }
  rewrite bool_decide_eq_true_2 by exact Hin. cbn [andb].
  now destruct (is_skipped_name c).
Qed.

End InitcapStage.

Section InitcapWitness.
Import Props FraudCheck Initcap Samples2.

(** On the sample: the source and the transaction type are title-cased, the
    transaction status is not (its name contains "at"), nor is the id. *)
Lemma initcap_columns_witness :
  exists out,
    initcap raw_text = Ok out /\
    getitem out "referral_source" =
      Ok [Str "User Sign Up"; Str "Draft Transaction"] /\
    getitem out "transaction_status" = Ok [Str "PAID"; NA] /\
    getitem out "transaction_type" = Ok [Str "New"; NA] /\
    getitem out "referrer_deleted" = Ok [Bool false; Str "False"] /\
    getitem out "referral_id" = Ok [Str "r1"; Str "r2"].
Proof.
  assert (Hwf : well_formed raw_text) by (repeat constructor).
  assert (Hnd : NoDup (columns raw_text)).
  { apply (bool_decide_unpack _). vm_compute. exact I. }
  destruct (initcap_columns raw_text Hwf Hnd) as (out & E & _ & _ & _ & Hread).
  exists out. split; [exact E|].
  rewrite (Hread "referral_source" _ eq_refl),
    (Hread "transaction_status" _ eq_refl),
    (Hread "transaction_type" _ eq_refl),
    (Hread "referrer_deleted" _ eq_refl),
    (Hread "referral_id" _ eq_refl).
  repeat split.
Defined.

End InitcapWitness.

(** ** The report, the joins and the verdicts on the sample tables *)

Section ReportWitnesses.
Import Props FraudCheck Report Joined Verdicts Samples Samples2.

Lemma judged_well_formed : well_formed judged.
Proof. repeat constructor. Qed.

Lemma cleaned_well_formed : well_formed cleaned.
Proof. repeat constructor. Qed.

(** The report of the two judged rows: dates and ids are copied, the
    missing name column reads "Unknown". *)
Lemma format_report_copies_witness :
  exists out,
    format_report judged = Ok out /\
    getitem out "referral_at" = Ok [Time 1705338000; Time 1705338000] /\
    getitem out "referee_id" = Ok [Int 7; Int 8] /\
    getitem out "referrer_name" = Ok [Str "Unknown"; Str "Unknown"].
Proof.
  destruct (format_report judged) as [out|e] eqn:E;
    [|vm_compute in E; discriminate E].
  exists out. split; [reflexivity|].
  destruct (format_report_copies judged out E)
    as (_ & H2 & _ & H4 & _ & _ & H7 & _).
  rewrite H2, H4, H7. repeat split.
Defined.

(** Without an [id] column the two judged rows are numbered 101 and 102. *)
Lemma format_report_ids_witness :
  exists out ids,
    format_report judged = Ok out /\
    getitem out "referral_details_id" = Ok ids /\
    ids !! 0 = Some (Int 101) /\ ids !! 1 = Some (Int 102) /\
    getitem out "referral_id" = Ok [Str "r1"; Str "r2"].
Proof.
  destruct (format_report judged) as [out|e] eqn:E;
    [|vm_compute in E; discriminate E].
  destruct (format_report_ids judged out E) as (_ & Hno & Hrid).
  destruct (Hno eq_refl) as ((ids & Hids & _ & _ & Hi) & _).
  exists out, ids. split; [reflexivity|]. split; [exact Hids|].
  split; [apply (Hi 0); vm_compute; lia|].
  split; [apply (Hi 1); vm_compute; lia|].
  rewrite (Hrid eq_refl). reflexivity.
Defined.

(** The category of the three uncategorised rows: a missing source is
    "Other". *)
Lemma ensure_source_category_spec_witness :
  exists out,
    ensure_source_category uncategorised = Ok out /\
    getitem out "referral_source_category" =
      Ok [Str "Online"; Str "Offline"; Str "Other"] /\
    getitem out "referral_id" = Ok [Str "r1"; Str "r2"; Str "r3"].
Proof.
  assert (Hwf : well_formed uncategorised) by (repeat constructor).
  destruct (ensure_source_category_spec uncategorised Hwf)
    as (out & E & _ & _ & _ & Hother & _ & Hnew).
  exists out. split; [exact E|]. split.
  - destruct (Hnew eq_refl) as (Hsrc & _).
    rewrite (Hsrc _ eq_refl). reflexivity.
  - rewrite Hother by discriminate. reflexivity.
Defined.

(** The reward merge on the sample tables keeps the three rows and their
    referee ids. *)
Lemma merge_rewards_keeps_referral_data_witness :
  exists out,
    merge_rewards cleaned (Some rewards_two_values) = Ok out /\
    nrows out = 3 /\ getitem out "referee_id" = Ok [Int 7; Int 8; Int 9].
Proof.
  destruct (merge_rewards cleaned (Some rewards_two_values)) as [out|e] eqn:E;
    [|vm_compute in E; discriminate E].
  destruct (merge_rewards_keeps_referral_data cleaned out
              (Some rewards_two_values) cleaned_well_formed E)
    as (Hn & Hkeep & _).
  exists out. split; [reflexivity|]. split; [exact Hn|].
  rewrite (Hkeep "referee_id" eq_refl). reflexivity.
Defined.

(** r1 has two rewards and gets the first one; r2 has none. *)
Lemma merge_rewards_first_reward_witness :
  exists out,
    merge_rewards cleaned (Some rewards_two_values) = Ok out /\
    exists col, getitem out "reward_value" = Ok col /\
                value_of <$> col = [Int 50; NA; Int 20].
Proof.
  assert (Hwr : well_formed rewards_two_values) by (repeat constructor).
  destruct (merge_rewards cleaned (Some rewards_two_values)) as [out|e] eqn:E;
    [|vm_compute in E; discriminate E].
  exists out. split; [reflexivity|].
  destruct (merge_rewards_first_reward cleaned rewards_two_values out
              "reward_value"
              [Str "r1"; Str "r2"; Str "r3"] [Str "r1"; Str "r1"; Str "r3"]
              [Int 50; Int 70; Int 20] cleaned_well_formed Hwr
              (or_introl eq_refl) eq_refl eq_refl eq_refl eq_refl E)
    as (col & Hcol & Hv).
  exists col. split; [exact Hcol | exact Hv].
Defined.

(** A status id column with a gap holds floats; the status table holds
    integers.  The names are found by value, and the row without a status
    id gets none. *)
Lemma merge_statuses_status_name_witness :
  exists out,
    merge_statuses gapped (Some statuses) = Ok out /\
    (exists col, getitem out "status_name" = Ok col /\
                 value_of <$> col = [Str "Berhasil"; NA; Str "Menunggu"]) /\
    getitem out "referral_id" = Ok [Str "r1"; Str "r2"; Str "r3"].
Proof.
  assert (Hwf : well_formed gapped) by (repeat constructor).
  assert (Hnd : NoDup (key_of <$> [Int 1; Int 2; Int 3])).
  { apply (bool_decide_unpack _). vm_compute. exact I. }
  destruct (merge_statuses gapped (Some statuses)) as [out|e] eqn:E;
    [|vm_compute in E; discriminate E].
  destruct (merge_statuses_status_name gapped statuses out
              [Float 2; NA; Float 1] [Int 1; Int 2; Int 3]
              [Str "Menunggu"; Str "Berhasil"; Str "Gagal"]
              Hwf eq_refl eq_refl eq_refl eq_refl Hnd eq_refl E)
    as ((col & Hcol & Hv) & Hkeep).
  exists out. split; [reflexivity|]. split.
  - exists col. split; [exact Hcol | exact Hv].
  - rewrite (Hkeep "referral_id" eq_refl). reflexivity.
Defined.

(** Merging the statuses a second time: the names that were there are
    replaced by "Unknown". *)
Lemma merge_statuses_shadowed_witness :
  exists out,
    merge_statuses merged (Some statuses) = Ok out /\
    getitem out "status_name" = Ok [Str "Unknown"; Str "Unknown"; Str "Unknown"].
Proof.
  destruct (merge_statuses merged (Some statuses)) as [out|e] eqn:E;
    [|vm_compute in E; discriminate E].
  destruct (merge_statuses_shadowed merged statuses out merged_well_formed
              eq_refl eq_refl E) as (H & _).
  exists out. split; [reflexivity|]. rewrite H. f_equal.
  vm_compute in E. injection E as <-. reflexivity.
Defined.

(** The two rows of sample flags: both are valid. *)
Lemma verdicts_by_row_witness :
  exists out,
    apply_check_logic flag_table = Ok out /\
    getitem out "is_business_logic_valid" = Ok [Bool true; Bool true].
Proof.
  assert (Hwf : well_formed flag_table) by (repeat constructor).
  destruct (verdicts_by_row flag_table sample_flags Hwf) as (out & E & H & _).
  - intros c field Hin. unfold flag_fields in Hin.
    rewrite !elem_of_cons, elem_of_nil in Hin.
    repeat (destruct Hin as [[= -> ->]|Hin]; [reflexivity|]). destruct Hin.
  - exists out. split; [exact E|]. rewrite H. reflexivity.
Defined.

(** The sample run: three rows, r1 on the perfect path, r2 pending without
    reward, r3 rewarded although it failed. *)
Lemma main_report_witness :
  exists out,
    main only_timestamps sample_today (Some cleaned) (Some statuses)
         (Some rewards) = Ok (Some out) /\
    columns out = report_columns /\ nrows out = 3.
Proof.
  destruct (main only_timestamps sample_today (Some cleaned) (Some statuses)
                 (Some rewards)) as [res|e] eqn:E;
    [|vm_compute in E; discriminate E].
  destruct (main_report only_timestamps sample_today cleaned (Some statuses)
              (Some rewards) res cleaned_well_formed) as (_ & out & vs & -> & _ & Hc & _ & Hn).
  - intros st [= <-]. repeat constructor.
  - intros rw [= <-]. repeat constructor.
  - exact E.
  - exists out. split; [reflexivity|]. split; [exact Hc|]. apply Hn.
    intros st ids [= <-] Hids. vm_compute in Hids. injection Hids as <-.
    apply (bool_decide_unpack _). vm_compute. exact I.
Defined.

End ReportWitnesses.
